(** * Ingestion and classification pipeline of the financial agent backend

    A shallow embedding of the parts of [backend/app] that decide the
    behaviour of the ingestion pipeline: the transaction validator
    ([services/validators.py]), the legacy bank parsers
    ([services/parsers/base.py], [csv_parser.py]), the file detector
    ([services/file_detector.py]), the guided CSV extractor
    ([services/extractors/csv_extractor_llm.py]), the agent runner
    ([agents/base.py]), the smart parser agent ([agents/smart_parser.py]),
    the classification cascade
    ([agents/clasificacion.py]) and the two upload endpoints
    ([api/v1/extractos.py]).  The second half of the file adds the code
    around them: the keyword CSV extractor
    ([services/extractors/csv_extractor.py]), the session endpoints
    ([api/v1/clasificacion.py], [api/v1/conciliacion.py]), the
    classification tool of the chat ([services/chat_orchestrator.py]), the
    reconciliation agent ([agents/conciliacion.py]) and the alerts of the
    treasury agent ([agents/tesoreria.py]).

    Conventions of the model.
    - A Python [str] is a [string] holding its UTF-8 bytes.  Character
      classes (whitespace, digits, case) are the ASCII ones; the euro sign
      is the three bytes of its UTF-8 encoding.
    - A Python [float] that was read from a decimal numeral is kept as the
      normalised decimal [m * 10^x] it denotes ([PyNum.PyFloat], with the
      infinities and NaN apart): [float] rounds that number to the nearest
      double, so equal decimals are equal floats.  The sign of a zero is
      not kept.
    - Exceptions are values of [Exc]; a function that can raise returns
      [Exc + A] and handlers are pattern matches.
    - Calls of the logger of a module ([logger.info], [self.log_step]) have
      no effect on results and are left out.  The smart parser also calls
      [self.logger], an attribute no class defines: those calls raise
      [AttributeError] and are part of the model. *)

From Stdlib Require Import ZArith QArith String Ascii List Lia Bool Permutation.
From Stdlib Require Import DecimalString Sorted.
From stdpp Require Import base gmap strings list.

Open Scope string_scope.
Open Scope list_scope.
Open Scope Z_scope.

(** ** Exceptions *)

(** The exception classes the modelled code raises or catches.  [str(e)] is
    the message. *)
Inductive Exc : Type :=
| ValueError (msg : string)
| KeyError (msg : string)
| IndexError (msg : string)
| FileNotFoundError (msg : string)
| InvalidOperation (msg : string)
| RuntimeError (msg : string)
| AttributeError (msg : string)
| TypeError (msg : string)
| HTTPException (detail : string).

Definition exc_str (e : Exc) : string :=
  match e with
  | ValueError m | KeyError m | IndexError m
  | FileNotFoundError m | InvalidOperation m | RuntimeError m
  | AttributeError m | TypeError m
  | HTTPException m => m
  end.

(** ** Python string operations *)

Module PyStr.

Definition code (a : ascii) : Z := Z.of_N (N_of_ascii a).

(** [str.isspace] on the ASCII range: tab, newline, vertical tab, form
    feed, carriage return, the four separators 0x1c-0x1f and the space. *)
Definition is_space (a : ascii) : bool :=
  let n := code a in
  ((9 <=? n) && (n <=? 13)) || ((28 <=? n) && (n <=? 31)) || (n =? 32).

(** The whitespace [float] skips around a numeral (C's [isspace]). *)
Definition is_c_space (a : ascii) : bool :=
  let n := code a in ((9 <=? n) && (n <=? 13)) || (n =? 32).

Definition is_digit (a : ascii) : bool :=
  let n := code a in (48 <=? n) && (n <=? 57).

Definition digit_val (a : ascii) : Z := code a - 48.

Definition lower_char (a : ascii) : ascii :=
  let n := code a in
  if (65 <=? n) && (n <=? 90) then ascii_of_N (Z.to_N (n + 32)) else a.

Fixpoint lower (s : string) : string :=
  match s with
  | EmptyString => EmptyString
  | String c s' => String (lower_char c) (lower s')
  end.

Definition eqb_nocase (a b : ascii) : bool := Ascii.eqb (lower_char a) (lower_char b).

Definition len (s : string) : Z := Z.of_nat (String.length s).

Fixpoint lstrip_with (sp : ascii -> bool) (s : string) : string :=
  match s with
  | EmptyString => EmptyString
  | String c s' => if sp c then lstrip_with sp s' else s
  end.

Fixpoint all_chars (p : ascii -> bool) (s : string) : bool :=
  match s with
  | EmptyString => true
  | String c s' => p c && all_chars p s'
  end.

Fixpoint rstrip_with (sp : ascii -> bool) (s : string) : string :=
  match s with
  | EmptyString => EmptyString
  | String c s' => if all_chars sp s then EmptyString else String c (rstrip_with sp s')
  end.

(** [s.strip()] *)
Definition strip (s : string) : string := rstrip_with is_space (lstrip_with is_space s).

(** [s.startswith(p)] *)
Fixpoint startswith (p s : string) : bool :=
  match p, s with
  | EmptyString, _ => true
  | String a p', String b s' => Ascii.eqb a b && startswith p' s'
  | String _ _, EmptyString => false
  end.

(** [p in s] *)
Fixpoint contains (p s : string) : bool :=
  startswith p s ||
  match s with
  | EmptyString => false
  | String _ s' => contains p s'
  end.

(** [s.replace(old, new)] for a non-empty [old]: occurrences are taken left
    to right and do not overlap.  [skip] counts the characters of an
    occurrence still to be dropped. *)
Fixpoint replace_go (old new : string) (skip : nat) (s : string) : string :=
  match s with
  | EmptyString => EmptyString
  | String c s' =>
      match skip with
      | S k => replace_go old new k s'
      | O =>
          if startswith old s
          then new +:+ replace_go old new (String.length old - 1) s'
          else String c (replace_go old new 0 s')
      end
  end.

Definition replace (old new s : string) : string := replace_go old new 0 s.

(** [s.count(c)] for a one-character [c]. *)
Fixpoint count (c : ascii) (s : string) : Z :=
  match s with
  | EmptyString => 0
  | String a s' => (if Ascii.eqb a c then 1 else 0) + count c s'
  end.

(** [s.rfind(c)] for a one-character [c]: the highest index holding [c],
    or -1.  [find_from i s] scans [s], whose first character has index
    [i], and keeps the last hit. *)
Fixpoint rfind_from (c : ascii) (i : Z) (best : Z) (s : string) : Z :=
  match s with
  | EmptyString => best
  | String a s' => rfind_from c (i + 1) (if Ascii.eqb a c then i else best) s'
  end.

Definition rfind (c : ascii) (s : string) : Z := rfind_from c 0 (-1) s.

(** [s[:n]] *)
Fixpoint take (n : nat) (s : string) : string :=
  match n, s with
  | S k, String c s' => String c (take k s')
  | _, _ => EmptyString
  end.

(** [s[i:]] for [0 <= i] *)
Fixpoint drop (n : nat) (s : string) : string :=
  match n, s with
  | S k, String _ s' => drop k s'
  | _, _ => s
  end.

(** [re.sub(r'\s+', ' ', s)]: every maximal run of whitespace becomes one
    space.  [in_run] tells that the previous character was whitespace, so
    the space for this run is already written. *)
Fixpoint collapse_ws_go (in_run : bool) (s : string) : string :=
  match s with
  | EmptyString => EmptyString
  | String c s' =>
      if is_space c
      then (if in_run then collapse_ws_go true s' else String " " (collapse_ws_go true s'))
      else String c (collapse_ws_go false s')
  end.

Definition collapse_ws (s : string) : string := collapse_ws_go false s.

End PyStr.

(** ** Python numbers read from text *)

Module PyNum.
Import PyStr.

(** A [float]: the decimal [m * 10^x] it was read from (normalised so that
    [m] has no trailing zero), an infinity or a NaN. *)
Inductive PyFloat : Type :=
| Fin (m : Z) (x : Z)
| Inf (neg : bool)
| NaN.

Fixpoint norm10 (fuel : nat) (m x : Z) : Z * Z :=
  match fuel with
  | O => (m, x)
  | S f =>
      if m =? 0 then (0, 0)
      else if m mod 10 =? 0 then norm10 f (m / 10) (x + 1)
      else (m, x)
  end.

Definition py_float (m x : Z) : PyFloat :=
  let '(m', x') := norm10 (S (Z.to_nat (Z.log2 (Z.abs m)))) m x in Fin m' x'.

(** [a > 0] and [a < 0] on floats; every comparison with a NaN is false. *)
Definition float_gt0 (a : PyFloat) : bool :=
  match a with Fin m _ => 0 <? m | Inf neg => negb neg | NaN => false end.

Definition float_lt0 (a : PyFloat) : bool :=
  match a with Fin m _ => m <? 0 | Inf neg => neg | NaN => false end.

(** [digitpart ::= digit (["_"] digit)*].  [digitpart_go] runs after a first
    digit: it returns the value read, the number of digits and the rest. *)
Fixpoint digitpart_go (acc : Z) (n : nat) (s : string) : Z * nat * string :=
  match s with
  | EmptyString => (acc, n, s)
  | String c s' =>
      if is_digit c then digitpart_go (10 * acc + digit_val c) (S n) s'
      else if Ascii.eqb c "_" then
        match s' with
        | String d s'' =>
            if is_digit d then digitpart_go (10 * acc + digit_val d) (S n) s''
            else (acc, n, s)
        | EmptyString => (acc, n, s)
        end
      else (acc, n, s)
  end.

Definition digitpart (s : string) : option (Z * nat * string) :=
  match s with
  | String c s' => if is_digit c then Some (digitpart_go (digit_val c) 1 s') else None
  | EmptyString => None
  end.

Definition parse_sign (s : string) : bool * string :=
  match s with
  | String c r =>
      if Ascii.eqb c "-" then (true, r)
      else if Ascii.eqb c "+" then (false, r)
      else (false, s)
  | EmptyString => (false, s)
  end.

(** [number ::= [digitpart] "." digitpart | digitpart ["."]]: the digits
    read as one integer, how many of them follow the point, the rest. *)
Definition number (s : string) : option (Z * nat * string) :=
  match digitpart s with
  | Some (ip, _, r) =>
      match r with
      | String c r' =>
          if Ascii.eqb c "." then
            match digitpart r' with
            | Some _ => Some (digitpart_go ip 0 r')
            | None => Some (ip, O, r')
            end
          else Some (ip, O, r)
      | EmptyString => Some (ip, O, r)
      end
  | None =>
      match s with
      | String c r' => if Ascii.eqb c "." then digitpart r' else None
      | EmptyString => None
      end
  end.

(** [exponent ::= ("e" | "E") [sign] digitpart]; no exponent reads as 0. *)
Definition exponent (s : string) : option (Z * string) :=
  match s with
  | String c r =>
      if Ascii.eqb (lower_char c) "e" then
        let '(neg, r1) := parse_sign r in
        match digitpart r1 with
        | Some (v, _, r2) => Some (if neg then - v else v, r2)
        | None => None
        end
      else Some (0, s)
  | EmptyString => Some (0, s)
  end.

(** [float(s)]; [None] stands for the [ValueError]. *)
Definition float_of_string (s : string) : option PyFloat :=
  let s := rstrip_with is_c_space (lstrip_with is_c_space s) in
  let '(neg, r) := parse_sign s in
  let lr := lower r in
  if String.eqb lr "inf" || String.eqb lr "infinity" then Some (Inf neg)
  else if String.eqb lr "nan" then Some NaN
  else
    match number r with
    | Some (m, nf, r1) =>
        match exponent r1 with
        | Some (e, EmptyString) =>
            Some (py_float (if neg then - m else m) (e - Z.of_nat nf))
        | _ => None
        end
    | None => None
    end.

(** Decimal digits of a natural number. *)
Definition digits_of (n : Z) : string := NilZero.string_of_uint (N.to_uint (Z.to_N n)).

Fixpoint zeros (n : nat) : string :=
  match n with O => EmptyString | S k => String "0" (zeros k) end.

(** [repr(x)], which is also [str(x)] and what an f-string writes.  For a
    double read from a numeral of at most 15 significant digits the
    shortest digits that read back as the same double are those of the
    numeral, so the text is fixed by [m] and [x]: with [ds] the digits of
    [|m|] and [decpt] the place of the point ([|m * 10^x| = 0.ds * 10^decpt]),
    fixed notation is used when [-4 < decpt <= 16] and exponent notation
    otherwise. *)
Definition float_repr (a : PyFloat) : string :=
  match a with
  | NaN => "nan"
  | Inf neg => if neg then "-inf" else "inf"
  | Fin m x =>
      if m =? 0 then "0.0"
      else
        let sgn := if m <? 0 then "-" else "" in
        let ds := digits_of (Z.abs m) in
        let nd := len ds in
        let decpt := nd + x in
        if (decpt <=? -4) || (16 <? decpt) then
          let e := decpt - 1 in
          let frac := drop 1 ds in
          sgn +:+ take 1 ds +:+ (if String.eqb frac "" then "" else "." +:+ frac)
              +:+ "e" +:+ (if e <? 0 then "-" else "+")
              +:+ (if Z.abs e <? 10 then "0" else "") +:+ digits_of (Z.abs e)
        else if decpt <=? 0 then
          sgn +:+ "0." +:+ zeros (Z.to_nat (- decpt)) +:+ ds
        else if nd <=? decpt then
          sgn +:+ ds +:+ zeros (Z.to_nat (decpt - nd)) +:+ ".0"
        else
          sgn +:+ take (Z.to_nat decpt) ds +:+ "." +:+ drop (Z.to_nat decpt) ds
  end.

(** A [decimal.Decimal]: sign, coefficient and exponent as written (no
    normalisation: [Decimal("1.50")] keeps exponent -2), or a special
    value. *)
Inductive PyDecimal : Type :=
| DFin (neg : bool) (coef : Z) (exp : Z)
| DInf (neg : bool)
| DNaN (neg : bool) (signaling : bool) (payload : string).

(** Value of a run of digits, most significant first. *)
Fixpoint digits_value (acc : Z) (s : string) : Z :=
  match s with
  | EmptyString => acc
  | String c s' => digits_value (10 * acc + digit_val c) s'
  end.

(** Splits a string at its first character that is not a digit. *)
Fixpoint span_digits (s : string) : string * string :=
  match s with
  | EmptyString => (EmptyString, EmptyString)
  | String c s' =>
      if is_digit c then let '(d, r) := span_digits s' in (String c d, r)
      else (EmptyString, s)
  end.

(** The finite numerals [Decimal] reads: digits, optionally a point and
    more digits (at least one digit in all), optionally [E], a sign and
    one digit or more; nothing may follow. *)
Definition decimal_finite (neg : bool) (s : string) : option PyDecimal :=
  let '(ip, r) := span_digits s in
  let '(fp, r1, has_point) :=
    match r with
    | String c r' =>
        if Ascii.eqb c "." then let '(f, r'') := span_digits r' in (f, r'', true)
        else (EmptyString, r, false)
    | EmptyString => (EmptyString, r, false)
    end in
  if String.eqb ip "" && String.eqb fp "" then None
  else
    let coef := digits_value 0 (ip +:+ fp) in
    let nf := len fp in
    match r1 with
    | EmptyString => Some (DFin neg coef (- nf))
    | String c r2 =>
        if Ascii.eqb (lower_char c) "e" then
          let '(eneg, r3) := parse_sign r2 in
          if negb (String.eqb r3 "") && all_chars is_digit r3
          then Some (DFin neg coef ((if eneg then - digits_value 0 r3 else digits_value 0 r3) - nf))
          else None
        else None
    end.

(** [Decimal(s)] for a string: surrounding whitespace and every underscore
    are dropped first; [None] stands for [InvalidOperation].  (The bound
    the C implementation puts on the size of the exponent is not
    modelled.) *)
Definition Decimal (s : string) : option PyDecimal :=
  let s := replace "_" "" (strip s) in
  let '(neg, r) := parse_sign s in
  let lr := lower r in
  if String.eqb lr "inf" || String.eqb lr "infinity" then Some (DInf neg)
  else if startswith "nan" lr && all_chars is_digit (drop 3 lr)
  then Some (DNaN neg false (drop 3 lr))
  else if startswith "snan" lr && all_chars is_digit (drop 4 lr)
  then Some (DNaN neg true (drop 4 lr))
  else decimal_finite neg r.

Definition Decimal_zero : PyDecimal := DFin false 0 0.

(** [d == 0]: true for a zero coefficient, false for infinities and quiet
    NaNs; a signaling NaN raises [InvalidOperation]. *)
Definition decimal_eq0 (d : PyDecimal) : Exc + bool :=
  match d with
  | DFin _ c _ => inr (c =? 0)
  | DInf _ => inr false
  | DNaN _ false _ => inr false
  | DNaN _ true _ => inl (InvalidOperation "sNaN")
  end.

(** [d > 0]: an order comparison with any NaN raises [InvalidOperation]. *)
Definition decimal_gt0 (d : PyDecimal) : Exc + bool :=
  match d with
  | DFin neg c _ => inr (negb neg && (0 <? c))
  | DInf neg => inr (negb neg)
  | DNaN _ _ _ => inl (InvalidOperation "NaN")
  end.

(** [float(d)]: a signaling NaN raises [ValueError]. *)
Definition float_of_decimal (d : PyDecimal) : Exc + PyFloat :=
  match d with
  | DFin neg c e => inr (py_float (if neg then - c else c) e)
  | DInf neg => inr (Inf neg)
  | DNaN _ false _ => inr NaN
  | DNaN _ true _ => inl (ValueError "cannot convert signaling NaN to float")
  end.

End PyNum.

(** ** Calendar dates and [datetime.strptime] *)

Module PyDate.
Import PyStr PyNum.

Record date : Type := mkdate { year : Z; month : Z; day : Z }.

Definition is_leap (y : Z) : bool :=
  (y mod 4 =? 0) && (negb (y mod 100 =? 0) || (y mod 400 =? 0)).

Definition days_in_month (y m : Z) : Z :=
  if m =? 2 then (if is_leap y then 29 else 28)
  else if (m =? 4) || (m =? 6) || (m =? 9) || (m =? 11) then 30
  else 31.

(** [datetime(y, m, d)]; [None] stands for the [ValueError] raised for a
    year outside 1..9999, a month outside 1..12 or a day the month does not
    have. *)
Definition make_date (y m d : Z) : option date :=
  if (1 <=? y) && (y <=? 9999) && (1 <=? m) && (m <=? 12)
     && (1 <=? d) && (d <=? days_in_month y m)
  then Some (mkdate y m d) else None.

Definition pad (width : nat) (n : Z) : string :=
  let ds := digits_of n in zeros (width - String.length ds) +:+ ds.

(** [d.isoformat()] *)
Definition isoformat (d : date) : string :=
  pad 4 (year d) +:+ "-" +:+ pad 2 (month d) +:+ "-" +:+ pad 2 (day d).

(** The directives of the formats used, and literal characters. *)
Inductive Directive : Type := DirY | Dirm | Dird | Diry | Lit (c : ascii).

Definition in_range (lo hi : ascii) (a : ascii) : bool :=
  (code lo <=? code a) && (code a <=? code hi).

(** The regular expression [strptime] compiles for a directive, as its
    alternatives in the order the regex engine tries them; each alternative
    is a sequence of character classes ([_strptime.TimeRE]). *)
Definition alternatives (k : Directive) : list (list (ascii -> bool)) :=
  match k with
  | Dird => [ [Ascii.eqb "3"; in_range "0" "1"];
              [in_range "1" "2"; is_digit];
              [Ascii.eqb "0"; in_range "1" "9"];
              [in_range "1" "9"];
              [Ascii.eqb " "; in_range "1" "9"] ]
  | Dirm => [ [Ascii.eqb "1"; in_range "0" "2"];
              [Ascii.eqb "0"; in_range "1" "9"];
              [in_range "1" "9"] ]
  | DirY => [ [is_digit; is_digit; is_digit; is_digit] ]
  | Diry => [ [is_digit; is_digit] ]
  | Lit c => [ [Ascii.eqb c] ]
  end.

(** Matches a sequence of character classes at the head of [s]: the text
    matched and the rest. *)
Fixpoint match_seq (cs : list (ascii -> bool)) (s : string) : option (string * string) :=
  match cs with
  | [] => Some (EmptyString, s)
  | p :: cs' =>
      match s with
      | String a s' =>
          if p a then
            match match_seq cs' s' with
            | Some (t, r) => Some (String a t, r)
            | None => None
            end
          else None
      | EmptyString => None
      end
  end.

(** [int(t)] for a matched field: digits, possibly after a space. *)
Definition int_of_field (t : string) : Z :=
  digits_value 0 (lstrip_with is_space t).

Record fields : Type := mkfields { fY : Z; fm : Z; fd : Z }.

(** [strptime]'s defaults: 1900-01-01. *)
Definition no_fields : fields := mkfields 1900 1 1.

Definition set_field (k : Directive) (t : string) (f : fields) : fields :=
  let v := int_of_field t in
  match k with
  | DirY => mkfields v (fm f) (fd f)
  | Diry => mkfields (if v <=? 68 then 2000 + v else 1900 + v) (fm f) (fd f)
  | Dirm => mkfields (fY f) v (fd f)
  | Dird => mkfields (fY f) (fm f) v
  | Lit _ => f
  end.

(** [format_regex.match(data_string)]: the first way, in the engine's
    order, of matching the whole format at the head of [s]; a later
    alternative of a directive is tried when the rest of the format fails
    after an earlier one. *)
Fixpoint re_match (fmt : list Directive) (s : string) (acc : fields) : option (fields * string) :=
  match fmt with
  | [] => Some (acc, s)
  | k :: fmt' =>
      (fix try (alts : list (list (ascii -> bool))) : option (fields * string) :=
         match alts with
         | [] => None
         | a :: more =>
             match match_seq a s with
             | Some (t, r) =>
                 match re_match fmt' r (set_field k t acc) with
                 | Some res => Some res
                 | None => try more
                 end
             | None => try more
             end
         end) (alternatives k)
  end.

(** [datetime.strptime(s, fmt).date()] *)
Definition strptime (s : string) (fmt : list Directive) : Exc + date :=
  match re_match fmt s no_fields with
  | None => inl (ValueError ("time data does not match format: " +:+ s))
  | Some (f, r) =>
      if String.eqb r "" then
        match make_date (fY f) (fm f) (fd f) with
        | Some d => inr d
        | None => inl (ValueError "day is out of range for month")
        end
      else inl (ValueError ("unconverted data remains: " +:+ r))
  end.

Definition fmt_Ymd_dash : list Directive := [DirY; Lit "-"; Dirm; Lit "-"; Dird].
Definition fmt_dmY_slash : list Directive := [Dird; Lit "/"; Dirm; Lit "/"; DirY].
Definition fmt_dmY_dash : list Directive := [Dird; Lit "-"; Dirm; Lit "-"; DirY].
Definition fmt_dmY_dot : list Directive := [Dird; Lit "."; Dirm; Lit "."; DirY].
Definition fmt_Ymd_slash : list Directive := [DirY; Lit "/"; Dirm; Lit "/"; Dird].
Definition fmt_dmy_slash : list Directive := [Dird; Lit "/"; Dirm; Lit "/"; Diry].
Definition fmt_Ymd : list Directive := [DirY; Dirm; Dird].

(** A pattern of [DATE_PATTERNS]: groups of a fixed number of digits and
    literal separators. *)
Inductive PatItem : Type := Digits (n : nat) | Sep (c : ascii).

Fixpoint pat_match (p : list PatItem) (s : string) : option (list string) :=
  match p with
  | [] => Some []
  | Sep c :: p' =>
      match s with
      | String a s' => if Ascii.eqb a c then pat_match p' s' else None
      | EmptyString => None
      end
  | Digits n :: p' =>
      match match_seq (repeat is_digit n) s with
      | Some (t, r) =>
          match pat_match p' r with
          | Some gs => Some (t :: gs)
          | None => None
          end
      | None => None
      end
  end.

(** [re.search(pattern, s)]: the groups of the leftmost match. *)
Fixpoint re_search (p : list PatItem) (s : string) : option (list string) :=
  match pat_match p s with
  | Some gs => Some gs
  | None =>
      match s with
      | String _ s' => re_search p s'
      | EmptyString => None
      end
  end.

End PyDate.

(** ** [services/validators.py]: [TransactionValidator] *)

Module Validators.
Import PyStr PyNum PyDate.

(** An extracted transaction, as the extractors build it: a dict with text
    values.  [None] is an absent key. *)
Record RawTx : Type := mkRawTx {
  raw_fecha : option string;
  raw_concepto : option string;
  raw_importe : option string;
  raw_referencia : option string;
  raw_metadata : list (string * string)
}.

(** A validated transaction: [fecha] in ISO form, [importe] a float. *)
Record ValidTx : Type := mkValidTx {
  fecha : string;
  concepto : string;
  importe : PyFloat;
  referencia : option string;
  metadata : list (string * string)
}.

(** [DATE_PATTERNS] *)
Definition DATE_PATTERNS : list (list PatItem) :=
  [ [Digits 4; Sep "-"; Digits 2; Sep "-"; Digits 2];
    [Digits 2; Sep "/"; Digits 2; Sep "/"; Digits 4];
    [Digits 2; Sep "-"; Digits 2; Sep "-"; Digits 4];
    [Digits 2; Sep "."; Digits 2; Sep "."; Digits 4] ].

(** The formats of the first loop of [_parse_date], in its order. *)
Definition DATE_FORMATS : list (list Directive) :=
  [fmt_Ymd_dash; fmt_dmY_slash; fmt_dmY_dash; fmt_dmY_dot; fmt_Ymd_slash].

(** First loop: the first format [strptime] accepts. *)
Fixpoint try_formats (fmts : list (list Directive)) (s : string) : option date :=
  match fmts with
  | [] => None
  | fmt :: rest =>
      match strptime s fmt with
      | inr d => Some d
      | inl _ => try_formats rest s
      end
  end.

(** The date of the groups of a regex match: the year comes first when the
    first group has four characters. *)
Definition date_of_groups (gs : list string) : option date :=
  match gs with
  | [g0; g1; g2] =>
      if String.length g0 =? 4
      then make_date (digits_value 0 g0) (digits_value 0 g1) (digits_value 0 g2)
      else make_date (digits_value 0 g2) (digits_value 0 g1) (digits_value 0 g0)
  | _ => None
  end%nat.

(** Second loop: the first pattern found in the text whose groups are a
    date. *)
Fixpoint try_patterns (ps : list (list PatItem)) (s : string) : option date :=
  match ps with
  | [] => None
  | p :: rest =>
      match re_search p s with
      | Some gs =>
          match date_of_groups gs with
          | Some d => Some d
          | None => try_patterns rest s
          end
      | None => try_patterns rest s
      end
  end.

Definition _parse_date (date_str : string) : Exc + string :=
  let date_str := strip date_str in
  match try_formats DATE_FORMATS date_str with
  | Some d => inr (isoformat d)
  | None =>
      match try_patterns DATE_PATTERNS date_str with
      | Some d => inr (isoformat d)
      | None => inl (ValueError ("No se pudo parsear fecha: " +:+ date_str))
      end
  end.

(** The euro sign. *)
Definition euro : string := "€".

(** The first statements of [_parse_amount]: surrounding whitespace, then
    every space, euro sign, dollar sign, [USD] and [EUR] are removed, in
    this order. *)
Definition strip_currency (amount_str : string) : string :=
  replace "EUR" "" (replace "USD" "" (replace "$" "" (replace euro ""
    (replace " " "" (strip amount_str))))).

(** The separator rules of [_parse_amount] on the cleaned text. *)
Definition normalize_separators (s : string) : string :=
  let num_commas := count "," s in
  let num_dots := count "." s in
  if (0 <? num_commas) && (0 <? num_dots) then
    let last_comma := rfind "," s in
    let last_dot := rfind "." s in
    if last_dot <? last_comma
    then replace "," "." (replace "." "" s)
    else replace "," "" s
  else if 0 <? num_commas then
    if (num_commas =? 1) && (len s - 4 <? rfind "," s)
    then replace "," "." s
    else replace "," "" s
  else s.

Definition _parse_amount (amount_str : string) : Exc + PyFloat :=
  let s := normalize_separators (strip_currency amount_str) in
  match float_of_string s with
  | Some f => inr f
  | None => inl (ValueError ("No se pudo parsear importe: " +:+ s))
  end.

Definition _clean_concept (concept : string) : string :=
  collapse_ws (strip concept).

(** [validate]: the dict display evaluates its values in order, so a bad
    date is reported before a bad amount; a missing ['fecha'] or
    ['importe'] key is a [KeyError]. *)
Definition validate (tx : RawTx) : Exc + ValidTx :=
  match raw_fecha tx with
  | None => inl (KeyError "'fecha'")
  | Some f =>
      match _parse_date f with
      | inl e => inl e
      | inr iso =>
          let c := _clean_concept (default "" (raw_concepto tx)) in
          match raw_importe tx with
          | None => inl (KeyError "'importe'")
          | Some a =>
              match _parse_amount a with
              | inl e => inl e
              | inr v => inr (mkValidTx iso c v (raw_referencia tx) (raw_metadata tx))
              end
          end
      end
  end.

End Validators.

(** ** Facts about the string operations *)

Module PyStrFacts.
Import PyStr.

(** [c] does not occur in [s]. *)
Definition absent (c : ascii) (s : string) : Prop := forall i, String.get i s <> Some c.
(** [i] is the index of the last occurrence of [c] in [s]. *)
Definition last_pos (c : ascii) (s : string) (i : nat) : Prop :=
  String.get i s = Some c /\ forall j, (i < j)%nat -> String.get j s <> Some c.

Lemma count_nonneg c s : 0 <= count c s.
Proof. induction s as [|a s IH]; simpl; [lia|]. destruct (Ascii.eqb a c); lia. Qed.

Lemma count_absent c s : absent c s -> count c s = 0.
Proof.
  induction s as [|a s IH]; intros H; simpl; [reflexivity|].
  destruct (Ascii.eqb_spec a c) as [->|Hne].
  - exfalso. apply (H 0%nat). reflexivity.
  - rewrite IH; [reflexivity|]. intros i Hi. apply (H (S i)). exact Hi.
Qed.

Lemma count_present c s i : String.get i s = Some c -> 0 < count c s.
Proof.
  revert i. induction s as [|a s IH]; intros i H; simpl in *; [discriminate|].
  destruct i as [|i].
  - injection H as ->. rewrite Ascii.eqb_refl. pose proof (count_nonneg c s). lia.
  - specialize (IH _ H). destruct (Ascii.eqb a c); lia.
Qed.

Lemma count_unique c s i :
  String.get i s = Some c -> (forall j, String.get j s = Some c -> j = i) -> count c s = 1.
Proof.
  revert i. induction s as [|a s IH]; intros i H U; simpl in *; [discriminate|].
  destruct i as [|i].
  - injection H as ->. rewrite Ascii.eqb_refl.
    rewrite count_absent; [reflexivity|].
    intros j Hj. specialize (U (S j) Hj). discriminate.
  - destruct (Ascii.eqb_spec a c) as [->|Hne].
    + specialize (U 0%nat eq_refl). discriminate.
    + rewrite (IH i H); [reflexivity|]. intros j Hj. specialize (U (S j) Hj). lia.
Qed.

Lemma count_two c s i j :
  String.get i s = Some c -> String.get j s = Some c -> i <> j -> 2 <= count c s.
Proof.
  revert i j. induction s as [|a s IH]; intros i j Hi Hj Hne; simpl in *; [discriminate|].
  destruct i as [|i], j as [|j]; try congruence.
  - injection Hi as ->. rewrite Ascii.eqb_refl. pose proof (count_present _ _ _ Hj). lia.
  - injection Hj as ->. rewrite Ascii.eqb_refl. pose proof (count_present _ _ _ Hi). lia.
  - assert (i <> j) by congruence. specialize (IH _ _ Hi Hj H).
    destruct (Ascii.eqb a c); lia.
Qed.

Lemma rfind_from_absent c k best s : absent c s -> rfind_from c k best s = best.
Proof.
  revert k best. induction s as [|a s IH]; intros k best H; simpl; [reflexivity|].
  destruct (Ascii.eqb_spec a c) as [->|Hne].
  - exfalso. apply (H 0%nat). reflexivity.
  - apply IH. intros i Hi. apply (H (S i)). exact Hi.
Qed.

Lemma rfind_from_last c k best s i :
  last_pos c s i -> rfind_from c k best s = k + Z.of_nat i.
Proof.
  revert k best i. induction s as [|a s IH]; intros k best i [Hi Hl]; simpl in *; [discriminate|].
  destruct i as [|i].
  - injection Hi as ->. rewrite Ascii.eqb_refl.
    rewrite rfind_from_absent; [lia|].
    intros j Hj. apply (Hl (S j)); [lia|exact Hj].
  - rewrite (IH (k + 1) _ i); [lia|]. split; [exact Hi|].
    intros j Hlt Hj. apply (Hl (S j)); [lia|exact Hj].
Qed.

Lemma rfind_last c s i : last_pos c s i -> rfind c s = Z.of_nat i.
Proof. intros H. unfold rfind. rewrite (rfind_from_last _ _ _ _ _ H). lia. Qed.

End PyStrFacts.

(** ** Properties of the validator *)

Module ValidatorFacts.
Import PyStr PyNum PyDate Validators PyStrFacts.

(** The last statement of [_parse_amount] on the text the separator rules
    produced. *)
Definition to_float (s : string) : Exc + PyFloat :=
  match float_of_string s with
  | Some f => inr f
  | None => inl (ValueError ("No se pudo parsear importe: " +:+ s))
  end.

Lemma parse_amount_unfold amount_str :
  _parse_amount amount_str = to_float (normalize_separators (strip_currency amount_str)).
Proof. reflexivity. Qed.

Lemma both_comma_last c i j :
  last_pos "," c i -> last_pos "." c j -> (j < i)%nat ->
  normalize_separators c = replace "," "." (replace "." "" c).
Proof.
  intros Hi Hj Hlt. unfold normalize_separators.
  pose proof (count_present _ _ _ (proj1 Hi)) as Hc.
  pose proof (count_present _ _ _ (proj1 Hj)) as Hd.
  rewrite (rfind_last _ _ _ Hi), (rfind_last _ _ _ Hj).
  destruct (Z.ltb_spec 0 (count "," c)); [|lia].
  destruct (Z.ltb_spec 0 (count "." c)); [|lia].
  simpl. destruct (Z.ltb_spec (Z.of_nat j) (Z.of_nat i)); [reflexivity|lia].
Qed.

Lemma both_dot_last c i j :
  last_pos "," c i -> last_pos "." c j -> (i < j)%nat ->
  normalize_separators c = replace "," "" c.
Proof.
  intros Hi Hj Hlt. unfold normalize_separators.
  pose proof (count_present _ _ _ (proj1 Hi)) as Hc.
  pose proof (count_present _ _ _ (proj1 Hj)) as Hd.
  rewrite (rfind_last _ _ _ Hi), (rfind_last _ _ _ Hj).
  destruct (Z.ltb_spec 0 (count "," c)); [|lia].
  destruct (Z.ltb_spec 0 (count "." c)); [|lia].
  simpl. destruct (Z.ltb_spec (Z.of_nat j) (Z.of_nat i)); [lia|reflexivity].
Qed.

Lemma single_comma_near_end c i :
  absent "." c -> String.get i c = Some ","%char ->
  (forall j, String.get j c = Some ","%char -> j = i) ->
  (String.length c <= i + 3)%nat ->
  normalize_separators c = replace "," "." c.
Proof.
  intros Hd Hi Hu Hend. unfold normalize_separators.
  rewrite (count_absent _ _ Hd), (count_unique _ _ _ Hi Hu).
  assert (Hl : last_pos "," c i).
  { split; [exact Hi|]. intros j Hlt Hj. specialize (Hu _ Hj). lia. }
  rewrite (rfind_last _ _ _ Hl). unfold len. simpl.
  destruct (Z.ltb_spec (Z.of_nat (String.length c) - 4) (Z.of_nat i)); [reflexivity|lia].
Qed.

Lemma comma_thousands c i :
  absent "." c -> last_pos "," c i ->
  (exists j, j <> i /\ String.get j c = Some ","%char) \/ (i + 3 < String.length c)%nat ->
  normalize_separators c = replace "," "" c.
Proof.
  intros Hd Hl Hor. unfold normalize_separators.
  pose proof (count_present _ _ _ (proj1 Hl)) as Hc.
  rewrite (count_absent _ _ Hd), (rfind_last _ _ _ Hl).
  destruct (Z.ltb_spec 0 (count "," c)); [|lia]. simpl.
  destruct Hor as [(j & Hne & Hj)|Hfar].
  - pose proof (count_two _ _ _ _ Hj (proj1 Hl) Hne).
    destruct (Z.eqb_spec (count "," c) 1); [lia|reflexivity].
  - unfold len.
    destruct (Z.ltb_spec (Z.of_nat (String.length c) - 4) (Z.of_nat i)); [lia|].
    rewrite andb_false_r. reflexivity.
Qed.

Lemma no_comma c : absent "," c -> normalize_separators c = c.
Proof.
  intros Hc. unfold normalize_separators. rewrite (count_absent _ _ Hc). reflexivity.
Qed.

(** C5. [_parse_amount] first removes surrounding whitespace, spaces and the
    currency marks ([strip_currency]); on the text [c] that is left, with
    [i] the index of the last comma and [j] that of the last dot:
    when both occur, the one occurring later is the decimal separator (the
    other one is dropped as a grouping mark); when a single comma and no dot
    occurs and the comma is among the last three characters, the comma is the
    decimal separator; a comma that is not alone or lies further from the
    end is a thousands separator and is dropped; without a comma the text is
    read as it is.  The four amounts of the specification parse to 1234.56,
    1234.56, -123.45 and 1234.56. *)
Theorem parse_amount_decimal_convention :
  forall amount_str : string,
    let c := strip_currency amount_str in
    (forall i j, last_pos "," c i -> last_pos "." c j -> (j < i)%nat ->
       _parse_amount amount_str = to_float (replace "," "." (replace "." "" c)))
    /\ (forall i j, last_pos "," c i -> last_pos "." c j -> (i < j)%nat ->
       _parse_amount amount_str = to_float (replace "," "" c))
    /\ (forall i, absent "." c -> String.get i c = Some ","%char ->
       (forall j, String.get j c = Some ","%char -> j = i) ->
       (String.length c <= i + 3)%nat ->
       _parse_amount amount_str = to_float (replace "," "." c))
    /\ (forall i, absent "." c -> last_pos "," c i ->
       (exists j, j <> i /\ String.get j c = Some ","%char) \/ (i + 3 < String.length c)%nat ->
       _parse_amount amount_str = to_float (replace "," "" c))
    /\ (absent "," c -> _parse_amount amount_str = to_float c)
    /\ _parse_amount "1.234,56" = inr (Fin 123456 (-2))
    /\ _parse_amount "1,234.56" = inr (Fin 123456 (-2))
    /\ _parse_amount "-123.45" = inr (Fin (-12345) (-2))
    /\ _parse_amount "€ 1.234,56" = inr (Fin 123456 (-2))
    /\ _parse_amount "2500,00" = inr (Fin 25 2)
    /\ _parse_amount "1,234" = inr (Fin 1234 0).
Proof.
  intros amount_str c. rewrite parse_amount_unfold. fold c.
  repeat split.
  - intros i j Hi Hj Hlt. now rewrite (both_comma_last c i j).
  - intros i j Hi Hj Hlt. now rewrite (both_dot_last c i j).
  - intros i Hd Hi Hu Hend. now rewrite (single_comma_near_end c i).
  - intros i Hd Hl Hor. now rewrite (comma_thousands c i).
  - intros Hc. now rewrite (no_comma c).
Qed.

End ValidatorFacts.

(** ** [services/file_detector.py]: [FileDetector] *)

Module FileDetector.
Import PyStr.

(** [supported_extensions], in insertion order. *)
Definition supported_extensions : list (string * string) :=
  [ (".csv", "csv"); (".txt", "csv"); (".xls", "excel"); (".xlsx", "excel");
    (".xlsm", "excel"); (".ofx", "ofx"); (".pdf", "pdf"); (".jpg", "image");
    (".jpeg", "image"); (".png", "image"); (".webp", "image"); (".gif", "image");
    (".html", "html"); (".htm", "html") ].

(** [d.get(k)] on a dict given by its items. *)
Fixpoint dict_get (k : string) (d : list (string * string)) : option string :=
  match d with
  | [] => None
  | (k', v) :: d' => if String.eqb k' k then Some v else dict_get k d'
  end.

(** [s.split(c)] for a one-character separator. *)
Fixpoint split_on (c : ascii) (s : string) : list string :=
  match s with
  | EmptyString => [EmptyString]
  | String a s' =>
      if Ascii.eqb a c then EmptyString :: split_on c s'
      else
        match split_on c s' with
        | x :: xs => String a x :: xs
        | [] => [String a EmptyString]
        end
  end.

(** [sep.join(l)] *)
Fixpoint join (sep : string) (l : list string) : string :=
  match l with
  | [] => EmptyString
  | [x] => x
  | x :: l' => x +:+ sep +:+ join sep l'
  end.

(** [Path(p).name] on a POSIX path: the last component, empty components
    and [.] components being dropped when the path is parsed. *)
Definition path_name (p : string) : string :=
  List.last
    (List.filter (fun x => negb (String.eqb x "") && negb (String.eqb x "."))
                 (split_on "/" p))
    EmptyString.

(** [Path(p).suffix]: the name from its last dot on, unless that dot opens
    or closes the name. *)
Definition suffix (p : string) : string :=
  let name := path_name p in
  let i := rfind "." name in
  if (0 <? i) && (i <? len name - 1) then drop (Z.to_nat i) name else EmptyString.

(** The message of the [ValueError] raised for an extension that is not
    supported. *)
Definition unsupported_message (extension : string) : string :=
  "Formato no soportado: " +:+ extension +:+ ". Soportados: "
    +:+ join ", " (map fst supported_extensions).

(** [detect].  [files] is the file system the path is looked up in (a path
    maps to the bytes of the file) and [guess_type] is
    [mimetypes.guess_type], which reads a table of the installation. *)
Definition detect (files : gmap string string) (guess_type : string -> option string)
    (file_path : string) : Exc + (string * string) :=
  match files !! file_path with
  | None => inl (FileNotFoundError ("Archivo no encontrado: " +:+ file_path))
  | Some _ =>
      let extension := lower (suffix file_path) in
      match dict_get extension supported_extensions with
      | Some formato =>
          if String.eqb formato "" then inl (ValueError (unsupported_message extension))
          else
            let mime_type :=
              match guess_type file_path with
              | Some m => if String.eqb m "" then "application/octet-stream" else m
              | None => "application/octet-stream"
              end in
            inr (formato, mime_type)
      | None => inl (ValueError (unsupported_message extension))
      end
  end.

Definition is_supported (files : gmap string string) (guess_type : string -> option string)
    (file_path : string) : bool :=
  match detect files guess_type file_path with
  | inr _ => true
  | inl (ValueError _) | inl (FileNotFoundError _) => false
  | inl _ => false
  end.

End FileDetector.

(** ** Properties of the file detector *)

Module FileDetectorFacts.
Import PyStr FileDetector.

Lemma startswith_app p y : startswith p (p +:+ y) = true.
Proof.
  induction p as [|a p IH]; simpl; [reflexivity|].
  rewrite Ascii.eqb_refl. exact IH.
Qed.

Lemma contains_here p s : startswith p s = true -> contains p s = true.
Proof. intros H. destruct s; simpl in *; rewrite H; reflexivity. Qed.

Lemma contains_app_r p x y : contains p y = true -> contains p (x +:+ y) = true.
Proof.
  intros H. induction x as [|a x IH]; simpl; [exact H|].
  rewrite IH. apply orb_true_r.
Qed.

Lemma contains_app_mid p x y : contains p (x +:+ p +:+ y) = true.
Proof. apply contains_app_r, contains_here, startswith_app. Qed.

Lemma dict_get_values (P : string -> Prop) k f d :
  Forall (fun kv => P (snd kv)) d -> dict_get k d = Some f -> P f.
Proof.
  induction 1 as [|[k' v] d Hv _ IH]; simpl; [discriminate|].
  destruct (String.eqb k' k); [intros [= <-]; exact Hv|exact IH].
Qed.

Lemma supported_nonempty k f :
  dict_get k supported_extensions = Some f -> String.eqb f "" = false.
Proof.
  apply (dict_get_values (fun v => String.eqb v "" = false)).
  unfold supported_extensions. repeat constructor.
Qed.

Lemma message_names_extension ext : contains ext (unsupported_message ext) = true.
Proof. unfold unsupported_message. apply contains_app_mid. Qed.

Lemma message_names_supported ext e :
  In e (map fst supported_extensions) -> contains e (unsupported_message ext) = true.
Proof.
  intros Hin. unfold unsupported_message.
  apply contains_app_r, contains_app_r, contains_app_r.
  simpl in Hin.
  repeat (destruct Hin as [<-|Hin]; [vm_compute; reflexivity|]).
  destruct Hin.
Qed.

(** C7, as the code has it.  [detect] looks the path up first.  A path
    that names no file and has a supported extension fails with
    [FileNotFoundError].  A file that exists and whose extension (lower
    case) is not a key of [supported_extensions] fails with a [ValueError]
    whose message names that extension and every supported one.  A file
    that exists and has a supported extension yields its category and a
    media type, whatever its content, the empty content included.  [detect]
    only reads the file system it is given. *)
Theorem detect_contract :
  forall (files : gmap string string) (guess_type : string -> option string)
         (file_path : string),
    let ext := lower (suffix file_path) in
    (files !! file_path = None ->
     is_Some (dict_get ext supported_extensions) ->
     detect files guess_type file_path
     = inl (FileNotFoundError ("Archivo no encontrado: " +:+ file_path)))
    /\ (is_Some (files !! file_path) ->
        dict_get ext supported_extensions = None ->
        detect files guess_type file_path = inl (ValueError (unsupported_message ext))
        /\ contains ext (unsupported_message ext) = true
        /\ forall e, In e (map fst supported_extensions) ->
                     contains e (unsupported_message ext) = true)
    /\ (forall content formato,
        files !! file_path = Some content ->
        dict_get ext supported_extensions = Some formato ->
        exists mime_type,
          detect files guess_type file_path = inr (formato, mime_type)
          /\ mime_type <> "").
Proof.
  intros files guess_type file_path ext. split; [|split].
  - intros Hnone _. unfold detect. rewrite Hnone. reflexivity.
  - intros [content Hsome] Hext. split; [|split].
    + unfold detect. rewrite Hsome. fold ext. rewrite Hext. reflexivity.
    + apply message_names_extension.
    + intros e. apply message_names_supported.
  - intros content formato Hsome Hext.
    unfold detect. rewrite Hsome. fold ext. rewrite Hext.
    rewrite (supported_nonempty _ _ Hext).
    destruct (guess_type file_path) as [m|].
    + destruct (String.eqb_spec m "") as [->|Hne].
      * eexists. split; [reflexivity|discriminate].
      * eexists. split; [reflexivity|exact Hne].
    + eexists. split; [reflexivity|discriminate].
Qed.

(** A file of zero bytes with a supported extension is accepted: [detect]
    never looks at the size. *)
Lemma detect_accepts_zero_byte_file :
  ({[ "empty.csv" := "" ]} : gmap string string) !! "empty.csv" = Some ""
  /\ detect {[ "empty.csv" := "" ]} (fun _ => Some "text/csv") "empty.csv"
     = inr ("csv", "text/csv")
  /\ ~ (exists msg, detect {[ "empty.csv" := "" ]} (fun _ => Some "text/csv") "empty.csv"
                    = inl (FileNotFoundError msg)).
Proof.
  split; [reflexivity|]. split; [reflexivity|].
  intros [msg H]. vm_compute in H. discriminate.
Qed.

(** The path of [test_unsupported_format]: it names no file, so the lookup
    fails before the extension is examined. *)
Lemma detect_missing_unsupported :
  detect ∅ (fun _ => None) "test.unknown"
  = inl (FileNotFoundError "Archivo no encontrado: test.unknown").
Proof. reflexivity. Qed.

End FileDetectorFacts.

(** ** [agents/base.py]: [AgentState] and [BaseAgent.run] *)

Module Agents.

(** [AgentState] is a [TypedDict] with [total=False]: every key may be
    absent, which is [None] here.  The agents extend it with keys of their
    own ([payload]); the types of the feedback and of the results are the
    agent's too. *)
Record AgentState (F R P : Type) : Type := mkAgentState {
  tenant_id : option string;
  session_id : option string;
  status : option string;
  results : option R;
  requires_human : option bool;
  human_feedback : option F;
  error : option string;
  payload : P
}.

Arguments mkAgentState {F R P}.
Arguments tenant_id {F R P}.
Arguments session_id {F R P}.
Arguments status {F R P}.
Arguments results {F R P}.
Arguments requires_human {F R P}.
Arguments human_feedback {F R P}.
Arguments error {F R P}.
Arguments payload {F R P}.

Section Run.
Context {F R P W : Type}.

Local Abbreviation State := (AgentState F R P).

Definition set_session_id (v : string) (s : State) : State :=
  mkAgentState (tenant_id s) (Some v) (status s) (results s) (requires_human s)
               (human_feedback s) (error s) (payload s).

Definition set_status (v : string) (s : State) : State :=
  mkAgentState (tenant_id s) (session_id s) (Some v) (results s) (requires_human s)
               (human_feedback s) (error s) (payload s).

Definition set_error (v : string) (s : State) : State :=
  mkAgentState (tenant_id s) (session_id s) (status s) (results s) (requires_human s)
               (human_feedback s) (Some v) (payload s).

Definition set_results (v : R) (s : State) : State :=
  mkAgentState (tenant_id s) (session_id s) (status s) (Some v) (requires_human s)
               (human_feedback s) (error s) (payload s).

Definition set_requires_human (v : bool) (s : State) : State :=
  mkAgentState (tenant_id s) (session_id s) (status s) (results s) (Some v)
               (human_feedback s) (error s) (payload s).

Definition set_human_feedback (v : F) (s : State) : State :=
  mkAgentState (tenant_id s) (session_id s) (status s) (results s) (requires_human s)
               (Some v) (error s) (payload s).

Definition set_payload (v : P) (s : State) : State :=
  mkAgentState (tenant_id s) (session_id s) (status s) (results s) (requires_human s)
               (human_feedback s) (error s) v.

(** A node of a graph: it is given the state, may change the world [W]
    (the database session) and returns the new state or raises. *)
Definition Node : Type := State -> W -> (Exc + State) * W.

(** Where an edge leads. *)
Inductive Next : Type := Goto (name : string) | END.

(** A [StateGraph]: the nodes by name, the edge that leaves each node
    (a conditional edge looks at the state) and the entry point. *)
Record StateGraph : Type := mkStateGraph {
  nodes : list (string * Node);
  edges : string -> State -> Next;
  entry_point : string
}.

Fixpoint find_node (name : string) (ns : list (string * Node)) : option Node :=
  match ns with
  | [] => None
  | (n, f) :: ns' => if String.eqb n name then Some f else find_node name ns'
  end.

(** [app.ainvoke]: the nodes run one after the other along the edges.
    [fuel] is the number of steps still allowed: a compiled graph stops a
    run that exceeds its recursion limit with an error. *)
Fixpoint ainvoke (fuel : nat) (g : StateGraph) (name : string) (s : State) (w : W)
  : (Exc + State) * W :=
  match fuel with
  | O => (inl (RuntimeError "Recursion limit reached without hitting a stop condition"), w)
  | S fuel' =>
      match find_node name (nodes g) with
      | None => (inl (ValueError ("unknown node: " +:+ name)), w)
      | Some node =>
          match node s w with
          | (inl e, w') => (inl e, w')
          | (inr s', w') =>
              match edges g name s' with
              | END => (inr s', w')
              | Goto next => ainvoke fuel' g next s' w'
              end
          end
      end
  end.

(** The default recursion limit of a compiled graph. *)
Definition recursion_limit : nat := 25.

(** The first statement of [run]: a state without [session_id] gets a
    fresh one ([fresh] stands for [str(uuid4())]). *)
Definition ensure_session (fresh : string) (initial_state : State) : State :=
  match session_id initial_state with
  | Some _ => initial_state
  | None => set_session_id fresh initial_state
  end.

(** [BaseAgent.run], for the graph [build_graph] returns. *)
Definition run (build_graph : StateGraph) (fresh : string) (initial_state : State) (w : W)
  : State * W :=
  let initial_state := ensure_session fresh initial_state in
  match ainvoke recursion_limit build_graph (entry_point build_graph) initial_state w with
  | (inr result, w') => (result, w')
  | (inl e, w') => (set_error (exc_str e) (set_status "error" initial_state), w')
  end.

(** The state the stage that raised was given, that is the result of the
    last stage that completed (the initial state when the first stage
    raises); [None] when no stage raises.  [run] has no access to it: it is
    defined to compare what [run] returns with it. *)
Fixpoint last_good_state (fuel : nat) (g : StateGraph) (name : string) (s : State) (w : W)
  : option State :=
  match fuel with
  | O => Some s
  | S fuel' =>
      match find_node name (nodes g) with
      | None => Some s
      | Some node =>
          match node s w with
          | (inl e, _) => Some s
          | (inr s', w') =>
              match edges g name s' with
              | END => None
              | Goto next => last_good_state fuel' g next s' w'
              end
          end
      end
  end.

End Run.

End Agents.

(** ** [agents/smart_parser.py]: [SmartParserAgent] *)

Module SmartParser.
Import PyStr Validators Agents.

(** An entry of [errores]. *)
Record ErrorEntry : Type := mkErrorEntry {
  linea : Z;
  transaccion : RawTx;
  error : string
}.

(** The loop of [validate_and_clean]: [idx] is the index [enumerate]
    gives the head of [txs]. *)
Fixpoint validate_loop (idx : Z) (txs : list RawTx) : list ValidTx * list ErrorEntry :=
  match txs with
  | [] => ([], [])
  | tx :: rest =>
      let '(validadas, errores) := validate_loop (idx + 1) rest in
      match validate tx with
      | inr v => (v :: validadas, errores)
      | inl e => (validadas, mkErrorEntry (idx + 1) tx (exc_str e) :: errores)
      end
  end.

(** A value of the dict [metadata]. *)
Inductive MetaValue : Type := MInt (n : Z) | MStr (s : string) | MNone.

(** The keys [ParserState] adds to [AgentState]; an absent key is [None].
    The key [estructura] and the texts the extraction stages keep are read
    and written only by statements that are not modelled (see
    [Unmodelled]). *)
Record Payload : Type := mkPayload {
  file_path : option string;
  empresa_id : option string;
  cuenta_id : option string;
  formato : option string;
  mime_type : option string;
  raw_content : option string;
  transacciones : option (list RawTx);
  transacciones_validadas : option (list ValidTx);
  errores : option (list ErrorEntry);
  metadata : option (gmap string MetaValue)
}.

(** The agent neither reads nor writes [human_feedback] and [results]. *)
Abbreviation ParserState := (AgentState unit unit Payload).

(** The attributes of an agent object, besides those every object has.
    [BaseAgent.__init__] sets three, [SmartParserAgent] has no [__init__]
    of its own, and the two classes define the methods.  No class defines
    [logger]: the module [agents/base.py] has a variable of that name,
    which is not an attribute of the object. *)
Definition instance_attributes : list string := ["db"; "hf"; "agent_name"].

Definition class_attributes : list string :=
  [ "build_graph"; "detect_format"; "extract_raw_content"; "interpret_structure";
    "extract_transactions"; "_parse_text_with_llm"; "validate_and_clean";
    "run"; "log_step" ].

(** [self.<name>]: the lookup of an attribute. *)
Definition getattr_self (name : string) : Exc + unit :=
  if existsb (String.eqb name) (instance_attributes ++ class_attributes) then inr tt
  else inl (AttributeError ("'SmartParserAgent' object has no attribute '" +:+ name +:+ "'")).

(** A call [self.logger.info(...)] followed by the statements [rest]: the
    attribute is looked up before the arguments of the call are
    evaluated. *)
Definition logger_call {A : Type} (rest : Exc + A) : Exc + A :=
  match getattr_self "logger" with
  | inl e => inl e
  | inr _ => rest
  end.

(** [validate_and_clean].  [self.log_step], which uses the logger of the
    module, has no effect. *)
Definition validate_and_clean (state : ParserState) : Exc + ParserState :=
  logger_call
    (match transacciones (payload state) with
     | None => inl (KeyError "'transacciones'")
     | Some txs =>
         let '(validadas, errs) := validate_loop 0 txs in
         let st := match errs with [] => "completed" | _ => "completed_with_errors" end in
         logger_call
           (let p := payload state in
            inr (set_status st
                   (set_payload
                      (mkPayload (file_path p) (empresa_id p) (cuenta_id p) (formato p)
                         (mime_type p) (raw_content p) (transacciones p)
                         (Some validadas) (Some errs)
                         (Some (<[ "errores" := MInt (Z.of_nat (length errs)) ]>
                                  (<[ "validadas" := MInt (Z.of_nat (length validadas)) ]>
                                     (default ∅ (metadata p))))))
                      state)))
     end).

(** What the four other stages do after the call of [self.logger] that
    follows their [self.log_step]: they look at the file, ask the language
    model and call the extractors.  These statements are not modelled;
    what is proved holds whatever they do. *)
Record Unmodelled : Type := mkUnmodelled {
  detect_format_rest : ParserState -> Exc + ParserState;
  extract_raw_content_rest : ParserState -> Exc + ParserState;
  interpret_structure_rest : ParserState -> Exc + ParserState;
  extract_transactions_rest : ParserState -> Exc + ParserState
}.

Definition detect_format (u : Unmodelled) (state : ParserState) : Exc + ParserState :=
  logger_call (detect_format_rest u state).

Definition extract_raw_content (u : Unmodelled) (state : ParserState) : Exc + ParserState :=
  logger_call (extract_raw_content_rest u state).

Definition interpret_structure (u : Unmodelled) (state : ParserState) : Exc + ParserState :=
  logger_call (interpret_structure_rest u state).

Definition extract_transactions (u : Unmodelled) (state : ParserState) : Exc + ParserState :=
  logger_call (extract_transactions_rest u state).

(** A node: the stages leave the database session alone. *)
Definition stage (f : ParserState -> Exc + ParserState) : @Node unit unit Payload unit :=
  fun s w => (f s, w).

(** [build_graph] *)
Definition build_graph (u : Unmodelled) : @StateGraph unit unit Payload unit :=
  mkStateGraph
    [ ("detect_format", stage (detect_format u));
      ("extract_raw", stage (extract_raw_content u));
      ("interpret_structure", stage (interpret_structure u));
      ("extract_transactions", stage (extract_transactions u));
      ("validate_clean", stage validate_and_clean) ]
    (fun name s =>
       if String.eqb name "detect_format" then Goto "extract_raw"
       else if String.eqb name "extract_raw" then Goto "interpret_structure"
       else if String.eqb name "interpret_structure" then Goto "extract_transactions"
       else if String.eqb name "extract_transactions" then Goto "validate_clean"
       else END)
    "detect_format".

(** [SmartParserAgent(db, hf).run(initial_state)]; [fresh] is the id [run]
    draws for a state without one. *)
Definition run_smart_parser (u : Unmodelled) (fresh : string) (initial_state : ParserState)
  : ParserState :=
  fst (run (build_graph u) fresh initial_state tt).

End SmartParser.

(** ** Properties of the smart parser *)

Module SmartParserFacts.
Import PyStr PyNum PyDate Validators Agents SmartParser.

(** The message of the [AttributeError]. *)
Definition no_logger : string := "'SmartParserAgent' object has no attribute 'logger'".

Lemma logger_call_raises {A : Type} (rest : Exc + A) :
  logger_call rest = inl (AttributeError no_logger).
Proof. reflexivity. Qed.

Lemma validate_bad_date tx f e :
  raw_fecha tx = Some f -> _parse_date f = inl e -> validate tx = inl e.
Proof. intros Hf He. unfold validate. rewrite Hf, He. reflexivity. Qed.

Lemma ainvoke_raises u (s : ParserState) :
  ainvoke recursion_limit (build_graph u) "detect_format" s tt
  = (inl (AttributeError no_logger), tt).
Proof. reflexivity. Qed.

Lemma run_smart_parser_error u fresh (s0 : ParserState) :
  run_smart_parser u fresh s0
  = set_error no_logger (set_status "error" (ensure_session fresh s0)).
Proof.
  unfold run_smart_parser, run.
  change (entry_point (build_graph u)) with "detect_format".
  rewrite ainvoke_raises. reflexivity.
Qed.

(** A batch of three extracted rows; the second has no date in it. *)
Definition sample_batch : list RawTx :=
  [ mkRawTx (Some "15/12/2024") (Some "TRANSFERENCIA NOMINA") (Some "2500,00") None [];
    mkRawTx (Some "invalid_date") (Some "PAGO") (Some "1,00") None [];
    mkRawTx (Some "16/12/2024") (Some "PAGO AMAZON") (Some "-45,99") None [] ].

(** The state the stage is given for the batch. *)
Definition sample_state : ParserState :=
  mkAgentState (Some "tenant-1") (Some "parse_cuenta-1") None None None None None
    (mkPayload (Some "/tmp/extracto.csv") (Some "empresa-1") (Some "cuenta-1")
               (Some "csv") (Some "text/csv") None (Some sample_batch) (Some []) (Some [])
               (Some ∅)).

(** C6 at a failing input.  The three spellings of 15 December 2024 parse
    to the same ISO date 2024-12-15, and for a record whose date text
    [_parse_date] rejects the validator raises the [ValueError] of that
    record.  But [validate_and_clean] never collects it: on every state
    the stage raises [AttributeError] at its first call of [self.logger],
    before it looks at a record, so for the batch whose second record has
    the date [invalid_date] no entry of [errores] is made and the stage is
    aborted.  The loop the stage does not reach would have entered the
    record with its line 2. *)
Theorem bad_date_aborts_validate_and_clean :
  _parse_date "15/12/2024" = inr "2024-12-15"
  /\ _parse_date "2024-12-15" = inr "2024-12-15"
  /\ _parse_date "15-12-2024" = inr "2024-12-15"
  /\ _parse_date "invalid_date" = inl (ValueError "No se pudo parsear fecha: invalid_date")
  /\ (forall (tx : RawTx) (f : string) (e : Exc),
        raw_fecha tx = Some f -> _parse_date f = inl e -> validate tx = inl e)
  /\ (forall state : ParserState,
        validate_and_clean state = inl (AttributeError no_logger))
  /\ validate_and_clean sample_state
     = inl (AttributeError "'SmartParserAgent' object has no attribute 'logger'")
  /\ map linea (snd (validate_loop 0 sample_batch)) = [2]
  /\ map error (snd (validate_loop 0 sample_batch))
     = ["No se pudo parsear fecha: invalid_date"].
Proof.
  split; [reflexivity|]. split; [reflexivity|]. split; [reflexivity|].
  split; [reflexivity|]. split; [exact validate_bad_date|].
  split; [intros state; reflexivity|].
  split; [reflexivity|]. split; vm_compute; reflexivity.
Qed.

(** X4. No run of the smart parser gets past its first stage:
    [detect_format] raises [AttributeError] at its call of [self.logger],
    whatever the file and whatever the other stages would do, so [run]
    returns the state it was given (its session id filled in) with the
    status [error] and the message of the exception.  No stage adds
    anything: the format is not detected and the lists of transactions and
    of errors are those of the initial state. *)
Theorem smart_parser_run_always_errors :
  forall (u : Unmodelled) (fresh : string) (s0 : ParserState),
    let r := run_smart_parser u fresh s0 in
    status r = Some "error"
    /\ Agents.error r = Some "'SmartParserAgent' object has no attribute 'logger'"
    /\ session_id r = Some (default fresh (session_id s0))
    /\ tenant_id r = tenant_id s0
    /\ payload r = payload s0
    /\ (forall state : ParserState,
          detect_format u state = inl (AttributeError no_logger)
          /\ extract_raw_content u state = inl (AttributeError no_logger)
          /\ interpret_structure u state = inl (AttributeError no_logger)
          /\ extract_transactions u state = inl (AttributeError no_logger)).
Proof.
  intros u fresh s0 r. subst r. rewrite run_smart_parser_error.
  unfold ensure_session. destruct s0 as [tn [sid|] st re rh hf er p]; simpl;
    repeat split; reflexivity.
Qed.

End SmartParserFacts.

(** ** [agents/clasificacion.py]: [ClasificacionAgent] *)

Module Clasificacion.
Import PyStr PyNum Agents.

(** A transaction as [load_data] puts it in the state. *)
Record Tx : Type := mkTx {
  tx_id : string;
  tx_concepto : string;
  tx_importe : PyFloat
}.

(** The [condicion] of a rule: a JSON object read with [.get] and
    defaults. *)
Record Condicion : Type := mkCondicion {
  campo : option string;
  operador : option string;
  valor : option string
}.

(** A rule as [load_data] puts it in the state. *)
Record Regla : Type := mkRegla {
  regla_id : string;
  condicion : Condicion;
  regla_categoria : string
}.

(** A decision: an element of [clasificaciones]. *)
Record Clasif : Type := mkClasif {
  transaccion_id : string;
  categoria_pgc : string;
  confianza : Q;
  metodo : string;
  explicacion : string
}.

(** [human_feedback]: the dict the validation endpoint builds, with the two
    keys it writes.  An absent key is [None]. *)
Record Feedback : Type := mkFeedback {
  correcciones : option (gmap string string);
  validado_por : option string
}.

(** [results] of a completed run. *)
Record Results : Type := mkResults {
  total : Z;
  res_clasificaciones : list Clasif
}.

(** The keys [ClasificacionState] adds to [AgentState]. *)
Record Payload : Type := mkPayload {
  empresa_id : option string;
  transaccion_ids : option (list string);
  transacciones : option (list Tx);
  reglas : option (list Regla);
  clasificaciones : option (list Clasif);
  pendientes_revision : option (list Clasif);
  review_threshold : option Q
}.

Abbreviation ClasificacionState := (AgentState Feedback Results Payload).

(** Rows of the tables the agent reads.  [importe] is a [Numeric(15, 2)]
    column: the amount in cents. *)
Record TransaccionRow : Type := mkTransaccionRow {
  row_id : string;
  row_concepto : option string;
  row_importe : Z
}.

Record ReglaRow : Type := mkReglaRow {
  rr_id : string;
  rr_tenant : string;
  rr_activa : bool;
  rr_prioridad : Z;
  rr_condicion : Condicion;
  rr_categoria : string
}.

(** The answer of the external classifier: a JSON object. *)
Record LlmResult : Type := mkLlmResult {
  llm_categoria : option string;
  llm_confianza : option Q;
  llm_explicacion : option string
}.

(** What the agent reads from outside: [UUID] is [str(uuid.UUID(s))]
    ([None] for the [ValueError] of a malformed id), the two tables,
    [historico] is the query of [check_history] (the categories of the at
    most five validated classifications whose transaction text contains
    the given text) and [classify_transaction] the external classifier. *)
Record Env : Type := mkEnv {
  UUID : string -> option string;
  tabla_transaccion : list TransaccionRow;
  tabla_regla : list ReglaRow;
  historico : string -> list string;
  classify_transaction : string -> PyFloat -> Exc + LlmResult
}.

(** A call on the database session that writes. *)
Inductive DbCall : Type := Add (c : Clasif) | Commit.

(** [x in l] *)
Definition mem (x : string) (l : list string) : bool := existsb (String.eqb x) l.

Fixpoint parse_uuids (env : Env) (ids : list string) : Exc + list string :=
  match ids with
  | [] => inr []
  | t :: rest =>
      match UUID env t with
      | None => inl (ValueError "badly formed hexadecimal UUID string")
      | Some u =>
          match parse_uuids env rest with
          | inl e => inl e
          | inr us => inr (u :: us)
          end
      end
  end.

(** [ORDER BY prioridad DESC]: rows of equal priority keep the order of
    the table (the database leaves their order open). *)
Fixpoint insert_desc (r : ReglaRow) (l : list ReglaRow) : list ReglaRow :=
  match l with
  | [] => [r]
  | x :: l' =>
      if rr_prioridad x <=? rr_prioridad r then r :: l else x :: insert_desc r l'
  end.

Definition order_by_prioridad_desc (l : list ReglaRow) : list ReglaRow :=
  fold_right insert_desc [] l.

Definition tx_of_row (t : TransaccionRow) : Tx :=
  mkTx (row_id t) (default "" (row_concepto t)) (py_float (row_importe t) (-2)).

Definition regla_of_row (r : ReglaRow) : Regla :=
  mkRegla (rr_id r) (rr_condicion r) (rr_categoria r).

(** The rows the first query of [load_data] returns. *)
Definition select_transacciones (env : Env) (tx_ids : list string) : list TransaccionRow :=
  List.filter (fun t => mem (row_id t) tx_ids) (tabla_transaccion env).

(** The rows the second query returns. *)
Definition select_reglas (env : Env) (tenant : string) : list ReglaRow :=
  order_by_prioridad_desc
    (List.filter (fun r => String.eqb (rr_tenant r) tenant && rr_activa r) (tabla_regla env)).

Definition with_loaded (txs : list Tx) (rs : list Regla) (s : ClasificacionState)
  : ClasificacionState :=
  let p := payload s in
  set_status "processing"
    (set_payload (mkPayload (empresa_id p) (transaccion_ids p) (Some txs) (Some rs)
                            (Some []) (pendientes_revision p) (review_threshold p)) s).

Definition load_data (env : Env) (state : ClasificacionState) : Exc + ClasificacionState :=
  match parse_uuids env (default [] (transaccion_ids (payload state))) with
  | inl e => inl e
  | inr [] => inr (with_loaded [] [] state)
  | inr tx_ids =>
      let transacciones := select_transacciones env tx_ids in
      match tenant_id state with
      | None => inl (KeyError "'tenant_id'")
      | Some t =>
          match UUID env t with
          | None => inl (ValueError "badly formed hexadecimal UUID string")
          | Some tenant =>
              inr (with_loaded (map tx_of_row transacciones)
                               (map regla_of_row (select_reglas env tenant)) state)
          end
      end
  end.

(** [str(tx.get(campo, ""))] *)
Definition tx_get (tx : Tx) (campo : string) : string :=
  if String.eqb campo "id" then tx_id tx
  else if String.eqb campo "concepto" then tx_concepto tx
  else if String.eqb campo "importe" then float_repr (tx_importe tx)
  else "".

Definition _match_rule (tx : Tx) (condicion : Condicion) : bool :=
  let campo := default "concepto" (campo condicion) in
  let operador := default "contains" (operador condicion) in
  let valor := lower (default "" (valor condicion)) in
  let tx_valor := lower (tx_get tx campo) in
  if String.eqb operador "contains" then contains valor tx_valor
  else if String.eqb operador "equals" then String.eqb valor tx_valor
  else if String.eqb operador "startswith" then startswith valor tx_valor
  else false.

(** The inner loop of [apply_rules]: the first rule that matches. *)
Fixpoint first_match (tx : Tx) (rs : list Regla) : option Regla :=
  match rs with
  | [] => None
  | r :: rs' => if _match_rule tx (condicion r) then Some r else first_match tx rs'
  end.

Definition rule_decision (tx : Tx) (r : Regla) : Clasif :=
  mkClasif (tx_id tx) (regla_categoria r) 0.99 "regla" ("Regla: " +:+ regla_id r).

(** The outer loop of [apply_rules]: the decisions, in the order of the
    transactions, and the set [clasificadas_ids]. *)
Fixpoint rules_loop (rs : list Regla) (txs : list Tx) : list Clasif * gset string :=
  match txs with
  | [] => ([], ∅)
  | tx :: rest =>
      let '(cs, ids) := rules_loop rs rest in
      match first_match tx rs with
      | Some r => (rule_decision tx r :: cs, {[ tx_id tx ]} ∪ ids)
      | None => (cs, ids)
      end
  end.

Definition set_cascade (txs : list Tx) (cs : list Clasif) (s : ClasificacionState)
  : ClasificacionState :=
  let p := payload s in
  set_payload (mkPayload (empresa_id p) (transaccion_ids p) (Some txs) (reglas p)
                         (Some cs) (pendientes_revision p) (review_threshold p)) s.

Definition apply_rules (state : ClasificacionState) : ClasificacionState :=
  let txs := default [] (transacciones (payload state)) in
  let '(clasificaciones, clasificadas_ids) :=
    rules_loop (default [] (reglas (payload state))) txs in
  let pendientes :=
    List.filter (fun t => bool_decide (tx_id t ∉ clasificadas_ids)) txs in
  set_cascade pendientes clasificaciones state.

(** [categorias.count(c)] *)
Definition count_occ_str (c : string) (l : list string) : Z :=
  Z.of_nat (length (List.filter (String.eqb c) l)).

(** [max(set(categorias), key=categorias.count)]: the first category with
    the highest count.  A Python set iterates in no specified order; here
    the categories are visited in the order of their first occurrence. *)
Fixpoint max_by_count (cands : list string) (l : list string) (best : string) : string :=
  match cands with
  | [] => best
  | c :: cands' =>
      max_by_count cands' l (if count_occ_str best l <? count_occ_str c l then c else best)
  end.

Definition categoria_comun (categorias : list string) : string :=
  match remove_dups categorias with
  | [] => ""
  | c :: cands => max_by_count cands categorias c
  end.

(** [round(x, 2)] on the exact value: to the nearest hundredth, ties to
    the even one. *)
Definition round2 (q : Q) : Q :=
  let n := Qnum (q * 100) in
  let d := Zpos (Qden (q * 100)) in
  let f := n / d in
  let r2 := 2 * (n mod d) in
  (if r2 <? d then f else if d <? r2 then f + 1 else if Z.even f then f else f + 1) # 100.

Definition history_decision (tx : Tx) (categorias : list string) : Clasif :=
  let comun := categoria_comun categorias in
  let frecuencia := (count_occ_str comun categorias # Pos.of_nat (length categorias))%Q in
  mkClasif (tx_id tx) comun (round2 (0.85 * frecuencia)) "historico"
    ("Basado en " +:+ digits_of (Z.of_nat (length categorias)) +:+ " clasificaciones similares").

(** The loop of [check_history]: the new decisions and the transactions
    still pending.  [ids] is [clasificadas_ids] when the head of [txs] is
    reached. *)
Fixpoint history_loop (env : Env) (txs : list Tx) (ids : gset string)
  : list Clasif * list Tx :=
  match txs with
  | [] => ([], [])
  | tx :: rest =>
      if bool_decide (tx_id tx ∈ ids) then history_loop env rest ids
      else
        match historico env (take 20 (tx_concepto tx)) with
        | [] => let '(cs, ps) := history_loop env rest ids in (cs, tx :: ps)
        | categorias =>
            let '(cs, ps) := history_loop env rest ({[ tx_id tx ]} ∪ ids) in
            (history_decision tx categorias :: cs, ps)
        end
  end.

Definition check_history (env : Env) (state : ClasificacionState) : ClasificacionState :=
  let clasificaciones := default [] (clasificaciones (payload state)) in
  let clasificadas_ids : gset string := list_to_set (map transaccion_id clasificaciones) in
  let '(nuevas, pendientes) :=
    history_loop env (default [] (transacciones (payload state))) clasificadas_ids in
  set_cascade pendientes (clasificaciones ++ nuevas) state.

(** The loop of [llm_classify]; the first call that raises, or an answer
    without [categoria_pgc] or [confianza], ends it. *)
Fixpoint llm_loop (env : Env) (txs : list Tx) : Exc + list Clasif :=
  match txs with
  | [] => inr []
  | tx :: rest =>
      match classify_transaction env (tx_concepto tx) (tx_importe tx) with
      | inl e => inl e
      | inr result =>
          match llm_categoria result with
          | None => inl (KeyError "'categoria_pgc'")
          | Some cat =>
              match llm_confianza result with
              | None => inl (KeyError "'confianza'")
              | Some conf =>
                  match llm_loop env rest with
                  | inl e => inl e
                  | inr cs =>
                      inr (mkClasif (tx_id tx) cat conf "llm"
                                    (default "" (llm_explicacion result)) :: cs)
                  end
              end
          end
      end
  end.

Definition llm_classify (env : Env) (state : ClasificacionState) : Exc + ClasificacionState :=
  match llm_loop env (default [] (transacciones (payload state))) with
  | inl e => inl e
  | inr nuevas =>
      inr (set_cascade [] (default [] (clasificaciones (payload state)) ++ nuevas) state)
  end.

(** [a < b] on confidences. *)
Definition Qltb (a b : Q) : bool := negb (Qle_bool b a).

Definition below (threshold : Q) (c : Clasif) : bool := Qltb (confianza c) threshold.

Definition threshold_of (state : ClasificacionState) : Q :=
  default 0.75%Q (review_threshold (payload state)).

Definition prepare_review (state : ClasificacionState) : ClasificacionState :=
  let p := payload state in
  let pendientes := List.filter (below (threshold_of state)) (default [] (clasificaciones p)) in
  set_status (match pendientes with [] => "completing" | _ => "review" end)
    (set_requires_human (match pendientes with [] => false | _ => true end)
       (set_payload (mkPayload (empresa_id p) (transaccion_ids p) (transacciones p) (reglas p)
                               (clasificaciones p) (Some pendientes) (review_threshold p))
                    state)).

Definition present {A : Type} (o : option A) : bool :=
  match o with Some _ => true | None => false end.

(** Truth value of the feedback: a dict is false when it is empty, and so
    is an absent one. *)
Definition feedback_truthy (f : option Feedback) : bool :=
  match f with
  | None => false
  | Some fb => present (correcciones fb) || present (validado_por fb)
  end.

(** The condition of the edge that leaves [prepare_review]. *)
Definition should_pause (s : ClasificacionState) : bool :=
  default false (requires_human s) && negb (feedback_truthy (human_feedback s)).

(** What [save_results] does to one decision before storing it. *)
Definition apply_correction (corr : gmap string string) (c : Clasif) : Clasif :=
  match corr !! transaccion_id c with
  | Some cat => mkClasif (transaccion_id c) cat 1 "manual" (explicacion c)
  | None => c
  end.

(** [save_results].  The loop changes the decisions in place and adds one
    row per decision to the session, then the session is committed.  The
    dicts of [pendientes_revision] are the same objects as those of
    [clasificaciones], so they show the corrections too. *)
Definition save_results (state : ClasificacionState) (db : list DbCall)
  : (Exc + ClasificacionState) * list DbCall :=
  let p := payload state in
  let corr :=
    match human_feedback state with
    | Some fb => default ∅ (correcciones fb)
    | None => ∅
    end in
  let cs := map (apply_correction corr) (default [] (clasificaciones p)) in
  let state' :=
    set_payload (mkPayload (empresa_id p) (transaccion_ids p) (transacciones p) (reglas p)
                           (option_map (map (apply_correction corr)) (clasificaciones p))
                           (option_map (map (apply_correction corr)) (pendientes_revision p))
                           (review_threshold p)) state in
  (inr (set_results (mkResults (Z.of_nat (length cs)) cs) (set_status "completed" state')),
   db ++ map Add cs ++ [Commit]).

(** A node that leaves the session alone. *)
Definition pure_node (f : ClasificacionState -> Exc + ClasificacionState)
  : @Node Feedback Results Payload (list DbCall) :=
  fun s db => (f s, db).

(** [build_graph] *)
Definition build_graph (env : Env) : @StateGraph Feedback Results Payload (list DbCall) :=
  mkStateGraph
    [ ("load_data", pure_node (load_data env));
      ("apply_rules", pure_node (fun s => inr (apply_rules s)));
      ("check_history", pure_node (fun s => inr (check_history env s)));
      ("llm_classify", pure_node (llm_classify env));
      ("prepare_review", pure_node (fun s => inr (prepare_review s)));
      ("save_results", save_results) ]
    (fun name s =>
       if String.eqb name "load_data" then Goto "apply_rules"
       else if String.eqb name "apply_rules" then Goto "check_history"
       else if String.eqb name "check_history" then Goto "llm_classify"
       else if String.eqb name "llm_classify" then Goto "prepare_review"
       else if String.eqb name "prepare_review"
            then (if should_pause s then END else Goto "save_results")
       else END)
    "load_data".

(** [ClasificacionAgent(db, hf).run(initial_state)] *)
Definition run_clasificacion (env : Env) (fresh : string) (initial_state : ClasificacionState)
    (db : list DbCall) : ClasificacionState * list DbCall :=
  run (build_graph env) fresh initial_state db.

(** The first four stages in sequence: the three classification phases
    after the load. *)
Definition cascade (env : Env) (s : ClasificacionState) : Exc + ClasificacionState :=
  match load_data env s with
  | inl e => inl e
  | inr s1 => llm_classify env (check_history env (apply_rules s1))
  end.

(** What the validation endpoint does with a paused run: it attaches the
    feedback to the stored state and runs the agent on it. *)
Definition resume (env : Env) (fresh : string) (paused : ClasificacionState)
    (fb : Feedback) (db : list DbCall) : ClasificacionState * list DbCall :=
  run_clasificacion env fresh (set_human_feedback fb paused) db.

End Clasificacion.

(** ** Properties of the agent runner *)

Module AgentFacts.
Import Agents.

Section Steps.
Context {F R P W : Type}.

Lemma ainvoke_step (fuel : nat) (g : @StateGraph F R P W) name s w node :
  find_node name (nodes g) = Some node ->
  ainvoke (S fuel) g name s w =
  match node s w with
  | (inl e, w') => (inl e, w')
  | (inr s', w') =>
      match edges g name s' with
      | END => (inr s', w')
      | Goto next => ainvoke fuel g next s' w'
      end
  end.
Proof. intros H. simpl. rewrite H. reflexivity. Qed.

(** C8, as the code has it.  When a stage of the graph raises (or the run
    is stopped for exceeding its step limit), [run] returns the state it
    was called with, the session id filled in, with status [error] and the
    message of the exception in [error]; every other key has the value it
    had in the initial state, whatever the completed stages had computed.
    The fault is not swallowed: it is what [error] holds. *)
Theorem run_error_keeps_initial_state :
  forall (g : @StateGraph F R P W) (fresh : string) (s0 : AgentState F R P) (w w' : W)
         (e : Exc),
    ainvoke recursion_limit g (entry_point g) (ensure_session fresh s0) w = (inl e, w') ->
    let r := fst (run g fresh s0 w) in
    status r = Some "error"
    /\ error r = Some (exc_str e)
    /\ tenant_id r = tenant_id s0
    /\ session_id r = Some (default fresh (session_id s0))
    /\ results r = results s0
    /\ requires_human r = requires_human s0
    /\ human_feedback r = human_feedback s0
    /\ payload r = payload s0
    /\ snd (run g fresh s0 w) = w'.
Proof.
  intros g fresh s0 w w' e H r. subst r.
  unfold run. rewrite H. cbn [fst snd].
  unfold ensure_session. destruct s0 as [tn [sid|] st re rh hf er p]; simpl; repeat split.
Qed.

End Steps.
End AgentFacts.

(** ** Properties of the classification cascade *)

Module ClasificacionFacts.
Import PyStr PyNum Agents Clasificacion AgentFacts.

(** The run of the graph, written out: the cascade, the review gate, and
    the final stage when the gate lets the run through. *)
Definition pipeline (env : Env) (s : ClasificacionState) (db : list DbCall)
  : (Exc + ClasificacionState) * list DbCall :=
  match cascade env s with
  | inl e => (inl e, db)
  | inr s4 =>
      if should_pause (prepare_review s4) then (inr (prepare_review s4), db)
      else save_results (prepare_review s4) db
  end.

Lemma ainvoke_pipeline env s db :
  ainvoke recursion_limit (build_graph env) "load_data" s db = pipeline env s db.
Proof.
  unfold pipeline, cascade, recursion_limit.
  rewrite (ainvoke_step _ _ "load_data" _ _ (pure_node (load_data env))) by reflexivity.
  unfold pure_node at 1.
  destruct (load_data env s) as [e|s1]; [reflexivity|].
  change (edges (build_graph env) "load_data" s1) with (@Goto "apply_rules").
  cbv iota.
  rewrite (ainvoke_step _ _ "apply_rules" _ _ (pure_node (fun s => inr (apply_rules s))))
    by reflexivity.
  unfold pure_node at 1.
  change (edges (build_graph env) "apply_rules" (apply_rules s1)) with (@Goto "check_history").
  cbv iota.
  rewrite (ainvoke_step _ _ "check_history" _ _ (pure_node (fun s => inr (check_history env s))))
    by reflexivity.
  unfold pure_node at 1.
  change (edges (build_graph env) "check_history" (check_history env (apply_rules s1)))
    with (@Goto "llm_classify").
  cbv iota.
  rewrite (ainvoke_step _ _ "llm_classify" _ _ (pure_node (llm_classify env))) by reflexivity.
  unfold pure_node at 1.
  destruct (llm_classify env (check_history env (apply_rules s1))) as [e|s4]; [reflexivity|].
  change (edges (build_graph env) "llm_classify" s4) with (@Goto "prepare_review").
  cbv iota.
  rewrite (ainvoke_step _ _ "prepare_review" _ _ (pure_node (fun s => inr (prepare_review s))))
    by reflexivity.
  unfold pure_node at 1.
  change (edges (build_graph env) "prepare_review" (prepare_review s4))
    with (if should_pause (prepare_review s4) then @END else @Goto "save_results").
  destruct (should_pause (prepare_review s4)); [reflexivity|].
  rewrite (ainvoke_step _ _ "save_results" _ _ save_results) by reflexivity.
  reflexivity.
Qed.

(** What [load_data] reads: the transactions and the rules, from the
    tenant and the ids of the state. *)
Definition loaded (env : Env) (tenant : option string) (ids : list string)
  : Exc + (list Tx * list Regla) :=
  match parse_uuids env ids with
  | inl e => inl e
  | inr [] => inr ([], [])
  | inr tx_ids =>
      match tenant with
      | None => inl (KeyError "'tenant_id'")
      | Some t =>
          match UUID env t with
          | None => inl (ValueError "badly formed hexadecimal UUID string")
          | Some tn =>
              inr (map tx_of_row (select_transacciones env tx_ids),
                   map regla_of_row (select_reglas env tn))
          end
      end
  end.

(** The transactions the rule phase leaves pending. *)
Definition after_rules (rs : list Regla) (txs : list Tx) : list Tx :=
  List.filter (fun t => bool_decide (tx_id t ∉ snd (rules_loop rs txs))) txs.

(** The three phases on the loaded lists: the decisions of each phase. *)
Definition phases (env : Env) (rs : list Regla) (txs : list Tx)
  : Exc + (list Clasif * list Clasif * list Clasif) :=
  let c1 := fst (rules_loop rs txs) in
  let h := history_loop env (after_rules rs txs) (list_to_set (map transaccion_id c1)) in
  match llm_loop env (snd h) with
  | inl e => inl e
  | inr c3 => inr (c1, fst h, c3)
  end.

Definition classified (rs : list Regla) (ds : list Clasif) (s : ClasificacionState)
  : ClasificacionState :=
  let p := payload s in
  set_status "processing"
    (set_payload (mkPayload (empresa_id p) (transaccion_ids p) (Some []) (Some rs)
                            (Some ds) (pendientes_revision p) (review_threshold p)) s).

Lemma load_data_loaded env s :
  load_data env s =
  match loaded env (tenant_id s) (default [] (transaccion_ids (payload s))) with
  | inl e => inl e
  | inr (txs, rs) => inr (with_loaded txs rs s)
  end.
Proof.
  unfold load_data, loaded.
  destruct (parse_uuids env _) as [e|[|u us]]; try reflexivity.
  destruct (tenant_id s) as [t|]; [|reflexivity].
  destruct (UUID env t); reflexivity.
Qed.

Lemma cascade_shape env s :
  cascade env s =
  match loaded env (tenant_id s) (default [] (transaccion_ids (payload s))) with
  | inl e => inl e
  | inr (txs, rs) =>
      match phases env rs txs with
      | inl e => inl e
      | inr (c1, c2, c3) => inr (classified rs ((c1 ++ c2) ++ c3) s)
      end
  end.
Proof.
  unfold cascade. rewrite load_data_loaded.
  destruct (loaded env _ _) as [e|[txs rs]]; [reflexivity|].
  unfold phases, after_rules, llm_classify, check_history, apply_rules.
  destruct s as [tn se st re rh hf er [em ti tr rg cl pr th]].
  unfold with_loaded, set_cascade, set_status, set_payload. simpl.
  destruct (rules_loop rs txs) as [c1 ids1]. simpl.
  destruct (history_loop env _ _) as [c2 p2]. simpl.
  destruct (llm_loop env p2) as [e|c3]; reflexivity.
Qed.

(** *** The order of the rules *)

Definition ge_prio (a b : ReglaRow) : Prop := rr_prioridad b <= rr_prioridad a.

Lemma insert_desc_In r l x : In x (insert_desc r l) <-> x = r \/ In x l.
Proof.
  induction l as [|y l IH]; simpl.
  - intuition.
  - destruct (rr_prioridad y <=? rr_prioridad r); simpl; [intuition|].
    rewrite IH. intuition.
Qed.

Lemma insert_desc_sorted r l :
  StronglySorted ge_prio l -> StronglySorted ge_prio (insert_desc r l).
Proof.
  induction 1 as [|y l Hs IH Hall]; simpl.
  - constructor; constructor.
  - destruct (Z.leb_spec (rr_prioridad y) (rr_prioridad r)) as [Hle|Hgt].
    + constructor; [constructor; assumption|].
      constructor; [exact Hle|].
      rewrite List.Forall_forall in Hall |- *. intros z Hz.
      specialize (Hall z Hz). unfold ge_prio in *. lia.
    + constructor; [exact IH|].
      rewrite List.Forall_forall in Hall |- *. intros z Hz.
      apply insert_desc_In in Hz. destruct Hz as [->|Hz].
      * unfold ge_prio. lia.
      * exact (Hall z Hz).
Qed.

Lemma order_by_In l x : In x (order_by_prioridad_desc l) <-> In x l.
Proof.
  induction l as [|y l IH]; simpl; [reflexivity|].
  rewrite insert_desc_In, IH. intuition.
Qed.

Lemma order_by_sorted l : StronglySorted ge_prio (order_by_prioridad_desc l).
Proof.
  induction l as [|y l IH]; simpl; [constructor|].
  apply insert_desc_sorted, IH.
Qed.

(** The rules [load_data] reads are the active rules of the tenant. *)
Lemma select_reglas_In env tenant r :
  In r (select_reglas env tenant)
  <-> In r (tabla_regla env) /\ rr_tenant r = tenant /\ rr_activa r = true.
Proof.
  unfold select_reglas. rewrite order_by_In, filter_In.
  rewrite andb_true_iff, String.eqb_eq. reflexivity.
Qed.

(** In a list in descending priority, the first rule that matches has the
    highest priority among those that match. *)
Lemma first_match_rows tx rows :
  StronglySorted ge_prio rows ->
  (exists row, In row rows /\ _match_rule tx (rr_condicion row) = true) ->
  exists row,
    In row rows /\ _match_rule tx (rr_condicion row) = true
    /\ first_match tx (map regla_of_row rows) = Some (regla_of_row row)
    /\ forall row', In row' rows -> _match_rule tx (rr_condicion row') = true ->
                   rr_prioridad row' <= rr_prioridad row.
Proof.
  induction 1 as [|y l Hs IH Hall]; intros (row & Hin & Hm); [destruct Hin|].
  simpl. destruct (_match_rule tx (rr_condicion y)) eqn:Hy.
  - exists y. split; [left; reflexivity|]. split; [exact Hy|]. split; [reflexivity|].
    intros row' [<-|Hin'] _; [lia|].
    rewrite List.Forall_forall in Hall. exact (Hall row' Hin').
  - destruct Hin as [->|Hin]; [congruence|].
    destruct (IH (ex_intro _ row (conj Hin Hm))) as (r & Hr & Hmr & Hf & Hmax).
    exists r. split; [right; exact Hr|]. split; [exact Hmr|]. split; [exact Hf|].
    intros row' [<-|Hin'] Hm'; [congruence|]. exact (Hmax row' Hin' Hm').
Qed.

(** *** The rule phase *)

Definition matched (rs : list Regla) (tx : Tx) : bool :=
  match first_match tx rs with Some _ => true | None => false end.

Lemma rules_loop_decision rs txs tx r :
  In tx txs -> first_match tx rs = Some r ->
  In (rule_decision tx r) (fst (rules_loop rs txs)).
Proof.
  induction txs as [|t rest IH]; intros Hin Hf; [destruct Hin|].
  simpl. destruct (rules_loop rs rest) as [cs ids]. simpl in IH.
  destruct Hin as [->|Hin].
  - rewrite Hf. left. reflexivity.
  - specialize (IH Hin Hf). destruct (first_match t rs); simpl; [right|]; exact IH.
Qed.

Lemma rules_loop_inv rs txs c :
  In c (fst (rules_loop rs txs)) ->
  exists tx r, In tx txs /\ first_match tx rs = Some r /\ c = rule_decision tx r.
Proof.
  induction txs as [|t rest IH]; simpl; [intros []|].
  destruct (rules_loop rs rest) as [cs ids]. simpl in IH.
  destruct (first_match t rs) as [r|] eqn:Hf; simpl.
  - intros [<-|Hin].
    + exists t, r. auto.
    + destruct (IH Hin) as (tx & r' & H1 & H2 & H3). exists tx, r'. auto.
  - intros Hin. destruct (IH Hin) as (tx & r' & H1 & H2 & H3). exists tx, r'. auto.
Qed.

Lemma rules_loop_ids rs txs :
  map transaccion_id (fst (rules_loop rs txs)) = map tx_id (List.filter (matched rs) txs).
Proof.
  induction txs as [|t rest IH]; simpl; [reflexivity|].
  destruct (rules_loop rs rest) as [cs ids]. simpl in IH.
  unfold matched at 1. destruct (first_match t rs); simpl; rewrite IH; reflexivity.
Qed.

Lemma rules_loop_set rs txs :
  snd (rules_loop rs txs) = list_to_set (map transaccion_id (fst (rules_loop rs txs))).
Proof.
  induction txs as [|t rest IH]; simpl; [reflexivity|].
  destruct (rules_loop rs rest) as [cs ids]. simpl in IH.
  destruct (first_match t rs); simpl; rewrite IH; reflexivity.
Qed.

Lemma in_clasificadas rs txs x :
  x ∈ snd (rules_loop rs txs) <-> In x (map transaccion_id (fst (rules_loop rs txs))).
Proof. rewrite rules_loop_set, elem_of_list_to_set, list_elem_of_In. reflexivity. Qed.

(** A transaction a rule matched is not pending after the rule phase. *)
Lemma matched_not_pending rs txs tx t :
  In tx txs -> matched rs tx = true -> In t (after_rules rs txs) -> tx_id t <> tx_id tx.
Proof.
  intros Hin Hm Ht Heq. unfold after_rules in Ht. apply filter_In in Ht.
  destruct Ht as [_ Ht]. apply bool_decide_eq_true in Ht. apply Ht.
  rewrite in_clasificadas, rules_loop_ids, Heq. apply in_map.
  apply filter_In. auto.
Qed.

Lemma after_rules_sub rs txs t : In t (after_rules rs txs) -> In t txs.
Proof. unfold after_rules. rewrite filter_In. tauto. Qed.

Lemma NoDup_map_eq {A B : Type} (f : A -> B) l x y :
  List.NoDup (map f l) -> In x l -> In y l -> f x = f y -> x = y.
Proof.
  induction l as [|a l IH]; simpl; [intros _ []|].
  intros Hnd Hx Hy Heq. apply List.NoDup_cons_iff in Hnd. destruct Hnd as [Hna Hnd].
  destruct Hx as [->|Hx], Hy as [->|Hy]; auto.
  - exfalso. apply Hna. rewrite Heq. apply in_map, Hy.
  - exfalso. apply Hna. rewrite <- Heq. apply in_map, Hx.
Qed.

Lemma NoDup_map_filter {A B : Type} (f : A -> B) (p : A -> bool) l :
  List.NoDup (map f l) -> List.NoDup (map f (List.filter p l)).
Proof.
  induction l as [|a l IH]; simpl; [auto|].
  intros Hnd. apply List.NoDup_cons_iff in Hnd. destruct Hnd as [Hna Hnd].
  destruct (p a); simpl; [|auto].
  apply List.NoDup_cons; [|auto].
  intros Hin. apply Hna. apply in_map_iff in Hin. destruct Hin as (x & Hx & Hin).
  apply filter_In in Hin. apply in_map_iff. exists x. tauto.
Qed.

Lemma filter_split_perm {A : Type} (p : A -> bool) l :
  Permutation (List.filter p l ++ List.filter (fun x => negb (p x)) l) l.
Proof.
  induction l as [|a l IH]; simpl; [constructor|].
  destruct (p a); simpl.
  - constructor. exact IH.
  - apply Permutation_sym, Permutation_cons_app, Permutation_sym, IH.
Qed.

Lemma after_rules_unmatched rs txs :
  List.NoDup (map tx_id txs) ->
  after_rules rs txs = List.filter (fun t => negb (matched rs t)) txs.
Proof.
  intros Hnd. unfold after_rules. apply filter_ext_in. intros t Ht.
  destruct (matched rs t) eqn:Hm; simpl.
  - apply bool_decide_eq_false. intros Hn. apply Hn.
    rewrite in_clasificadas, rules_loop_ids. apply in_map, filter_In. auto.
  - apply bool_decide_eq_true. rewrite in_clasificadas, rules_loop_ids.
    intros Hin. apply in_map_iff in Hin. destruct Hin as (t' & Hid & Hin).
    apply filter_In in Hin. destruct Hin as [Hin Hm'].
    assert (t' = t) by (eapply NoDup_map_eq; eauto). congruence.
Qed.

Lemma rules_partition rs txs :
  List.NoDup (map tx_id txs) ->
  Permutation (map transaccion_id (fst (rules_loop rs txs)) ++ map tx_id (after_rules rs txs))
              (map tx_id txs).
Proof.
  intros Hnd. rewrite rules_loop_ids, after_rules_unmatched by exact Hnd.
  rewrite <- map_app. apply Permutation_map, filter_split_perm.
Qed.

(** *** The history phase and the external phase *)

#[local] Arguments PyStr.take : simpl never.

Lemma history_loop_sub env txs : forall ids,
  (forall c, In c (fst (history_loop env txs ids)) ->
     metodo c = "historico" /\ exists t, In t txs /\ tx_id t = transaccion_id c)
  /\ (forall t, In t (snd (history_loop env txs ids)) -> In t txs).
Proof.
  induction txs as [|t rest IH]; intros ids; simpl; [split; intros ? []|].
  destruct (bool_decide (tx_id t ∈ ids)).
  - destruct (IH ids) as [H1 H2]. split.
    + intros c Hc. destruct (H1 c Hc) as (Hm & t' & Ht' & Hid). eauto.
    + intros t' Ht'. right. exact (H2 t' Ht').
  - destruct (historico env (take 20 (tx_concepto t))) as [|cat cats].
    + destruct (IH ids) as [H1 H2].
      destruct (history_loop env rest ids) as [cs ps]. simpl in *. split.
      * intros c Hc. destruct (H1 c Hc) as (Hm & t' & Ht' & Hid). eauto.
      * intros t' [<-|Ht']; [left; reflexivity|right; exact (H2 t' Ht')].
    + destruct (IH ({[ tx_id t ]} ∪ ids)) as [H1 H2].
      destruct (history_loop env rest ({[ tx_id t ]} ∪ ids)) as [cs ps]. simpl in *. split.
      * intros c [<-|Hc]; [split; [reflexivity|]; exists t; auto|].
        destruct (H1 c Hc) as (Hm & t' & Ht' & Hid). eauto.
      * intros t' Ht'. right. exact (H2 t' Ht').
Qed.

Lemma history_loop_perm env txs : forall ids,
  List.NoDup (map tx_id txs) ->
  (forall t, In t txs -> tx_id t ∉ ids) ->
  Permutation (map transaccion_id (fst (history_loop env txs ids))
               ++ map tx_id (snd (history_loop env txs ids)))
              (map tx_id txs).
Proof.
  induction txs as [|t rest IH]; intros ids Hnd Hout; simpl; [constructor|].
  apply List.NoDup_cons_iff in Hnd. destruct Hnd as [Hna Hnd].
  rewrite bool_decide_eq_false_2 by (apply Hout; left; reflexivity).
  destruct (historico env (take 20 (tx_concepto t))) as [|cat cats].
  - specialize (IH ids Hnd (fun t' Ht' => Hout t' (or_intror Ht'))).
    destruct (history_loop env rest ids) as [cs ps]. simpl in *.
    apply Permutation_sym, Permutation_cons_app, Permutation_sym, IH.
  - assert (Hout' : forall t', In t' rest -> tx_id t' ∉ ({[ tx_id t ]} ∪ ids : gset string)).
    { intros t' Ht'. rewrite elem_of_union, elem_of_singleton.
      intros [Heq|Hin].
      - apply Hna. rewrite <- Heq. apply in_map, Ht'.
      - exact (Hout t' (or_intror Ht') Hin). }
    specialize (IH _ Hnd Hout').
    destruct (history_loop env rest ({[ tx_id t ]} ∪ ids)) as [cs ps]. simpl in *.
    constructor. exact IH.
Qed.

Lemma llm_loop_ids env txs : forall cs,
  llm_loop env txs = inr cs ->
  map transaccion_id cs = map tx_id txs /\ forall c, In c cs -> metodo c = "llm".
Proof.
  induction txs as [|t rest IH]; intros cs; simpl.
  - intros [= <-]. split; [reflexivity|intros ? []].
  - destruct (classify_transaction env _ _) as [e|r]; [discriminate|].
    destruct (llm_categoria r) as [cat|]; [|discriminate].
    destruct (llm_confianza r) as [conf|]; [|discriminate].
    destruct (llm_loop env rest) as [e|cs']; [discriminate|].
    intros [= <-]. destruct (IH cs' eq_refl) as [Hids Hm]. simpl. split.
    + f_equal. exact Hids.
    + intros c [<-|Hc]; [reflexivity|exact (Hm c Hc)].
Qed.

(** The external phase returns when the classifier answers every pending
    transaction with a category and a confidence. *)
Lemma llm_loop_total env txs :
  (forall t, In t txs -> exists r cat conf,
     classify_transaction env (tx_concepto t) (tx_importe t) = inr r
     /\ llm_categoria r = Some cat /\ llm_confianza r = Some conf) ->
  exists cs, llm_loop env txs = inr cs.
Proof.
  induction txs as [|t rest IH]; intros H; simpl; [eauto|].
  destruct (H t (or_introl eq_refl)) as (r & cat & conf & Hr & Hc & Hf).
  rewrite Hr, Hc, Hf.
  destruct (IH (fun t' Ht' => H t' (or_intror Ht'))) as [cs Hcs]. rewrite Hcs. eauto.
Qed.

(** *** The three phases together *)

Lemma pending_not_by_rule rs txs t :
  In t (after_rules rs txs) -> ~ In (tx_id t) (map transaccion_id (fst (rules_loop rs txs))).
Proof.
  unfold after_rules. rewrite filter_In, bool_decide_eq_true, in_clasificadas. tauto.
Qed.

Lemma phases_inv env rs txs c1 c2 c3 :
  phases env rs txs = inr (c1, c2, c3) ->
  c1 = fst (rules_loop rs txs)
  /\ (forall c, In c c1 -> metodo c = "regla")
  /\ (forall c, In c c2 -> metodo c = "historico"
                          /\ exists t, In t (after_rules rs txs) /\ tx_id t = transaccion_id c)
  /\ (forall c, In c c3 -> metodo c = "llm"
                          /\ exists t, In t (after_rules rs txs) /\ tx_id t = transaccion_id c).
Proof.
  unfold phases.
  pose proof (history_loop_sub env (after_rules rs txs)
                (list_to_set (map transaccion_id (fst (rules_loop rs txs))))) as [Hh Hp].
  destruct (history_loop env _ _) as [cs ps]. simpl in *.
  destruct (llm_loop env ps) as [e|c3'] eqn:Hl; [discriminate|].
  intros [= <- <- <-]. split; [reflexivity|]. split; [|split].
  - intros c Hc. destruct (rules_loop_inv _ _ _ Hc) as (tx & r & _ & _ & ->). reflexivity.
  - exact Hh.
  - intros c Hc. destruct (llm_loop_ids _ _ _ Hl) as [Hids Hm]. split; [exact (Hm c Hc)|].
    assert (Hin : In (transaccion_id c) (map tx_id ps)) by (rewrite <- Hids; apply in_map, Hc).
    apply in_map_iff in Hin. destruct Hin as (t & Hid & Ht). exists t. split; [apply Hp, Ht|exact Hid].
Qed.

Lemma phases_partition env rs txs c1 c2 c3 :
  List.NoDup (map tx_id txs) ->
  phases env rs txs = inr (c1, c2, c3) ->
  Permutation (map transaccion_id ((c1 ++ c2) ++ c3)) (map tx_id txs).
Proof.
  intros Hnd. unfold phases.
  pose proof (history_loop_perm env (after_rules rs txs)
                (list_to_set (map transaccion_id (fst (rules_loop rs txs))))) as Hperm.
  destruct (history_loop env _ _) as [cs ps]. simpl in *.
  destruct (llm_loop env ps) as [e|c3'] eqn:Hl; [discriminate|].
  intros [= <- <- <-].
  destruct (llm_loop_ids _ _ _ Hl) as [Hids _].
  rewrite !map_app, Hids, <- app_assoc.
  eapply Permutation_trans; [|apply (rules_partition rs txs Hnd)].
  apply Permutation_app_head, Hperm.
  - unfold after_rules. apply NoDup_map_filter, Hnd.
  - intros t Ht. rewrite elem_of_list_to_set, list_elem_of_In.
    apply pending_not_by_rule, Ht.
Qed.

(** The rows [load_data] reads have distinct ids when the table has. *)
Lemma loaded_NoDup env tenant ids txs rs :
  List.NoDup (map row_id (tabla_transaccion env)) ->
  loaded env tenant ids = inr (txs, rs) ->
  List.NoDup (map tx_id txs).
Proof.
  intros Hnd. unfold loaded.
  destruct (parse_uuids env ids) as [e|[|u us]]; [discriminate| |].
  - intros [= <- <-]. constructor.
  - destruct tenant as [t|]; [|discriminate].
    destruct (UUID env t); [|discriminate].
    intros [= <- <-]. rewrite map_map. unfold select_transacciones.
    apply (NoDup_map_filter row_id), Hnd.
Qed.

(** *** The stages on a state *)

Lemma run_pipeline env fresh s0 db :
  run_clasificacion env fresh s0 db =
  match pipeline env (ensure_session fresh s0) db with
  | (inr result, db') => (result, db')
  | (inl e, db') => (set_error (exc_str e) (set_status "error" (ensure_session fresh s0)), db')
  end.
Proof.
  unfold run_clasificacion, run.
  change (entry_point (build_graph env)) with "load_data".
  rewrite ainvoke_pipeline. reflexivity.
Qed.

Lemma apply_rules_loaded txs rs s :
  clasificaciones (payload (apply_rules (with_loaded txs rs s))) = Some (fst (rules_loop rs txs))
  /\ transacciones (payload (apply_rules (with_loaded txs rs s))) = Some (after_rules rs txs).
Proof.
  unfold apply_rules, with_loaded, after_rules. simpl.
  destruct (rules_loop rs txs) as [cs ids]. simpl. split; reflexivity.
Qed.

Lemma below_lt T c : below T c = true <-> (confianza c < T)%Q.
Proof.
  unfold below, Qltb. rewrite negb_true_iff, <- not_true_iff_false, Qle_bool_iff.
  split; [apply Qnot_le_lt|apply Qlt_not_le].
Qed.



(** *** A sample run *)

(** A stand-in for [uuid.UUID]: a text of 36 characters is taken as an id
    and written in lower case. *)
Definition demo_uuid (s : string) : option string :=
  if (String.length s =? 36)%nat then Some (lower s) else None.

Definition id_tenant : string := "aaaaaaaa-0000-4000-8000-000000000001".
Definition id_tx1 : string := "bbbbbbbb-0000-4000-8000-000000000001".
Definition id_tx2 : string := "bbbbbbbb-0000-4000-8000-000000000002".
Definition id_tx3 : string := "bbbbbbbb-0000-4000-8000-000000000003".
Definition id_regla1 : string := "cccccccc-0000-4000-8000-000000000001".

(** The rule of the scenario: [concepto contains "iberdrola" -> 628]. *)
Definition regla_iberdrola : ReglaRow :=
  mkReglaRow id_regla1 id_tenant true 0
    (mkCondicion (Some "concepto") (Some "contains") (Some "iberdrola")) "628".

(** Three transactions: a rule decides the first, the history the second
    and the external classifier, with a low confidence, the third. *)
Definition demo_env : Env :=
  mkEnv demo_uuid
    [ mkTransaccionRow id_tx1 (Some "RECIBO IBERDROLA DICIEMBRE") (-4599);
      mkTransaccionRow id_tx2 (Some "PAGO AMAZON") (-1250);
      mkTransaccionRow id_tx3 (Some "TRANSFERENCIA") 250000 ]
    [ regla_iberdrola ]
    (fun c => if String.eqb c "PAGO AMAZON" then ["629"; "629"; "600"] else [])
    (fun _ _ => inr (mkLlmResult (Some "705") (Some 0.5%Q) (Some "ingreso"))).

Definition demo_state : ClasificacionState :=
  mkAgentState (Some id_tenant) (Some "sesion-1") None None None None None
    (mkPayload None (Some [id_tx1; id_tx2; id_tx3]) None None None None (Some 0.75%Q)).

(** The state a stage returned, or the given one when it raised. *)
Definition returned (r : Exc + ClasificacionState) (d : ClasificacionState) : ClasificacionState :=
  match r with inr s => s | inl _ => d end.

Definition demo_loaded : ClasificacionState := returned (load_data demo_env demo_state) demo_state.
Definition demo_classified : ClasificacionState := returned (cascade demo_env demo_state) demo_state.

Lemma demo_ids_distinct : List.NoDup (map row_id (tabla_transaccion demo_env)).
Proof.
  simpl. repeat (apply List.NoDup_cons; [simpl; intuition discriminate|]). constructor.
Qed.

(** C3. When the ids of the transaction table are distinct (they are its
    primary key) and the cascade returns, its decisions are those of the
    rule phase followed by those of the history phase and those of the
    external phase; no decision of the two later phases is for a
    transaction the rule phase decided; the ids of the decisions are, up to
    order, exactly the ids of the transactions that were loaded, each once;
    and no transaction is left pending. *)
Theorem cascade_partitions_input :
  forall (env : Env) (s s1 s4 : ClasificacionState),
    List.NoDup (map row_id (tabla_transaccion env)) ->
    load_data env s = inr s1 ->
    cascade env s = inr s4 ->
    exists by_rule by_history by_llm,
      clasificaciones (payload (apply_rules s1)) = Some by_rule
      /\ clasificaciones (payload s4) = Some ((by_rule ++ by_history) ++ by_llm)
      /\ (forall c, In c by_rule -> metodo c = "regla")
      /\ (forall c, In c by_history ->
             metodo c = "historico" /\ ~ In (transaccion_id c) (map transaccion_id by_rule))
      /\ (forall c, In c by_llm ->
             metodo c = "llm" /\ ~ In (transaccion_id c) (map transaccion_id by_rule))
      /\ Permutation (map transaccion_id ((by_rule ++ by_history) ++ by_llm))
                     (map tx_id (default [] (transacciones (payload s1))))
      /\ List.NoDup (map transaccion_id ((by_rule ++ by_history) ++ by_llm))
      /\ transacciones (payload s4) = Some [].
Proof.
  intros env s s1 s4 Hnd Hload Hcas.
  rewrite load_data_loaded in Hload. rewrite cascade_shape in Hcas.
  destruct (loaded env _ _) as [e|[txs rs]] eqn:Hl; [discriminate|].
  injection Hload as <-.
  destruct (phases env rs txs) as [e|[[c1 c2] c3]] eqn:Hp; [discriminate|].
  injection Hcas as <-.
  pose proof (loaded_NoDup _ _ _ _ _ Hnd Hl) as Hnd'.
  destruct (phases_inv _ _ _ _ _ _ Hp) as (Hc1 & Hm1 & Hm2 & Hm3).
  pose proof (phases_partition _ _ _ _ _ _ Hnd' Hp) as Hperm.
  destruct (apply_rules_loaded txs rs s) as [Hcl _].
  exists c1, c2, c3. split; [rewrite Hcl, Hc1; reflexivity|].
  split; [reflexivity|]. split; [exact Hm1|]. split; [|split].
  - intros c Hc. destruct (Hm2 c Hc) as (Hm & t & Ht & Hid). split; [exact Hm|].
    rewrite <- Hid, Hc1. apply pending_not_by_rule, Ht.
  - intros c Hc. destruct (Hm3 c Hc) as (Hm & t & Ht & Hid). split; [exact Hm|].
    rewrite <- Hid, Hc1. apply pending_not_by_rule, Ht.
  - split; [exact Hperm|]. split; [|reflexivity].
    apply (Permutation_NoDup (Permutation_sym Hperm)), Hnd'.
Qed.

Lemma cascade_partitions_input_witness :
  exists by_rule by_history by_llm,
    clasificaciones (payload (apply_rules demo_loaded)) = Some by_rule
    /\ clasificaciones (payload demo_classified) = Some ((by_rule ++ by_history) ++ by_llm)
    /\ (forall c, In c by_rule -> metodo c = "regla")
    /\ (forall c, In c by_history ->
           metodo c = "historico" /\ ~ In (transaccion_id c) (map transaccion_id by_rule))
    /\ (forall c, In c by_llm ->
           metodo c = "llm" /\ ~ In (transaccion_id c) (map transaccion_id by_rule))
    /\ Permutation (map transaccion_id ((by_rule ++ by_history) ++ by_llm))
                   (map tx_id (default [] (transacciones (payload demo_loaded))))
    /\ List.NoDup (map transaccion_id ((by_rule ++ by_history) ++ by_llm))
    /\ transacciones (payload demo_classified) = Some [].
Proof.
  apply (cascade_partitions_input demo_env demo_state demo_loaded demo_classified).
  - simpl. repeat (apply List.NoDup_cons; [simpl; intuition discriminate|]). constructor.
  - vm_compute. reflexivity.
  - vm_compute. reflexivity.
Defined.

(** *** The rule phase of a run *)

(** A rule of the table that [load_data] reads for [tenant] and that
    matches [tx]. *)
Definition applicable (env : Env) (tenant : string) (tx : Tx) (row : ReglaRow) : Prop :=
  In row (tabla_regla env) /\ rr_tenant row = tenant /\ rr_activa row = true
  /\ _match_rule tx (rr_condicion row) = true.

(** C2, as the code has it.  For a loaded transaction that some active
    rule of the tenant matches, the rule phase records one decision whose
    category is that of a matching rule of highest priority (the first
    match in descending priority), with confidence 0.99 and method
    [regla]; the transaction is no longer among the pending ones, and in
    the result of the cascade every decision for it has method [regla]:
    the history phase and the external phase never see it. *)
Theorem rule_phase_first_match :
  forall (env : Env) (s s1 : ClasificacionState) (tx : Tx) (t tenant : string),
    load_data env s = inr s1 ->
    In tx (default [] (transacciones (payload s1))) ->
    tenant_id s = Some t ->
    UUID env t = Some tenant ->
    (exists row, applicable env tenant tx row) ->
    exists row,
      applicable env tenant tx row
      /\ (forall row', applicable env tenant tx row' -> rr_prioridad row' <= rr_prioridad row)
      /\ In (mkClasif (tx_id tx) (rr_categoria row) 0.99 "regla" ("Regla: " +:+ rr_id row))
            (default [] (clasificaciones (payload (apply_rules s1))))
      /\ (forall t', In t' (default [] (transacciones (payload (apply_rules s1)))) ->
                     tx_id t' <> tx_id tx)
      /\ (forall s4 c, cascade env s = inr s4 ->
                       In c (default [] (clasificaciones (payload s4))) ->
                       transaccion_id c = tx_id tx -> metodo c = "regla").
Proof.
  intros env s s1 tx t tenant Hload Hin Ht Hu (row0 & Hrow0).
  rewrite load_data_loaded in Hload.
  destruct (loaded env _ _) as [e|[txs rs]] eqn:Hl; [discriminate|].
  injection Hload as <-.
  destruct (apply_rules_loaded txs rs s) as [Hcl Htr]. rewrite Hcl, Htr.
  simpl in Hin |- *.
  assert (Hrs : rs = map regla_of_row (select_reglas env tenant)).
  { unfold loaded in Hl. rewrite Ht, Hu in Hl.
    destruct (parse_uuids env _) as [e|[|u us]]; [discriminate| |].
    - injection Hl as <- <-. destruct Hin.
    - injection Hl as _ <-. reflexivity. }
  destruct (first_match_rows tx (select_reglas env tenant)) as (row & Hr & Hm & Hf & Hmax).
  { apply order_by_sorted. }
  { exists row0. destruct Hrow0 as (H1 & H2 & H3 & H4).
    split; [apply select_reglas_In; auto|exact H4]. }
  rewrite <- Hrs in Hf.
  apply select_reglas_In in Hr. destruct Hr as (Hr1 & Hr2 & Hr3).
  assert (Hmatched : matched rs tx = true) by (unfold matched; rewrite Hf; reflexivity).
  exists row. split; [unfold applicable; auto|]. split; [|split; [|split]].
  - intros row' (H1 & H2 & H3 & H4). apply Hmax; [apply select_reglas_In; auto|exact H4].
  - exact (rules_loop_decision rs txs tx _ Hin Hf).
  - intros t' Ht'. exact (matched_not_pending rs txs tx t' Hin Hmatched Ht').
  - intros s4 c Hcas Hc Hid. rewrite cascade_shape, Hl in Hcas.
    destruct (phases env rs txs) as [e|[[c1 c2] c3]] eqn:Hp; [discriminate|].
    injection Hcas as <-. simpl in Hc.
    destruct (phases_inv _ _ _ _ _ _ Hp) as (Hc1 & Hm1 & Hm2 & Hm3).
    apply in_app_or in Hc. destruct Hc as [Hc|Hc]; [apply in_app_or in Hc; destruct Hc as [Hc|Hc]|].
    + exact (Hm1 c Hc).
    + destruct (Hm2 c Hc) as (_ & t' & Ht' & Hid').
      exfalso. apply (matched_not_pending rs txs tx t' Hin Hmatched Ht'). congruence.
    + destruct (Hm3 c Hc) as (_ & t' & Ht' & Hid').
      exfalso. apply (matched_not_pending rs txs tx t' Hin Hmatched Ht'). congruence.
Qed.

(** The scenario of the specification: one rule,
    [concepto contains "iberdrola" -> 628], and the record
    [RECIBO IBERDROLA DICIEMBRE]. *)
Definition iberdrola_env : Env :=
  mkEnv demo_uuid
    [ mkTransaccionRow id_tx1 (Some "RECIBO IBERDROLA DICIEMBRE") (-4599) ]
    [ regla_iberdrola ]
    (fun _ => [])
    (fun _ _ => inl (RuntimeError "the external classifier is not reached")).

Definition iberdrola_state : ClasificacionState :=
  mkAgentState (Some id_tenant) (Some "sesion-1") None None None None None
    (mkPayload None (Some [id_tx1]) None None None None None).

Definition iberdrola_tx : Tx :=
  mkTx id_tx1 "RECIBO IBERDROLA DICIEMBRE" (Fin (-4599) (-2)).

Lemma rule_phase_first_match_witness :
  exists row,
    applicable iberdrola_env id_tenant iberdrola_tx row
    /\ (forall row', applicable iberdrola_env id_tenant iberdrola_tx row' ->
                     rr_prioridad row' <= rr_prioridad row)
    /\ In (mkClasif (tx_id iberdrola_tx) (rr_categoria row) 0.99 "regla"
                    ("Regla: " +:+ rr_id row))
          (default [] (clasificaciones (payload (apply_rules
              (returned (load_data iberdrola_env iberdrola_state) iberdrola_state)))))
    /\ (forall t', In t' (default [] (transacciones (payload (apply_rules
              (returned (load_data iberdrola_env iberdrola_state) iberdrola_state))))) ->
                   tx_id t' <> tx_id iberdrola_tx)
    /\ (forall s4 c, cascade iberdrola_env iberdrola_state = inr s4 ->
                     In c (default [] (clasificaciones (payload s4))) ->
                     transaccion_id c = tx_id iberdrola_tx -> metodo c = "regla").
Proof.
  apply (rule_phase_first_match iberdrola_env iberdrola_state
           (returned (load_data iberdrola_env iberdrola_state) iberdrola_state)
           iberdrola_tx id_tenant id_tenant).
  - vm_compute. reflexivity.
  - vm_compute. left. reflexivity.
  - reflexivity.
  - vm_compute. reflexivity.
  - exists regla_iberdrola. unfold applicable. simpl.
    split; [left; reflexivity|]. split; [reflexivity|]. split; [reflexivity|].
    vm_compute. reflexivity.
Defined.

(** In that scenario the run completes without review and stores one
    decision: category 628, method [regla], confidence 0.99, which is not
    1.0. *)
Lemma iberdrola_confidence_is_not_one :
  run_clasificacion iberdrola_env "sesion-2" iberdrola_state []
  = (fst (run_clasificacion iberdrola_env "sesion-2" iberdrola_state []),
     [Add (mkClasif id_tx1 "628" 0.99 "regla" ("Regla: " +:+ id_regla1)); Commit])
  /\ status (fst (run_clasificacion iberdrola_env "sesion-2" iberdrola_state []))
     = Some "completed"
  /\ ~ (confianza (mkClasif id_tx1 "628" 0.99 "regla" ("Regla: " +:+ id_regla1)) == 1)%Q.
Proof.
  split; [vm_compute; reflexivity|]. split; [vm_compute; reflexivity|].
  simpl. intros H. vm_compute in H. discriminate.
Qed.

(** *** The review gate *)


Lemma prepare_review_flags s :
  List.filter (below (threshold_of s)) (default [] (clasificaciones (payload s))) <> [] ->
  requires_human (prepare_review s) = Some true /\ status (prepare_review s) = Some "review".
Proof.
  intros H. unfold prepare_review.
  destruct (List.filter _ _); [congruence|]. split; reflexivity.
Qed.

Lemma prepare_review_feedback s : human_feedback (prepare_review s) = human_feedback s.
Proof. reflexivity. Qed.

(** The cascade keeps the threshold, the feedback, the tenant, the session
    and the ids of the state it is given. *)
Lemma cascade_keeps env s s4 :
  cascade env s = inr s4 ->
  threshold_of s4 = threshold_of s /\ human_feedback s4 = human_feedback s
  /\ tenant_id s4 = tenant_id s /\ session_id s4 = session_id s
  /\ transaccion_ids (payload s4) = transaccion_ids (payload s).
Proof.
  rewrite cascade_shape.
  destruct (loaded env _ _) as [e|[txs rs]]; [discriminate|].
  destruct (phases env rs txs) as [e|[[c1 c2] c3]]; [discriminate|].
  intros [= <-]. repeat split.
Qed.






(** The sample run stops for review with two decisions below 0.75 and
    leaves the session untouched; resumed with a correction for the third
    transaction it stores the three decisions and commits. *)
Example demo_review_and_resume :
  snd (run_clasificacion demo_env "sesion-2" demo_state []) = []
  /\ status (fst (run_clasificacion demo_env "sesion-2" demo_state [])) = Some "review"
  /\ option_map (map transaccion_id)
       (pendientes_revision (payload (fst (run_clasificacion demo_env "sesion-2" demo_state []))))
     = Some [id_tx2; id_tx3]
  /\ snd (resume demo_env "sesion-3" (prepare_review demo_classified)
             (mkFeedback (Some {[ id_tx3 := "700" ]}) (Some "usuario")) [])
     = [ Add (mkClasif id_tx1 "628" 0.99 "regla" ("Regla: " +:+ id_regla1));
         Add (mkClasif id_tx2 "629" 0.57 "historico" "Basado en 3 clasificaciones similares");
         Add (mkClasif id_tx3 "700" 1 "manual" "ingreso");
         Commit ].
Proof. repeat split; vm_compute; reflexivity. Qed.

(** *** A run that fails *)

(** The sample tables with an external classifier that is down. *)
Definition failing_env : Env :=
  mkEnv demo_uuid (tabla_transaccion demo_env) (tabla_regla demo_env) (historico demo_env)
    (fun _ _ => inl (RuntimeError "classifier unavailable")).

Lemma run_error_keeps_initial_state_witness :
  status (fst (run_clasificacion failing_env "sesion-2" demo_state [])) = Some "error"
  /\ error (fst (run_clasificacion failing_env "sesion-2" demo_state []))
     = Some (exc_str (RuntimeError "classifier unavailable"))
  /\ tenant_id (fst (run_clasificacion failing_env "sesion-2" demo_state []))
     = tenant_id demo_state
  /\ session_id (fst (run_clasificacion failing_env "sesion-2" demo_state []))
     = Some (default "sesion-2" (session_id demo_state))
  /\ results (fst (run_clasificacion failing_env "sesion-2" demo_state []))
     = results demo_state
  /\ requires_human (fst (run_clasificacion failing_env "sesion-2" demo_state []))
     = requires_human demo_state
  /\ human_feedback (fst (run_clasificacion failing_env "sesion-2" demo_state []))
     = human_feedback demo_state
  /\ payload (fst (run_clasificacion failing_env "sesion-2" demo_state []))
     = payload demo_state
  /\ snd (run_clasificacion failing_env "sesion-2" demo_state []) = [].
Proof.
  apply (run_error_keeps_initial_state (build_graph failing_env) "sesion-2" demo_state [] []
           (RuntimeError "classifier unavailable")).
  vm_compute. reflexivity.
Defined.

(** With the classifier down the external phase raises.  The last stage
    that completed, the history phase, had two decisions in its state; the
    state [run] returns has none: it is not the last good state with the
    fault added. *)
Lemma run_error_drops_completed_stages :
  exists good : ClasificacionState,
    last_good_state recursion_limit (build_graph failing_env) "load_data"
                    (ensure_session "sesion-2" demo_state) ([] : list DbCall) = Some good
    /\ option_map (map transaccion_id) (clasificaciones (payload good)) = Some [id_tx1; id_tx2]
    /\ status (fst (run_clasificacion failing_env "sesion-2" demo_state [])) = Some "error"
    /\ clasificaciones (payload (fst (run_clasificacion failing_env "sesion-2" demo_state [])))
       = None
    /\ fst (run_clasificacion failing_env "sesion-2" demo_state [])
       <> set_error "classifier unavailable" (set_status "error" good).
Proof.
  eexists. split; [vm_compute; reflexivity|].
  split; [vm_compute; reflexivity|]. split; [vm_compute; reflexivity|].
  split; [vm_compute; reflexivity|].
  intros H. apply (f_equal (fun s => clasificaciones (payload s))) in H.
  vm_compute in H. discriminate.
Qed.

End ClasificacionFacts.

(** ** [hashlib]: SHA-256 and MD5 *)

Module Hashes.
Import PyStr.

(** Words of 32 bits are integers below [2^32]. *)
Definition w32 (x : Z) : Z := x mod 4294967296.

Definition add32 (x y : Z) : Z := w32 (x + y).

Definition rotr (n x : Z) : Z := w32 (Z.lor (Z.shiftr x n) (Z.shiftl x (32 - n))).

Definition rotl (n x : Z) : Z := w32 (Z.lor (Z.shiftl x n) (Z.shiftr x (32 - n))).

Definition not32 (x : Z) : Z := 4294967295 - x.

(** [s.encode()]: the bytes of the text. *)
Fixpoint bytes_of (s : string) : list Z :=
  match s with
  | EmptyString => []
  | String c s' => code c :: bytes_of s'
  end.

(** The padding both functions use: a bit one, zeros up to 56 modulo 64,
    then the length in bits on eight bytes written by [len8]. *)
Definition pad_message (len8 : Z -> list Z) (msg : list Z) : list Z :=
  let n := Z.of_nat (length msg) in
  let k := (55 - n) mod 64 in
  msg ++ [128] ++ repeat 0 (Z.to_nat k) ++ len8 (8 * n).

Definition byte_at (x i : Z) : Z := Z.land (Z.shiftr x (8 * i)) 255.

Definition be8 (x : Z) : list Z := map (byte_at x) [7; 6; 5; 4; 3; 2; 1; 0].
Definition le8 (x : Z) : list Z := map (byte_at x) [0; 1; 2; 3; 4; 5; 6; 7].
Definition be4 (x : Z) : list Z := map (byte_at x) [3; 2; 1; 0].
Definition le4 (x : Z) : list Z := map (byte_at x) [0; 1; 2; 3].

(** The words of a run of bytes, four bytes each. *)
Fixpoint words_of (big_endian : bool) (fuel : nat) (bs : list Z) : list Z :=
  match fuel with
  | O => []
  | S f =>
      match bs with
      | b0 :: b1 :: b2 :: b3 :: rest =>
          (if big_endian
           then b0 * 16777216 + b1 * 65536 + b2 * 256 + b3
           else b3 * 16777216 + b2 * 65536 + b1 * 256 + b0)
            :: words_of big_endian f rest
      | _ => []
      end
  end.

(** Blocks of sixteen words. *)
Fixpoint blocks_of (fuel : nat) (ws : list Z) : list (list Z) :=
  match fuel with
  | O => []
  | S f =>
      match ws with
      | [] => []
      | _ => firstn 16 ws :: blocks_of f (skipn 16 ws)
      end
  end.

Definition hex_digit (n : Z) : ascii :=
  ascii_of_N (Z.to_N (if n <? 10 then 48 + n else 87 + n)).

Fixpoint hex_of_bytes (bs : list Z) : string :=
  match bs with
  | [] => EmptyString
  | b :: bs' => String (hex_digit (b / 16)) (String (hex_digit (b mod 16)) (hex_of_bytes bs'))
  end.

(** *** SHA-256 (FIPS 180-4) *)

Definition K256 : list Z :=
  [
    1116352408; 1899447441; 3049323471; 3921009573;
    961987163; 1508970993; 2453635748; 2870763221;
    3624381080; 310598401; 607225278; 1426881987;
    1925078388; 2162078206; 2614888103; 3248222580;
    3835390401; 4022224774; 264347078; 604807628;
    770255983; 1249150122; 1555081692; 1996064986;
    2554220882; 2821834349; 2952996808; 3210313671;
    3336571891; 3584528711; 113926993; 338241895;
    666307205; 773529912; 1294757372; 1396182291;
    1695183700; 1986661051; 2177026350; 2456956037;
    2730485921; 2820302411; 3259730800; 3345764771;
    3516065817; 3600352804; 4094571909; 275423344;
    430227734; 506948616; 659060556; 883997877;
    958139571; 1322822218; 1537002063; 1747873779;
    1955562222; 2024104815; 2227730452; 2361852424;
    2428436474; 2756734187; 3204031479; 3329325298
  ].

Definition H256 : list Z :=
  [
    1779033703; 3144134277; 1013904242; 2773480762;
    1359893119; 2600822924; 528734635; 1541459225
  ].

Definition at_ (l : list Z) (i : nat) : Z := nth i l 0.

(** The message schedule: [w] holds the words computed so far, the newest
    first. *)
Fixpoint schedule (n : nat) (w : list Z) : list Z :=
  match n with
  | O => w
  | S n' =>
      let s0 := Z.lxor (Z.lxor (rotr 7 (at_ w 14)) (rotr 18 (at_ w 14))) (Z.shiftr (at_ w 14) 3) in
      let s1 := Z.lxor (Z.lxor (rotr 17 (at_ w 1)) (rotr 19 (at_ w 1))) (Z.shiftr (at_ w 1) 10) in
      schedule n' (add32 (add32 (at_ w 15) s0) (add32 (at_ w 6) s1) :: w)
  end.

Definition sha256_round (st : list Z) (kw : Z * Z) : list Z :=
  match st with
  | [a; b; c; d; e; f; g; h] =>
      let S1 := Z.lxor (Z.lxor (rotr 6 e) (rotr 11 e)) (rotr 25 e) in
      let ch := Z.lxor (Z.land e f) (Z.land (not32 e) g) in
      let t1 := add32 (add32 (add32 h S1) (add32 ch (fst kw))) (snd kw) in
      let S0 := Z.lxor (Z.lxor (rotr 2 a) (rotr 13 a)) (rotr 22 a) in
      let maj := Z.lxor (Z.lxor (Z.land a b) (Z.land a c)) (Z.land b c) in
      let t2 := add32 S0 maj in
      [add32 t1 t2; a; b; c; add32 d t1; e; f; g]
  | _ => st
  end.

Definition sha256_block (h : list Z) (block : list Z) : list Z :=
  let w := rev (schedule 48 (rev block)) in
  let st := fold_left sha256_round (combine K256 w) h in
  map (fun p => add32 (fst p) (snd p)) (combine h st).

Definition sha256 (msg : list Z) : list Z :=
  let padded := pad_message be8 msg in
  let ws := words_of true (length padded) padded in
  concat (map be4 (fold_left sha256_block (blocks_of (length ws) ws) H256)).

(** [hashlib.sha256(s.encode()).hexdigest()] *)
Definition sha256_hexdigest (s : string) : string := hex_of_bytes (sha256 (bytes_of s)).

(** *** MD5 (RFC 1321) *)

Definition T5 : list Z :=
  [
    3614090360; 3905402710; 606105819; 3250441966;
    4118548399; 1200080426; 2821735955; 4249261313;
    1770035416; 2336552879; 4294925233; 2304563134;
    1804603682; 4254626195; 2792965006; 1236535329;
    4129170786; 3225465664; 643717713; 3921069994;
    3593408605; 38016083; 3634488961; 3889429448;
    568446438; 3275163606; 4107603335; 1163531501;
    2850285829; 4243563512; 1735328473; 2368359562;
    4294588738; 2272392833; 1839030562; 4259657740;
    2763975236; 1272893353; 4139469664; 3200236656;
    681279174; 3936430074; 3572445317; 76029189;
    3654602809; 3873151461; 530742520; 3299628645;
    4096336452; 1126891415; 2878612391; 4237533241;
    1700485571; 2399980690; 4293915773; 2240044497;
    1873313359; 4264355552; 2734768916; 1309151649;
    4149444226; 3174756917; 718787259; 3951481745
  ].

Definition S5 : list Z :=
  [
    7; 12; 17; 22; 7; 12; 17; 22;
    7; 12; 17; 22; 7; 12; 17; 22;
    5; 9; 14; 20; 5; 9; 14; 20;
    5; 9; 14; 20; 5; 9; 14; 20;
    4; 11; 16; 23; 4; 11; 16; 23;
    4; 11; 16; 23; 4; 11; 16; 23;
    6; 10; 15; 21; 6; 10; 15; 21;
    6; 10; 15; 21; 6; 10; 15; 21
  ].

Definition md5_round (block : list Z) (st : list Z) (i : nat) : list Z :=
  match st with
  | [a; b; c; d] =>
      let iz := Z.of_nat i in
      let '(f, g) :=
        if iz <? 16 then (Z.lor (Z.land b c) (Z.land (not32 b) d), iz)
        else if iz <? 32 then (Z.lor (Z.land d b) (Z.land (not32 d) c), (5 * iz + 1) mod 16)
        else if iz <? 48 then (Z.lxor (Z.lxor b c) d, (3 * iz + 5) mod 16)
        else (Z.lxor c (Z.lor b (not32 d)), (7 * iz) mod 16) in
      let x := add32 (add32 a f) (add32 (at_ T5 i) (at_ block (Z.to_nat g))) in
      [d; add32 b (rotl (at_ S5 i) x); b; c]
  | _ => st
  end.

Definition md5_block (h : list Z) (block : list Z) : list Z :=
  let st := fold_left (md5_round block) (seq 0 64) h in
  map (fun p => add32 (fst p) (snd p)) (combine h st).

Definition md5 (msg : list Z) : list Z :=
  let padded := pad_message le8 msg in
  let ws := words_of false (length padded) padded in
  concat (map le4 (fold_left md5_block (blocks_of (length ws) ws)
                             [1732584193; 4023233417; 2562383102; 271733878])).

(** [hashlib.md5(s.encode()).hexdigest()] *)
Definition md5_hexdigest (s : string) : string := hex_of_bytes (md5 (bytes_of s)).

End Hashes.

(** ** [services/parsers]: the legacy bank parsers *)

Module Parsers.
Import PyStr PyNum PyDate Hashes.

(** [TransaccionRaw] *)
Record TransaccionRaw : Type := mkTransaccionRaw {
  fecha : date;
  concepto : string;
  importe : PyDecimal;
  saldo : option PyDecimal;
  referencia : option string;
  fecha_valor : option date
}.

(** The text [compute_hash] digests. *)
Definition hash_data (tx : TransaccionRaw) : Exc + string :=
  match float_of_decimal (importe tx) with
  | inl e => inl e
  | inr f =>
      let data := isoformat (fecha tx) +:+ "|" +:+ concepto tx +:+ "|" +:+ float_repr f in
      inr (match referencia tx with
           | Some r => if String.eqb r "" then data else data +:+ "|" +:+ r
           | None => data
           end)
  end.

(** [TransaccionRaw.compute_hash]: the first 16 hexadecimal digits of the
    SHA-256 of the text. *)
Definition compute_hash (tx : TransaccionRaw) : Exc + string :=
  match hash_data tx with
  | inl e => inl e
  | inr data => inr (take 16 (sha256_hexdigest data))
  end.

Definition euro : string := "€".

(** The text [normalize_amount] hands to [Decimal]. *)
Definition cleaned_amount (value : string) : string :=
  let cleaned := strip (replace " " "" (replace "EUR" "" (replace euro "" (strip value)))) in
  if contains "," cleaned && contains "." cleaned then
    if rfind "." cleaned <? rfind "," cleaned
    then replace "," "." (replace "." "" cleaned)
    else replace "," "" cleaned
  else if contains "," cleaned then replace "," "." cleaned
  else cleaned.

(** [BankParser.normalize_amount].  [None] is the Python [None] a short
    CSV row gives; [not value] sends it, like the empty text, to zero. *)
Definition normalize_amount (value : option string) : PyDecimal :=
  match value with
  | None => Decimal_zero
  | Some v =>
      if String.eqb v "" || String.eqb (strip v) "" then Decimal_zero
      else
        match Decimal (cleaned_amount v) with
        | Some d => d
        | None => Decimal_zero
        end
  end.

(** The formats of [BankParser.parse_date], in its order. *)
Definition formats : list (list Directive) :=
  [fmt_dmY_slash; fmt_dmY_dash; fmt_Ymd_dash; fmt_dmY_dot; fmt_dmy_slash; fmt_Ymd].

Fixpoint try_formats (fmts : list (list Directive)) (s : string) : option date :=
  match fmts with
  | [] => None
  | fmt :: rest =>
      match strptime s fmt with
      | inr d => Some d
      | inl _ => try_formats rest s
      end
  end.

(** [BankParser.parse_date] *)
Definition parse_date (value : string) : Exc + date :=
  let value := strip value in
  match try_formats formats value with
  | Some d => inr d
  | None => inl (ValueError ("Formato de fecha no reconocido: " +:+ value))
  end.

(** [COLUMN_PATTERNS]: each pattern is an alternation of literal words,
    searched without regard to case. *)
Definition COLUMN_PATTERNS : list (string * list string) :=
  [ ("fecha", ["fecha"; "date"; "f."; "valor"; "fec"; "fcha"]);
    ("concepto", ["concepto"; "descripcion"; "description"; "detalle"; "movimiento"; "observ"]);
    ("importe", ["importe"; "amount"; "cantidad"; "cargo"; "abono"; euro; "monto"; "valor"]);
    ("saldo", ["saldo"; "balance"]);
    ("referencia", ["referencia"; "ref"; "numero"; "num"]) ].

(** [pattern.search(field)] *)
Definition pattern_search (words : list string) (field : string) : bool :=
  existsb (fun w => contains w (lower field)) words.

(** The inner loop of [_detect_columns] for one field: the first type
    whose pattern matches and that has no column yet takes the field. *)
Fixpoint assign_field (pats : list (string * list string)) (field : string)
    (column_map : gmap string string) : gmap string string :=
  match pats with
  | [] => column_map
  | (col_type, words) :: pats' =>
      if pattern_search words field && negb (bool_decide (is_Some (column_map !! col_type)))
      then <[ col_type := field ]> column_map
      else assign_field pats' field column_map
  end.

Definition _detect_columns (fieldnames : list string) : Exc + gmap string string :=
  let column_map :=
    fold_left (fun m field => if String.eqb field "" then m
                              else assign_field COLUMN_PATTERNS field m)
              fieldnames ∅ in
  if bool_decide (is_Some (column_map !! "fecha"))
     && bool_decide (is_Some (column_map !! "importe"))
  then inr column_map
  else inl (ValueError "Columnas requeridas no encontradas").

(** A row of [csv.DictReader]: the field names mapped to the cells; a cell
    a short row lacks is the Python [None]. *)
Abbreviation Row := (gmap string (option string)).

(** [row.get(key, default)] *)
Definition row_get (row : Row) (key : string) (dflt : option string) : option string :=
  match row !! key with
  | Some v => v
  | None => dflt
  end.

(** What the body of the loop of [parse] does with one row. *)
Inductive RowResult : Type :=
| Skip
| Emit (tx : TransaccionRaw)
| Raise (e : Exc).

Definition parse_row (column_map : gmap string string) (row : Row) : RowResult :=
  let concepto :=
    match row_get row (default "" (column_map !! "concepto")) (Some "") with
    | None => "Sin concepto"
    | Some c => if String.eqb c "" then "Sin concepto" else c
    end in
  let importe_str := row_get row (default "" (column_map !! "importe")) (Some "0") in
  let importe := normalize_amount importe_str in
  match decimal_eq0 importe with
  | inl e => Raise e
  | inr true => Skip
  | inr false =>
      match row_get row (default "" (column_map !! "fecha")) (Some "") with
      | None => Skip
      | Some fecha_str =>
          if String.eqb fecha_str "" then Skip
          else
            match parse_date fecha_str with
            | inl _ => Skip
            | inr fecha =>
                let saldo :=
                  match column_map !! "saldo" with
                  | Some col =>
                      if String.eqb col "" then None
                      else
                        match row_get row col (Some "") with
                        | Some saldo_str =>
                            if String.eqb saldo_str "" then None
                            else Some (normalize_amount (Some saldo_str))
                        | None => None
                        end
                  | None => None
                  end in
                let referencia :=
                  match column_map !! "referencia" with
                  | Some col => if String.eqb col "" then None else row_get row col (Some "")
                  | None => None
                  end in
                Emit (mkTransaccionRaw fecha (strip concepto) importe saldo referencia None)
            end
      end
  end.

(** The loop of [CSVGenericParser.parse] over the rows.  An exception that
    is neither a [KeyError] nor a [ValueError] leaves the loop. *)
Fixpoint parse_rows (column_map : gmap string string) (rows : list Row)
  : Exc + list TransaccionRaw :=
  match rows with
  | [] => inr []
  | row :: rest =>
      match parse_row column_map row with
      | Raise e => inl e
      | Skip => parse_rows column_map rest
      | Emit tx =>
          match parse_rows column_map rest with
          | inl e => inl e
          | inr txs => inr (tx :: txs)
          end
      end
  end.

(** [CSVGenericParser.parse], from the point where the reader has split
    the text into field names and rows. *)
Definition parse (fieldnames : list string) (rows : list Row) : Exc + list TransaccionRaw :=
  match fieldnames with
  | [] => inl (ValueError "No se encontraron columnas en el CSV")
  | _ =>
      match _detect_columns fieldnames with
      | inl e => inl e
      | inr column_map => parse_rows column_map rows
      end
  end.

End Parsers.

(** ** [api/v1/extractos.py]: the two upload endpoints *)

Module Extractos.
Import PyStr PyNum PyDate Hashes Validators.

(** A row of the table [transaccion], with the columns the endpoints
    write.  [hash] is unique in the table. *)
Record Transaccion : Type := mkTransaccion {
  cuenta_id : string;
  t_fecha : string;
  t_fecha_valor : option string;
  t_importe : PyDecimal;
  t_concepto : string;
  t_tipo : string;
  t_referencia : option string;
  t_hash : string
}.

(** What an endpoint answers. *)
Record Response : Type := mkResponse {
  transacciones_creadas : Z;
  duplicados_ignorados : Z
}.

(** [select(Transaccion).where(Transaccion.hash == tx_hash)] finds a row.
    The session flushes the rows added so far before it runs a query, so
    they are looked up as well. *)
Definition hash_exists (db : list Transaccion) (tx_hash : string) : bool :=
  existsb (fun t => String.eqb (t_hash t) tx_hash) db.

(** The loop of [upload_extracto]: the table with the rows added, and the
    two counters. *)
Fixpoint upload_loop (cuenta : string) (txs : list Parsers.TransaccionRaw)
    (db : list Transaccion) (created duplicados : Z)
  : Exc + (list Transaccion * Z * Z) :=
  match txs with
  | [] => inr (db, created, duplicados)
  | tx_raw :: rest =>
      match Parsers.compute_hash tx_raw with
      | inl e => inl e
      | inr tx_hash =>
          if hash_exists db tx_hash
          then upload_loop cuenta rest db created (duplicados + 1)
          else
            match decimal_gt0 (Parsers.importe tx_raw) with
            | inl e => inl e
            | inr positive =>
                let transaccion :=
                  mkTransaccion cuenta
                    (isoformat (Parsers.fecha tx_raw))
                    (option_map isoformat (Parsers.fecha_valor tx_raw))
                    (Parsers.importe tx_raw)
                    (Parsers.concepto tx_raw)
                    (if positive then "ingreso" else "gasto")
                    (Parsers.referencia tx_raw)
                    tx_hash in
                upload_loop cuenta rest (db ++ [transaccion]) (created + 1) duplicados
            end
      end
  end.

(** [upload_extracto], from the transactions the parser returned.  An
    exception rolls the session back: the table is as before. *)
Definition upload_extracto (cuenta : string) (parsed : Exc + list Parsers.TransaccionRaw)
    (db : list Transaccion) : (Exc + Response) * list Transaccion :=
  match parsed with
  | inl e => (inl (HTTPException ("Error parseando archivo: " +:+ exc_str e)), db)
  | inr [] => (inl (HTTPException "No se encontraron transacciones en el archivo"), db)
  | inr transacciones_raw =>
      match upload_loop cuenta transacciones_raw db 0 0 with
      | inl e => (inl e, db)
      | inr (db', created, duplicados) => (inr (mkResponse created duplicados), db')
      end
  end.

(** The text the smart endpoint digests. *)
Definition smart_hash_str (tx_data : ValidTx) : string :=
  fecha tx_data +:+ "|" +:+ concepto tx_data +:+ "|" +:+ float_repr (importe tx_data).

(** The hash of the smart endpoint: the MD5 of the text, in full. *)
Definition smart_hash (tx_data : ValidTx) : string := md5_hexdigest (smart_hash_str tx_data).

(** The attributes of the class [Transaccion]: the columns of
    [models/transaccion.py] and of its two mixins, and its
    relationships. *)
Definition Transaccion_attributes : list string :=
  [ "id"; "created_at"; "updated_at"; "cuenta_id"; "fecha"; "fecha_valor"; "importe";
    "concepto"; "tipo"; "referencia"; "hash"; "metadata_extra"; "embedding";
    "cuenta"; "clasificacion"; "conciliacion" ].

(** [Transaccion(...)] with keyword arguments: the constructor of a
    mapped class raises [TypeError] at the first keyword that is no
    attribute of the class; [row] is the row the keywords describe. *)
Definition new_Transaccion (keywords : list string) (row : Transaccion) : Exc + Transaccion :=
  match List.find (fun k => negb (existsb (String.eqb k) Transaccion_attributes)) keywords with
  | Some k => inl (TypeError ("'" +:+ k +:+ "' is an invalid keyword argument for Transaccion"))
  | None => inr row
  end.

(** The keywords [upload_extracto_smart] builds a row with. *)
Definition smart_keywords : list string :=
  [ "cuenta_id"; "fecha"; "fecha_valor"; "importe"; "concepto"; "tipo"; "referencia";
    "hash"; "estado" ].

(** The loop of [upload_extracto_smart].  [fromisoformat] is
    [date.fromisoformat] ([None] where it raises [ValueError]).  The
    arguments of the constructor are evaluated before it is called. *)
Fixpoint upload_smart_loop (fromisoformat : string -> option date) (cuenta : string)
    (txs : list ValidTx) (db : list Transaccion) (created duplicados : Z)
  : Exc + (list Transaccion * Z * Z) :=
  match txs with
  | [] => inr (db, created, duplicados)
  | tx_data :: rest =>
      let tx_hash := smart_hash tx_data in
      if hash_exists db tx_hash
      then upload_smart_loop fromisoformat cuenta rest db created (duplicados + 1)
      else
        let tipo := if float_gt0 (importe tx_data) then "ingreso" else "gasto" in
        match fromisoformat (fecha tx_data) with
        | None =>
            inl (ValueError ("Invalid isoformat string: '" +:+ fecha tx_data +:+ "'"))
        | Some d =>
            match Decimal (float_repr (importe tx_data)) with
            | None => inl (InvalidOperation "ConversionSyntax")
            | Some importe =>
                match new_Transaccion smart_keywords
                        (mkTransaccion cuenta (isoformat d) (Some (isoformat d)) importe
                           (concepto tx_data) tipo (referencia tx_data) tx_hash) with
                | inl e => inl e
                | inr transaccion =>
                    upload_smart_loop fromisoformat cuenta rest (db ++ [transaccion])
                                      (created + 1) duplicados
                end
            end
        end
  end.

(** What [upload_extracto_smart] answers. *)
Record SmartResponse : Type := mkSmartResponse {
  formato_detectado : option string;
  smart_creadas : Z;
  smart_duplicados : Z;
  errores_parseo : Z;
  total_en_archivo : Z;
  smart_metadata : gmap string SmartParser.MetaValue;
  primeros_errores : list SmartParser.ErrorEntry
}.

(** The request, once the account has been found and the file copied to
    a temporary file: the tenant of the user, the account and its company,
    the path of the copy, and the name and the type the upload gave (the
    copy is named after the suffix of [filename], so there is a name). *)
Record SmartUpload : Type := mkSmartUpload {
  up_tenant_id : string;
  up_cuenta_id : string;
  up_empresa_id : string;
  tmp_path : string;
  filename : string;
  content_type : option string
}.

Definition meta_text (v : option string) : SmartParser.MetaValue :=
  match v with
  | Some s => SmartParser.MStr s
  | None => SmartParser.MNone
  end.

(** The state [upload_extracto_smart] starts the agent with. *)
Definition smart_initial_state (up : SmartUpload) : SmartParser.ParserState :=
  Agents.mkAgentState (Some (up_tenant_id up)) (Some ("parse_" +:+ up_cuenta_id up))
    None None None None None
    (SmartParser.mkPayload (Some (tmp_path up)) (Some (up_empresa_id up))
       (Some (up_cuenta_id up)) None None None (Some []) (Some []) (Some [])
       (Some (<[ "content_type" := meta_text (content_type up) ]>
                (<[ "filename" := SmartParser.MStr (filename up) ]> ∅)))).

(** [upload_extracto_smart], from the point where the account has been
    found and the temporary file written.  It runs the agent on the
    temporary file, answers 400 when the run ended in error, and otherwise
    stores the validated transactions of the state the run returned.  An
    exception rolls the session back: the table is as before. *)
Definition upload_extracto_smart (u : SmartParser.Unmodelled)
    (fromisoformat : string -> option date) (uuid4 : string) (up : SmartUpload)
    (db : list Transaccion) : (Exc + SmartResponse) * list Transaccion :=
  let result := SmartParser.run_smart_parser u uuid4 (smart_initial_state up) in
  if bool_decide (Agents.status result = Some "error") then
    (inl (HTTPException ("Error parseando archivo: " +:+ default "None" (Agents.error result))),
     db)
  else
    let transacciones_validadas :=
      default [] (SmartParser.transacciones_validadas (Agents.payload result)) in
    let errores_parseo := default [] (SmartParser.errores (Agents.payload result)) in
    match upload_smart_loop fromisoformat (up_cuenta_id up) transacciones_validadas db 0 0 with
    | inl e => (inl e, db)
    | inr (db', created, duplicados) =>
        (inr (mkSmartResponse (SmartParser.formato (Agents.payload result)) created duplicados
                (Z.of_nat (length errores_parseo))
                (Z.of_nat (length transacciones_validadas + length errores_parseo))
                (default ∅ (SmartParser.metadata (Agents.payload result)))
                (firstn 5 errores_parseo)),
         db')
    end.

End Extractos.

(** ** [services/extractors/csv_extractor_llm.py]: [CSVExtractorLLM] *)

Module CsvExtractorLLM.
Import PyStr Validators.

(** An element of [estructura['columnas']]. *)
Record Columna : Type := mkColumna {
  indice : Z;
  tipo : option string
}.

(** The structure the interpreter returned, read with [.get]. *)
Record Estructura : Type := mkEstructura {
  columnas : option (list Columna);
  delimitador : option string;
  tiene_cabecera : option bool;
  encoding_sugerido : option string
}.

(** A dict keeps its keys in the order of their first insertion; writing
    an existing key replaces its value in place. *)
Fixpoint dict_set (k : Z) (v : Columna) (d : list (Z * Columna)) : list (Z * Columna) :=
  match d with
  | [] => [(k, v)]
  | (k', v') :: d' => if k' =? k then (k, v) :: d' else (k', v') :: dict_set k v d'
  end.

(** [self.columnas] *)
Definition columnas_dict (estructura : Estructura) : list (Z * Columna) :=
  fold_left (fun d col => dict_set (indice col) col d) (default [] (columnas estructura)) [].

Definition has_tipo (t : string) (col : Columna) : bool :=
  match tipo col with
  | Some t' => String.eqb t' t
  | None => false
  end.

(** [_get_column_index_by_type] *)
Fixpoint _get_column_index_by_type (d : list (Z * Columna)) (t : string) : option Z :=
  match d with
  | [] => None
  | (idx, col) :: d' => if has_tipo t col then Some idx else _get_column_index_by_type d' t
  end.

(** [importe_indices] *)
Definition importe_indices (d : list (Z * Columna)) : list Z :=
  map fst (List.filter (fun kv => has_tipo "numero" (snd kv)) d).

(** [row[i]]: a negative index counts from the end. *)
Definition row_index (row : list string) (i : Z) : Exc + string :=
  let n := Z.of_nat (length row) in
  let j := if i <? 0 then n + i else i in
  if (0 <=? j) && (j <? n)
  then inr (nth (Z.to_nat j) row "")
  else inl (IndexError "list index out of range").

(** [row[i].strip() if i < len(row) else ''] *)
Definition cell (row : list string) (i : Z) : Exc + string :=
  if i <? Z.of_nat (length row) then
    match row_index row i with
    | inl e => inl e
    | inr v => inr (strip v)
    end
  else inr "".

(** The test the extractor makes on a debit or credit cell: it has no
    value when it is empty or is one of the two texts of zero. *)
Definition sin_valor (v : string) : bool :=
  String.eqb v "" || String.eqb v "0" || String.eqb v "0,00".

(** The amount of a row, when there are two numeric columns or more
    ([None]: the row is skipped) and when there is one. *)
Definition importe_of (indices : list Z) (row : list string) : Exc + option string :=
  match indices with
  | i0 :: i1 :: _ =>
      match cell row i0 with
      | inl e => inl e
      | inr debe =>
          match cell row i1 with
          | inl e => inl e
          | inr haber =>
              if negb (sin_valor debe) then inr (Some ("-" +:+ debe))
              else if negb (sin_valor haber) then inr (Some haber)
              else inr None
          end
      end
  | [i0] =>
      match cell row i0 with
      | inl e => inl e
      | inr v => inr (Some v)
      end
  | [] => inl (IndexError "list index out of range")
  end.

Definition row_metadata (row_idx : Z) : list (string * string) :=
  [ ("linea", PyNum.digits_of row_idx); ("formato", "csv");
    ("extractor", "llm-guided"); ("llm_estructura", "True") ].

(** The body of the loop of [extract] for one row: the transaction it
    appends, or [None] when the row is passed over (by a [continue] or by
    the handler of [IndexError] and [ValueError]). *)
Definition extract_row (fecha_idx : Z) (concepto_idx referencia_idx : option Z)
    (indices : list Z) (row_idx : Z) (row : list string) : option RawTx :=
  if (length row <? 2)%nat then None
  else
    match cell row fecha_idx with
    | inl _ => None
    | inr fecha =>
        match (match concepto_idx with Some c => cell row c | None => inr "" end) with
        | inl _ => None
        | inr concepto =>
            match (match referencia_idx with
                   | Some r =>
                       if r <? Z.of_nat (length row)
                       then match cell row r with inl e => inl e | inr v => inr (Some v) end
                       else inr None
                   | None => inr None
                   end) with
            | inl _ => None
            | inr referencia =>
                match importe_of indices row with
                | inl _ => None
                | inr None => None
                | inr (Some importe) =>
                    if String.eqb fecha "" || String.eqb importe "" then None
                    else Some (mkRawTx (Some fecha) (Some concepto) (Some importe)
                                       referencia (row_metadata row_idx))
                end
            end
        end
    end.

(** The loop over the rows the reader yields; [row_idx] is the number
    [enumerate] gives the head of [rows]. *)
Fixpoint extract_rows (fecha_idx : Z) (concepto_idx referencia_idx : option Z)
    (indices : list Z) (row_idx : Z) (rows : list (list string)) : list RawTx :=
  match rows with
  | [] => []
  | row :: rest =>
      match extract_row fecha_idx concepto_idx referencia_idx indices row_idx row with
      | Some tx =>
          tx :: extract_rows fecha_idx concepto_idx referencia_idx indices (row_idx + 1) rest
      | None => extract_rows fecha_idx concepto_idx referencia_idx indices (row_idx + 1) rest
      end
  end.

(** [CSVExtractorLLM(estructura).extract], from the rows [csv.reader]
    yields for the file. *)
Definition extract (estructura : Estructura) (rows : list (list string)) : Exc + list RawTx :=
  let d := columnas_dict estructura in
  match _get_column_index_by_type d "fecha" with
  | None => inl (ValueError "LLM no identificó columna de fecha")
  | Some fecha_idx =>
      match importe_indices d with
      | [] => inl (ValueError "LLM no identificó columnas de importe")
      | indices =>
          let data :=
            if default true (tiene_cabecera estructura)
            then match rows with [] => [] | _ :: rest => rest end
            else rows in
          inr (extract_rows fecha_idx (_get_column_index_by_type d "texto")
                            (_get_column_index_by_type d "referencia") indices 2 data)
      end
  end.

End CsvExtractorLLM.

(** ** Properties of the guided CSV extractor *)

Module CsvExtractorFacts.
Import PyStr PyNum Validators CsvExtractorLLM.




(** A row that has a date and whose cells can all be read is extracted
    with the amount [importe_of] gives it. *)
Lemma extract_row_emits fecha_idx concepto_idx indices row_idx row fecha concepto importe :
  (2 <= length row)%nat ->
  cell row fecha_idx = inr fecha -> fecha <> "" ->
  match concepto_idx with Some c => cell row c | None => inr "" end = inr concepto ->
  importe_of indices row = inr (Some importe) -> importe <> "" ->
  extract_row fecha_idx concepto_idx None indices row_idx row
  = Some (mkRawTx (Some fecha) (Some concepto) (Some importe) None (row_metadata row_idx)).
Proof.
  intros Hlen Hf Hne Hc Hi Hni. unfold extract_row.
  destruct (Nat.ltb_spec (length row) 2); [lia|].
  rewrite Hf, Hc, Hi.
  destruct (String.eqb_spec fecha ""); [contradiction|].
  destruct (String.eqb_spec importe ""); [contradiction|]. reflexivity.
Qed.

(** The cell holds a non-zero amount: the validator reads a number other
    than zero from its text. *)
Definition nonzero_amount (v : string) : bool :=
  match _parse_amount v with
  | inr f => float_gt0 f || float_lt0 f
  | inl _ => false
  end.



(** The structure of a file with the columns date, text, debit, credit. *)
Definition debe_haber : Estructura :=
  mkEstructura
    (Some [ mkColumna 0 (Some "fecha"); mkColumna 1 (Some "texto");
            mkColumna 2 (Some "numero"); mkColumna 3 (Some "numero") ])
    (Some ";") (Some true) None.

Definition fila_gasto : list string := ["15/12/2024"; "COMPRA"; "10,00"; ""].
Definition fila_ingreso : list string := ["19/12/2024"; "NOMINA"; ""; "2.500,00"].
Definition fila_ceros : list string := ["17/12/2024"; "NADA"; "0.00"; "0.00"].
Definition fila_vacia : list string := ["18/12/2024"; "NADA"; ""; ""].


(** The whole extraction of a small file: the header is skipped, the
    debit row gives a negative amount text and the row without values is
    passed over. *)
Example extract_debe_haber :
  option_map (map raw_importe)
    (match extract debe_haber
             [["Fecha"; "Concepto"; "Debe"; "Haber"]; fila_gasto; fila_vacia; fila_ingreso] with
     | inr txs => Some txs | inl _ => None end)
  = Some [Some "-10,00"; Some "2.500,00"].
Proof. vm_compute. reflexivity. Qed.


(** The test of the extractor knows the zero as [0] and [0,00] only.  A
    zero written [0.00] is taken as a value: the row is extracted with the
    amount text [-0.00], and a credit beside it is lost. *)
Example zero_with_a_dot_is_kept :
  sin_valor "0" = true /\ sin_valor "0,00" = true /\ sin_valor "0.00" = false
  /\ nonzero_amount "0.00" = false
  /\ option_map raw_importe (extract_row 0 (Some 1) None [2; 3] 3 fila_ceros)
     = Some (Some "-0.00")
  /\ option_map raw_importe
       (extract_row 0 (Some 1) None [2; 3] 4 ["20/12/2024"; "ABONO"; "0.00"; "100,00"])
     = Some (Some "-0.00").
Proof. repeat split; vm_compute; reflexivity. Qed.

End CsvExtractorFacts.

(** ** Properties of the legacy parser and of the upload endpoints *)

Module ParserFacts.
Import PyStr PyNum PyDate Validators Parsers Extractos.

Lemma lstrip_all_space s : all_chars is_space s = true -> lstrip_with is_space s = "".
Proof.
  induction s as [|c s IH]; simpl; [reflexivity|].
  intros H. apply andb_true_iff in H. destruct H as [Hc Hs]. rewrite Hc. exact (IH Hs).
Qed.

(** A text made of whitespace only is empty once stripped. *)
Lemma strip_all_space s : all_chars is_space s = true -> strip s = "".
Proof. intros H. unfold strip. rewrite (lstrip_all_space s H). reflexivity. Qed.

Lemma normalize_amount_cases (s : string) :
  normalize_amount (Some s)
  = if String.eqb s "" || String.eqb (strip s) "" then Decimal_zero
    else default Decimal_zero (Decimal (cleaned_amount s)).
Proof.
  unfold normalize_amount.
  destruct (String.eqb s "" || String.eqb (strip s) ""); [reflexivity|].
  destruct (Decimal (cleaned_amount s)); reflexivity.
Qed.

Lemma parse_row_zero_amount column_map row :
  decimal_eq0 (normalize_amount
                 (row_get row (default "" (column_map !! "importe")) (Some "0")))
  = inr true ->
  parse_row column_map row = Skip.
Proof. intros H. unfold parse_row. rewrite H. reflexivity. Qed.

(** The header and two rows of a statement; the amount of the second row
    is not a number. *)
Definition cabecera : list string := ["Fecha"; "Concepto"; "Importe"].

Definition fila_nomina : Row :=
  {[ "Fecha" := Some "15/12/2024"; "Concepto" := Some "TRANSFERENCIA NOMINA";
     "Importe" := Some "2500,00" ]}.

Definition fila_mal_importe : Row :=
  {[ "Fecha" := Some "16/12/2024"; "Concepto" := Some "PAGO AMAZON";
     "Importe" := Some "abc" ]}.

(** C10, as the code has it.  [normalize_amount] returns a [Decimal] for
    every text and never raises: for the empty text, for a text of
    whitespace only and for a text [Decimal] cannot read after the
    separators are normalised it returns zero, and otherwise what
    [Decimal] reads.  In the CSV parser of the standard upload path a row
    whose amount comes out as zero is passed over without an error: the
    rows after it are parsed as if it were not there, so a malformed amount
    is neither stored nor reported. *)
Theorem normalize_amount_zero_on_garbage :
  forall s : string,
    (s = "" -> normalize_amount (Some s) = Decimal_zero)
    /\ (all_chars is_space s = true -> normalize_amount (Some s) = Decimal_zero)
    /\ (Decimal (cleaned_amount s) = None -> normalize_amount (Some s) = Decimal_zero)
    /\ (forall d, strip s <> "" -> Decimal (cleaned_amount s) = Some d ->
                  normalize_amount (Some s) = d)
    /\ (forall (column_map : gmap string string) (row : Row) (rest : list Row),
          row_get row (default "" (column_map !! "importe")) (Some "0") = Some s ->
          decimal_eq0 (normalize_amount (Some s)) = inr true ->
          parse_row column_map row = Skip
          /\ parse_rows column_map (row :: rest) = parse_rows column_map rest)
    /\ normalize_amount (Some "abc") = Decimal_zero
    /\ normalize_amount (Some "1.2.3") = Decimal_zero
    /\ normalize_amount (Some "1.234,56") = DFin false 123456 (-2).
Proof.
  intros s. rewrite normalize_amount_cases. repeat split.
  - intros ->. reflexivity.
  - intros H. rewrite (strip_all_space s H). rewrite orb_true_r. reflexivity.
  - intros H. rewrite H. destruct (_ || _); reflexivity.
  - intros d Hne Hd. rewrite Hd.
    destruct (String.eqb_spec s "") as [->|_]; [exfalso; apply Hne; reflexivity|].
    destruct (String.eqb_spec (strip s) ""); [contradiction|]. reflexivity.
  - rewrite <- normalize_amount_cases in H0. rewrite <- H in H0.
    exact (parse_row_zero_amount column_map row H0).
  - rewrite <- normalize_amount_cases in H0. rewrite <- H in H0.
    simpl. rewrite (parse_row_zero_amount column_map row H0). reflexivity.
Qed.

(** A file whose second row has the amount [abc]: the parser returns the
    first row only, the upload stores one transaction, and no stored
    transaction has a zero amount. *)
Lemma malformed_amount_is_not_stored :
  normalize_amount (Some "abc") = Decimal_zero
  /\ option_map (map Parsers.importe)
       (match parse cabecera [fila_nomina; fila_mal_importe] with
        | inr txs => Some txs | inl _ => None end)
     = Some [DFin false 250000 (-2)]
  /\ map t_importe
       (snd (upload_extracto "cuenta-1" (parse cabecera [fila_nomina; fila_mal_importe]) []))
     = [DFin false 250000 (-2)]
  /\ ~ (exists t,
          In t (snd (upload_extracto "cuenta-1"
                       (parse cabecera [fila_nomina; fila_mal_importe]) []))
          /\ decimal_eq0 (t_importe t) = inr true).
Proof.
  split; [reflexivity|]. split; [vm_compute; reflexivity|]. split; [vm_compute; reflexivity|].
  intros (t & Hin & Hz).
  assert (Hall : forallb (fun t => match decimal_eq0 (t_importe t) with
                                   | inr true => false | _ => true end)
                   (snd (upload_extracto "cuenta-1"
                           (parse cabecera [fila_nomina; fila_mal_importe]) [])) = true)
    by (vm_compute; reflexivity).
  rewrite forallb_forall in Hall. specialize (Hall t Hin). rewrite Hz in Hall. discriminate.
Qed.

(** *** The two endpoints and the same transaction *)

(** One payment, as the legacy parser delivers it. *)
Definition pago_raw : TransaccionRaw :=
  mkTransaccionRaw (mkdate 2024 12 16) "PAGO AMAZON" (DFin true 4599 (-2)) None None None.

(** The upload of the statement with that payment through the smart
    endpoint, to an account that exists. *)
Definition subida : SmartUpload :=
  mkSmartUpload "tenant-1" "cuenta-1" "empresa-1" "/tmp/tmpk3v9.csv"
                "extracto.csv" (Some "text/csv").

(** The detail of the answer 400 of the smart endpoint. *)
Definition detalle_400 : string :=
  "Error parseando archivo: 'SmartParserAgent' object has no attribute 'logger'".

(** The smart endpoint answers 400 and leaves the table alone. *)
Lemma upload_extracto_smart_400 u fromisoformat uuid4 up db :
  upload_extracto_smart u fromisoformat uuid4 up db = (inl (HTTPException detalle_400), db).
Proof.
  unfold upload_extracto_smart.
  rewrite SmartParserFacts.run_smart_parser_error. reflexivity.
Qed.

(** C4 at a failing input.  The statement with the payment is uploaded
    twice through the smart endpoint, on an empty table.  Both times the
    run of the parsing agent ends in error at its first stage, the
    endpoint answers 400 and nothing is stored: the table holds no record
    of the payment, where the claim has exactly one.  Through the legacy
    endpoint the same payment, uploaded twice, is stored once, under the
    first 16 digits of its SHA-256. *)
Theorem smart_upload_stores_no_record :
  forall (u : SmartParser.Unmodelled) (fromisoformat : string -> option date)
         (uuid4 : string),
    let first := upload_extracto_smart u fromisoformat uuid4 subida [] in
    let second := upload_extracto_smart u fromisoformat uuid4 subida (snd first) in
    fst first
    = inl (HTTPException
             "Error parseando archivo: 'SmartParserAgent' object has no attribute 'logger'")
    /\ snd first = []
    /\ fst second = fst first
    /\ length (snd second) = 0%nat
    /\ map t_hash (snd (upload_extracto "cuenta-1" (inr [pago_raw]) []))
       = ["63a4f217de769d5f"]
    /\ upload_extracto "cuenta-1" (inr [pago_raw])
         (snd (upload_extracto "cuenta-1" (inr [pago_raw]) []))
       = (inr (mkResponse 0 1), snd (upload_extracto "cuenta-1" (inr [pago_raw]) [])).
Proof.
  intros u fromisoformat uuid4 first second. subst second first.
  rewrite !upload_extracto_smart_400. cbn [fst snd].
  rewrite ?upload_extracto_smart_400. cbn [fst snd].
  repeat split; vm_compute; reflexivity.
Qed.

End ParserFacts.

(** ** More properties of the validator *)

Module ConceptFacts.
Import PyStr PyNum PyDate Validators.

(** The shape of a cleaned text.  [sp_ok] tells that a space may come at
    this point: it may not at the start, after another space or at the
    end. *)
Fixpoint single_spaced (sp_ok : bool) (s : string) : bool :=
  match s with
  | EmptyString => sp_ok
  | String a s' =>
      if is_space a then sp_ok && Ascii.eqb a " " && single_spaced false s'
      else single_spaced true s'
  end.

(** The last character of [s] is not whitespace. *)
Fixpoint ends_in_text (s : string) : bool :=
  match s with
  | EmptyString => false
  | String a s' =>
      match s' with
      | EmptyString => negb (is_space a)
      | String _ _ => ends_in_text s'
      end
  end.

Lemma rstrip_empty t : rstrip_with is_space t = "" -> all_chars is_space t = true.
Proof.
  destruct t as [|c t]; [reflexivity|]. simpl.
  destruct (is_space c && all_chars is_space t); [reflexivity|discriminate].
Qed.

Lemma rstrip_ends t :
  rstrip_with is_space t = "" \/ ends_in_text (rstrip_with is_space t) = true.
Proof.
  induction t as [|c t IH]; [left; reflexivity|].
  simpl. destruct (is_space c) eqn:Hc; simpl.
  - destruct (all_chars is_space t) eqn:Ha; [left; reflexivity|].
    right. destruct IH as [IH|IH].
    + apply rstrip_empty in IH. congruence.
    + destruct (rstrip_with is_space t); [discriminate|exact IH].
  - right. destruct IH as [IH|IH].
    + rewrite IH. simpl. rewrite Hc. reflexivity.
    + destruct (rstrip_with is_space t); [discriminate|exact IH].
Qed.

Lemma lstrip_head s :
  lstrip_with is_space s = ""
  \/ exists a r, lstrip_with is_space s = String a r /\ is_space a = false.
Proof.
  induction s as [|c s IH]; [left; reflexivity|].
  simpl. destruct (is_space c) eqn:Hc; [exact IH|].
  right. exists c, s. split; [reflexivity|exact Hc].
Qed.

Lemma rstrip_head a r :
  is_space a = false ->
  rstrip_with is_space (String a r) = String a (rstrip_with is_space r).
Proof. intros H. simpl. rewrite H. reflexivity. Qed.

(** A stripped text is empty, or begins and ends with a character that is
    not whitespace. *)
Lemma strip_shape s :
  strip s = ""
  \/ exists a r, strip s = String a r /\ is_space a = false /\ ends_in_text (strip s) = true.
Proof.
  unfold strip. destruct (lstrip_head s) as [H|(a & r & H & Ha)]; rewrite H.
  - left. reflexivity.
  - right. exists a, (rstrip_with is_space r). rewrite (rstrip_head a r Ha).
    split; [reflexivity|]. split; [exact Ha|].
    destruct (rstrip_ends (String a r)) as [He|He]; rewrite (rstrip_head a r Ha) in He.
    + discriminate.
    + exact He.
Qed.

Lemma collapse_single_spaced u :
  ends_in_text u = true ->
  single_spaced true (collapse_ws_go false u) = true
  /\ single_spaced false (collapse_ws_go true u) = true.
Proof.
  induction u as [|a u IH]; [discriminate|].
  intros He. simpl in He. destruct u as [|b u].
  - apply negb_true_iff in He. simpl. rewrite He. simpl. rewrite He. auto.
  - specialize (IH He). destruct IH as [IH1 IH2].
    simpl collapse_ws_go at 1 2. destruct (is_space a) eqn:Ha.
    + split; [|exact IH2].
      change (single_spaced true (String " " (collapse_ws_go true (String b u))) = true).
      simpl single_spaced at 1. exact IH2.
    + split; simpl single_spaced at 1; rewrite Ha; exact IH1.
Qed.

Lemma single_spaced_text b a s :
  is_space a = false -> single_spaced b (String a s) = single_spaced true s.
Proof. intros H. simpl. rewrite H. reflexivity. Qed.

Lemma collapse_text b a s :
  is_space a = false -> collapse_ws_go b (String a s) = String a (collapse_ws_go false s).
Proof. intros H. simpl. rewrite H. reflexivity. Qed.

(** The cleaned concept is empty or single-spaced. *)
Lemma clean_concept_shape concept :
  _clean_concept concept = "" \/ single_spaced false (_clean_concept concept) = true.
Proof.
  unfold _clean_concept, collapse_ws.
  destruct (strip_shape concept) as [H|(a & r & H & Ha & He)].
  - rewrite H. left. reflexivity.
  - right. destruct (collapse_single_spaced _ He) as [H1 _].
    rewrite H in H1 |- *. rewrite (collapse_text _ a r Ha) in H1 |- *.
    rewrite (single_spaced_text _ a _ Ha) in H1. rewrite (single_spaced_text _ a _ Ha).
    exact H1.
Qed.

Lemma single_spaced_weaken c : single_spaced false c = true -> single_spaced true c = true.
Proof.
  destruct c as [|a c]; [discriminate|]. simpl.
  destruct (is_space a); [discriminate|auto].
Qed.

Lemma single_spaced_collapse c : forall b,
  single_spaced b c = true -> collapse_ws_go (negb b) c = c.
Proof.
  induction c as [|a c IH]; intros b H; [reflexivity|].
  simpl in *. destruct (is_space a) eqn:Ha.
  - apply andb_true_iff in H. destruct H as [H Hc].
    apply andb_true_iff in H. destruct H as [-> Heq].
    apply Ascii.eqb_eq in Heq. subst a. simpl. f_equal. exact (IH false Hc).
  - f_equal. exact (IH true H).
Qed.

Lemma single_spaced_ends c : forall b,
  single_spaced b c = true -> c <> "" -> ends_in_text c = true.
Proof.
  induction c as [|a c IH]; intros b H Hne; [congruence|].
  simpl in H. destruct c as [|a' c].
  - simpl. destruct (is_space a); [|reflexivity].
    simpl in H. rewrite !andb_false_r in H. discriminate.
  - change (ends_in_text (String a' c) = true).
    destruct (is_space a).
    + apply andb_true_iff in H. destruct H as [_ H]. apply (IH false H). discriminate.
    + apply (IH true H). discriminate.
Qed.

Lemma ends_not_all_space c : ends_in_text c = true -> all_chars is_space c = false.
Proof.
  induction c as [|a c IH]; [discriminate|].
  intros H. simpl in H. destruct c as [|a' c].
  - apply negb_true_iff in H. simpl. rewrite H. reflexivity.
  - specialize (IH H). change (is_space a && all_chars is_space (String a' c) = false).
    rewrite IH. apply andb_false_r.
Qed.

Lemma ends_rstrip c : ends_in_text c = true -> rstrip_with is_space c = c.
Proof.
  induction c as [|a c IH]; [discriminate|].
  intros H. pose proof (ends_not_all_space _ H) as Hn.
  change (rstrip_with is_space (String a c))
    with (if all_chars is_space (String a c) then "" else String a (rstrip_with is_space c)).
  rewrite Hn. f_equal. simpl in H. destruct c as [|a' c]; [reflexivity|]. exact (IH H).
Qed.

Lemma single_spaced_lstrip c : single_spaced false c = true -> lstrip_with is_space c = c.
Proof.
  destruct c as [|a c]; [discriminate|]. simpl.
  destruct (is_space a); [discriminate|reflexivity].
Qed.

Lemma single_spaced_strip c : single_spaced false c = true -> strip c = c.
Proof.
  intros H. unfold strip. rewrite (single_spaced_lstrip c H).
  apply ends_rstrip, (single_spaced_ends c false H).
  destruct c; [discriminate|discriminate].
Qed.

Lemma single_spaced_count c : forall b a,
  single_spaced b c = true -> is_space a = true -> a <> " "%char -> count a c = 0.
Proof.
  induction c as [|x c IH]; intros b a H Ha Hne; [reflexivity|].
  simpl in *. destruct (Ascii.eqb_spec x a) as [->|Hx].
  - rewrite Ha in H. apply andb_true_iff in H. destruct H as [H _].
    apply andb_true_iff in H. destruct H as [_ H]. apply Ascii.eqb_eq in H. contradiction.
  - destruct (is_space x).
    + apply andb_true_iff in H. destruct H as [_ H]. rewrite (IH false a H Ha Hne). reflexivity.
    + rewrite (IH true a H Ha Hne). reflexivity.
Qed.

Lemma single_spaced_no_double c : forall b,
  single_spaced b c = true -> contains "  " c = false.
Proof.
  induction c as [|x c IH]; intros b H; [reflexivity|].
  change (contains "  " (String x c))
    with (startswith "  " (String x c) || contains "  " c).
  assert (Hc : contains "  " c = false).
  { simpl in H. destruct (is_space x).
    - apply andb_true_iff in H. destruct H as [_ H]. exact (IH false H).
    - exact (IH true H). }
  rewrite Hc, orb_false_r.
  destruct c as [|y c].
  - change ((" " =? x)%char && false = false). apply andb_false_r.
  - change ((" " =? x)%char && ((" " =? y)%char && true) = false).
    destruct (Ascii.eqb_spec " " x) as [<-|]; [|reflexivity].
    destruct (Ascii.eqb_spec " " y) as [<-|]; [|reflexivity].
    exfalso. change (b && true && (false && true && single_spaced false c) = true) in H.
    rewrite andb_false_r in H. discriminate.
Qed.

(** X1. [_clean_concept] returns a text in normal form: cleaning it again
    changes nothing, it has no whitespace at either end, no two spaces in a
    row, and no whitespace character other than the space. *)
Theorem clean_concept_normal_form :
  forall concept : string,
    let c := _clean_concept concept in
    _clean_concept c = c
    /\ strip c = c
    /\ contains "  " c = false
    /\ (forall a, is_space a = true -> a <> " "%char -> count a c = 0).
Proof.
  intros concept c. destruct (clean_concept_shape concept) as [H|H]; fold c in H.
  - rewrite H. repeat split.
  - split; [|split; [|split]].
    + unfold _clean_concept, collapse_ws. rewrite (single_spaced_strip c H).
      apply (single_spaced_collapse c true), single_spaced_weaken, H.
    + apply single_spaced_strip, H.
    + apply (single_spaced_no_double c false H).
    + intros a Ha Hne. apply (single_spaced_count c false a H Ha Hne).
Qed.

End ConceptFacts.

(** ** Dates: what the two date parsers return and read back *)

Module DateFacts.
Import PyStr PyNum PyDate Validators ConceptFacts.

(** A date of the calendar [datetime] accepts. *)
Definition valid_date (d : date) : Prop :=
  make_date (year d) (month d) (day d) = Some d.

Lemma make_date_some y m d x :
  make_date y m d = Some x ->
  x = mkdate y m d /\ 1 <= y <= 9999 /\ 1 <= m <= 12 /\ 1 <= d <= days_in_month y m.
Proof.
  unfold make_date.
  destruct (Z.leb_spec 1 y), (Z.leb_spec y 9999), (Z.leb_spec 1 m), (Z.leb_spec m 12),
           (Z.leb_spec 1 d), (Z.leb_spec d (days_in_month y m)); simpl; try discriminate.
  intros [= <-]. repeat split; assumption.
Qed.

Lemma make_date_valid y m d x : make_date y m d = Some x -> valid_date x.
Proof.
  intros H. pose proof (make_date_some _ _ _ _ H) as (-> & _). exact H.
Qed.

Lemma days_in_month_le y m : days_in_month y m <= 31.
Proof.
  unfold days_in_month.
  destruct (m =? 2); [destruct (is_leap y); lia|].
  destruct ((m =? 4) || (m =? 6) || (m =? 9) || (m =? 11)); lia.
Qed.

Lemma strptime_valid s fmt x : strptime s fmt = inr x -> valid_date x.
Proof.
  unfold strptime. destruct (re_match fmt s no_fields) as [[f r]|]; [|discriminate].
  destruct (String.eqb r ""); [|discriminate].
  destruct (make_date (fY f) (fm f) (fd f)) as [d|] eqn:Hd; [|discriminate].
  intros [= <-]. exact (make_date_valid _ _ _ _ Hd).
Qed.

Lemma try_formats_valid fmts s x : Validators.try_formats fmts s = Some x -> valid_date x.
Proof.
  induction fmts as [|fmt rest IH]; simpl; [discriminate|].
  destruct (strptime s fmt) as [e|d] eqn:Hs; [exact IH|].
  intros [= <-]. exact (strptime_valid _ _ _ Hs).
Qed.

Lemma date_of_groups_valid gs x : date_of_groups gs = Some x -> valid_date x.
Proof.
  unfold date_of_groups.
  destruct gs as [|g0 [|g1 [|g2 [|g3 gs]]]]; try discriminate.
  destruct (String.length g0 =? 4)%nat; apply make_date_valid.
Qed.

Lemma try_patterns_valid ps s x : try_patterns ps s = Some x -> valid_date x.
Proof.
  induction ps as [|p rest IH]; simpl; [discriminate|].
  destruct (re_search p s) as [gs|]; [|exact IH].
  destruct (date_of_groups gs) as [d|] eqn:Hd; [|exact IH].
  intros [= <-]. exact (date_of_groups_valid _ _ Hd).
Qed.

(** What [_parse_date] returns is the ISO text of a date of the calendar. *)
Lemma parse_date_iso date_str iso :
  _parse_date date_str = inr iso -> exists d, valid_date d /\ iso = isoformat d.
Proof.
  unfold _parse_date.
  destruct (Validators.try_formats DATE_FORMATS (strip date_str)) as [d|] eqn:Hf.
  - intros [= <-]. exists d. split; [exact (try_formats_valid _ _ _ Hf)|reflexivity].
  - destruct (try_patterns DATE_PATTERNS (strip date_str)) as [d|] eqn:Hp; [|discriminate].
    intros [= <-]. exists d. split; [exact (try_patterns_valid _ _ _ Hp)|reflexivity].
Qed.

(** *** The digits of an ISO date *)

(** [pad 4 y] is four digits that read back as [y]. *)
Definition year_ok (n : nat) : bool :=
  let y := Z.of_nat n in
  match pad 4 y with
  | String a (String b (String c (String d EmptyString))) =>
      is_digit a && is_digit b && is_digit c && is_digit d
      && (digits_value 0 (pad 4 y) =? y)
  | _ => false
  end.

Lemma years_ok : forallb year_ok (seq 1 (Z.to_nat 9999)) = true.
Proof. vm_compute. reflexivity. Qed.

Lemma year_digits y :
  1 <= y <= 9999 ->
  exists a b c d,
    pad 4 y = String a (String b (String c (String d "")))
    /\ is_digit a = true /\ is_digit b = true /\ is_digit c = true /\ is_digit d = true
    /\ digits_value 0 (String a (String b (String c (String d "")))) = y.
Proof.
  intros Hy. pose proof years_ok as H. rewrite forallb_forall in H.
  specialize (H (Z.to_nat y)). rewrite in_seq in H.
  assert (Hin : (1 <= Z.to_nat y < 1 + Z.to_nat 9999)%nat) by lia.
  specialize (H Hin). unfold year_ok in H. rewrite Z2Nat.id in H by lia.
  destruct (pad 4 y) as [|a [|b [|c [|d [|? ?]]]]] eqn:Hp; try discriminate.
  rewrite !andb_true_iff in H. destruct H as ((((Ha & Hb) & Hc) & Hd) & Hv).
  apply Z.eqb_eq in Hv. exists a, b, c, d. repeat split; assumption.
Qed.

Lemma digit_not_space a : is_digit a = true -> is_space a = false.
Proof.
  unfold is_digit, is_space. intros H. apply andb_true_iff in H. destruct H as [H1 H2].
  apply Z.leb_le in H1. apply Z.leb_le in H2.
  destruct (Z.leb_spec 9 (code a)), (Z.leb_spec (code a) 13), (Z.leb_spec 28 (code a)),
           (Z.leb_spec (code a) 31), (Z.eqb_spec (code a) 32); simpl; try reflexivity; lia.
Qed.

(** Every [z] of a range has a property that its members have one by
    one. *)
Lemma range_cases (P : Z -> Prop) (lo : Z) (n : nat) :
  (forall k, (k < n)%nat -> P (lo + Z.of_nat k)) -> forall z, lo <= z < lo + Z.of_nat n -> P z.
Proof.
  intros H z Hz. replace z with (lo + Z.of_nat (Z.to_nat (z - lo))) by lia.
  apply H. lia.
Qed.

Ltac each_of :=
  let k := fresh "k" in
  let Hk := fresh "Hk" in
  intros k Hk; repeat (destruct k as [|k]; [|try (exfalso; lia)]); clear Hk.

Ltac by_cases z lo n := pattern z; apply (range_cases _ lo n); [|lia]; each_of.

(** The month and the day of an ISO text are read back. *)
Lemma iso_tail m d acc :
  1 <= m <= 12 -> 1 <= d <= 31 ->
  re_match [Lit "-"; Dirm; Lit "-"; Dird] ("-" +:+ pad 2 m +:+ "-" +:+ pad 2 d) acc
  = Some (mkfields (fY acc) m d, "").
Proof.
  intros Hm Hd. destruct acc as [Y M D].
  by_cases m 1 12%nat; (by_cases d 1 31%nat; reflexivity).
Qed.

(** The year of an ISO text is read by [%Y]. *)
Lemma match_year a b c d r fmt acc :
  is_digit a = true -> is_digit b = true -> is_digit c = true -> is_digit d = true ->
  re_match (DirY :: fmt) (String a (String b (String c (String d r)))) acc
  = re_match fmt r
      (mkfields (digits_value 0 (String a (String b (String c (String d ""))))) (fm acc) (fd acc)).
Proof.
  intros Ha Hb Hc Hd. simpl re_match. rewrite Ha, Hb, Hc, Hd.
  unfold set_field, int_of_field.
  change (lstrip_with is_space (String a (String b (String c (String d "")))))
    with (if is_space a then lstrip_with is_space (String b (String c (String d "")))
          else String a (String b (String c (String d "")))).
  rewrite (digit_not_space a Ha).
  destruct (re_match fmt r _); reflexivity.
Qed.

Lemma valid_date_ranges x :
  valid_date x ->
  1 <= year x <= 9999 /\ 1 <= month x <= 12 /\ 1 <= day x <= 31.
Proof.
  intros H. apply make_date_some in H. destruct H as (_ & Hy & Hm & Hd).
  pose proof (days_in_month_le (year x) (month x)). lia.
Qed.

(** [strptime] with [%Y-%m-%d] reads an ISO text back. *)
Lemma strptime_iso x :
  valid_date x -> strptime (isoformat x) fmt_Ymd_dash = inr x.
Proof.
  intros Hv. destruct (valid_date_ranges x Hv) as (Hy & Hm & Hd).
  destruct (year_digits _ Hy) as (a & b & c & d & Hp & Ha & Hb & Hc & Hdg & Hval).
  unfold strptime, isoformat, fmt_Ymd_dash. rewrite Hp.
  change (String a (String b (String c (String d ""))) +:+ "-" +:+ pad 2 (month x)
          +:+ "-" +:+ pad 2 (day x))
    with (String a (String b (String c (String d
            ("-" +:+ pad 2 (month x) +:+ "-" +:+ pad 2 (day x)))))).
  rewrite (match_year a b c d _ _ _ Ha Hb Hc Hdg), Hval.
  rewrite (iso_tail _ _ _ Hm Hd). simpl.
  rewrite Hv. destruct x; reflexivity.
Qed.

(** An ISO text has ten characters and no whitespace at its ends. *)
Lemma pad2_digits n :
  1 <= n <= 31 ->
  exists a b, pad 2 n = String a (String b "") /\ is_digit a = true /\ is_digit b = true.
Proof.
  intros Hn. by_cases n 1 31%nat;
    (eexists; eexists; split; [reflexivity|split; reflexivity]).
Qed.

Lemma isoformat_shape x :
  valid_date x ->
  String.length (isoformat x) = 10%nat /\ strip (isoformat x) = isoformat x.
Proof.
  intros Hv. destruct (valid_date_ranges x Hv) as (Hy & Hm & Hd).
  destruct (year_digits _ Hy) as (a & b & c & d & Hp & Ha & Hb & Hc & Hdg & Hval).
  assert (Hm' : 1 <= month x <= 31) by lia.
  destruct (pad2_digits _ Hm') as (m1 & m2 & Hpm & Hm1 & Hm2).
  destruct (pad2_digits _ Hd) as (d1 & d2 & Hpd & Hd1 & Hd2).
  unfold isoformat. rewrite Hp, Hpm, Hpd. split; [reflexivity|].
  unfold strip.
  change (lstrip_with is_space
            (String a (String b (String c (String d ""))) +:+ "-" +:+ String m1 (String m2 "")
             +:+ "-" +:+ String d1 (String d2 "")))
    with (if is_space a
          then lstrip_with is_space
                 (String b (String c (String d ("-" +:+ String m1 (String m2 "")
                    +:+ "-" +:+ String d1 (String d2 "")))))
          else String a (String b (String c (String d ("-" +:+ String m1 (String m2 "")
                    +:+ "-" +:+ String d1 (String d2 "")))))).
  rewrite (digit_not_space a Ha). apply ends_rstrip.
  simpl. rewrite (digit_not_space d2 Hd2). reflexivity.
Qed.

(** The validator reads an ISO text back as itself. *)
Lemma parse_date_of_iso x : valid_date x -> _parse_date (isoformat x) = inr (isoformat x).
Proof.
  intros Hv. unfold _parse_date. rewrite (proj2 (isoformat_shape x Hv)).
  unfold DATE_FORMATS. simpl Validators.try_formats. rewrite (strptime_iso x Hv). reflexivity.
Qed.

(** X2. What [_parse_date] accepts it returns as the ISO text, of ten
    characters, of a date of the calendar; and it reads its own result back
    unchanged, so validating a validated date changes nothing. *)
Theorem parse_date_canonical :
  forall date_str iso : string,
    _parse_date date_str = inr iso ->
    (exists d, make_date (year d) (month d) (day d) = Some d /\ iso = isoformat d)
    /\ String.length iso = 10%nat
    /\ _parse_date iso = inr iso.
Proof.
  intros date_str iso H. destruct (parse_date_iso _ _ H) as (d & Hv & ->).
  split; [exists d; split; [exact Hv|reflexivity]|].
  split; [exact (proj1 (isoformat_shape d Hv))|exact (parse_date_of_iso d Hv)].
Qed.

Lemma parse_date_canonical_witness :
  (exists d, make_date (year d) (month d) (day d) = Some d /\ "2024-02-29" = isoformat d)
  /\ String.length "2024-02-29" = 10%nat
  /\ _parse_date "2024-02-29" = inr "2024-02-29".
Proof. apply (parse_date_canonical "29.02.2024" "2024-02-29"). reflexivity. Defined.

(** *** The legacy parser *)

Lemma digit_cases a :
  is_digit a = true -> In a ["0"; "1"; "2"; "3"; "4"; "5"; "6"; "7"; "8"; "9"]%char.
Proof.
  destruct a as [[] [] [] [] [] [] [] []]; vm_compute; intros H; try discriminate; auto 12.
Qed.

Ltac each_digit H :=
  apply digit_cases in H;
  destruct H as [<-|[<-|[<-|[<-|[<-|[<-|[<-|[<-|[<-|[<-|[]]]]]]]]]]].

(** A text that begins with three digits is no date for the formats that
    want the day first: a separator must follow the day, which has two
    digits at most. *)
Lemma day_first_rejects a b c r acc :
  is_digit a = true -> is_digit b = true -> is_digit c = true ->
  re_match fmt_dmY_slash (String a (String b (String c r))) acc = None
  /\ re_match fmt_dmY_dash (String a (String b (String c r))) acc = None.
Proof.
  intros Ha Hb Hc. each_digit Ha; each_digit Hb; each_digit Hc; split; reflexivity.
Qed.

Lemma legacy_try_formats_valid fmts s x : Parsers.try_formats fmts s = Some x -> valid_date x.
Proof.
  induction fmts as [|fmt rest IH]; simpl; [discriminate|].
  destruct (strptime s fmt) as [e|d] eqn:Hs; [exact IH|].
  intros [= <-]. exact (strptime_valid _ _ _ Hs).
Qed.

(** X3. [BankParser.parse_date] returns dates of the calendar only, and it
    reads the ISO text of a date of the calendar (what [isoformat] writes,
    as in the text of [compute_hash] and in the preview) back as that
    date: the two formats tried before [%Y-%m-%d] reject it. *)
Theorem legacy_parse_date_round_trip :
  forall x : date,
    make_date (year x) (month x) (day x) = Some x ->
    Parsers.parse_date (isoformat x) = inr x
    /\ (exists e, strptime (isoformat x) fmt_dmY_slash = inl e)
    /\ (exists e, strptime (isoformat x) fmt_dmY_dash = inl e)
    /\ forall s d, Parsers.parse_date s = inr d ->
                   make_date (year d) (month d) (day d) = Some d.
Proof.
  intros x Hv. destruct (valid_date_ranges x Hv) as (Hy & Hm & Hd).
  destruct (year_digits _ Hy) as (a & b & c & d & Hp & Ha & Hb & Hc & Hdg & Hval).
  assert (Hshape : exists r, isoformat x = String a (String b (String c r))).
  { unfold isoformat. rewrite Hp. eexists. reflexivity. }
  destruct Hshape as [r Hr].
  destruct (day_first_rejects a b c r no_fields Ha Hb Hc) as [H1 H2].
  assert (Hs1 : strptime (isoformat x) fmt_dmY_slash
                = inl (ValueError ("time data does not match format: " +:+ isoformat x))).
  { unfold strptime. rewrite Hr, H1. reflexivity. }
  assert (Hs2 : strptime (isoformat x) fmt_dmY_dash
                = inl (ValueError ("time data does not match format: " +:+ isoformat x))).
  { unfold strptime. rewrite Hr, H2. reflexivity. }
  split; [|split; [eexists; exact Hs1|split; [eexists; exact Hs2|]]].
  - unfold Parsers.parse_date. rewrite (proj2 (isoformat_shape x Hv)).
    unfold Parsers.formats. simpl Parsers.try_formats.
    rewrite Hs1, Hs2, (strptime_iso x Hv). reflexivity.
  - intros s d0. unfold Parsers.parse_date.
    destruct (Parsers.try_formats Parsers.formats (strip s)) as [d'|] eqn:Ht; [|discriminate].
    intros [= <-]. exact (legacy_try_formats_valid _ _ _ Ht).
Qed.

Lemma legacy_parse_date_round_trip_witness :
  Parsers.parse_date (isoformat (mkdate 2024 2 29)) = inr (mkdate 2024 2 29)
  /\ (exists e, strptime (isoformat (mkdate 2024 2 29)) fmt_dmY_slash = inl e)
  /\ (exists e, strptime (isoformat (mkdate 2024 2 29)) fmt_dmY_dash = inl e)
  /\ forall s d, Parsers.parse_date s = inr d ->
                 make_date (year d) (month d) (day d) = Some d.
Proof. apply (legacy_parse_date_round_trip (mkdate 2024 2 29)). reflexivity. Defined.

End DateFacts.

(** ** The validator and the legacy parser on a blank amount *)

Module CleanStageFacts.
Import PyStr PyNum Validators ParserFacts.

Lemma blank_strip_currency a : all_chars is_space a = true -> strip_currency a = "".
Proof. intros H. unfold strip_currency. rewrite (strip_all_space a H). reflexivity. Qed.

(** X5. The two paths on a blank amount.  For the validator of the smart path
    an amount that is empty or made of whitespace only is an error: the
    record does not validate and the message names the empty text that was
    left.  The legacy parser reads the same text as zero. *)
Theorem blank_amount_is_rejected :
  forall (tx : RawTx) (f iso a : string),
    raw_fecha tx = Some f ->
    _parse_date f = inr iso ->
    raw_importe tx = Some a ->
    all_chars is_space a = true ->
    _parse_amount a = inl (ValueError "No se pudo parsear importe: ")
    /\ validate tx = inl (ValueError "No se pudo parsear importe: ")
    /\ Parsers.normalize_amount (Some a) = Decimal_zero.
Proof.
  intros tx f iso a Hf Hd Ha Hsp.
  assert (Hp : _parse_amount a = inl (ValueError "No se pudo parsear importe: ")).
  { unfold _parse_amount. rewrite (blank_strip_currency a Hsp). reflexivity. }
  split; [exact Hp|]. split.
  - unfold validate. rewrite Hf, Hd, Ha, Hp. reflexivity.
  - rewrite normalize_amount_cases, (strip_all_space a Hsp), orb_true_r. reflexivity.
Qed.

Lemma blank_amount_is_rejected_witness :
  _parse_amount "  " = inl (ValueError "No se pudo parsear importe: ")
  /\ validate (mkRawTx (Some "15/12/2024") (Some "PAGO") (Some "  ") None [])
     = inl (ValueError "No se pudo parsear importe: ")
  /\ Parsers.normalize_amount (Some "  ") = Decimal_zero.
Proof.
  apply (blank_amount_is_rejected
           (mkRawTx (Some "15/12/2024") (Some "PAGO") (Some "  ") None [])
           "15/12/2024" "2024-12-15" "  "); reflexivity.
Defined.

End CleanStageFacts.

(** ** More properties of the file detector *)

Module FileDetectorMore.
Import PyStr FileDetector FileDetectorFacts.

(** [get_supported_formats]: the values of [supported_extensions] as a set
    (the method returns the elements of that set as a list, in the order
    the set iterates). *)
Definition get_supported_formats : gset string :=
  list_to_set (map snd supported_extensions).

Lemma dict_get_In k d v : dict_get k d = Some v -> In (k, v) d.
Proof.
  induction d as [|[k' v'] d IH]; simpl; [discriminate|].
  destruct (String.eqb_spec k' k) as [->|Hne].
  - intros [= ->]. left. reflexivity.
  - intros H. right. exact (IH H).
Qed.

Lemma detect_inr files guess_type file_path formato mime_type :
  detect files guess_type file_path = inr (formato, mime_type) ->
  is_Some (files !! file_path)
  /\ dict_get (lower (suffix file_path)) supported_extensions = Some formato.
Proof.
  unfold detect. destruct (files !! file_path) as [content|]; [|discriminate].
  destruct (dict_get (lower (suffix file_path)) supported_extensions) as [f|]; [|discriminate].
  destruct (String.eqb f ""); [discriminate|].
  intros [= <- _]. split; [eexists; reflexivity|reflexivity].
Qed.

(** X6. [is_supported] never raises, and it is true exactly for the path of a
    file that exists and whose extension, in lower case, is a key of
    [supported_extensions]. *)
Theorem is_supported_iff :
  forall (files : gmap string string) (guess_type : string -> option string)
         (file_path : string),
    is_supported files guess_type file_path = true
    <-> is_Some (files !! file_path)
        /\ is_Some (dict_get (lower (suffix file_path)) supported_extensions).
Proof.
  intros files guess_type file_path. unfold is_supported. split.
  - destruct (detect files guess_type file_path) as [e|[formato mime_type]] eqn:Hd.
    + destruct e; discriminate.
    + intros _. apply detect_inr in Hd. destruct Hd as [H1 H2].
      split; [exact H1|eexists; exact H2].
  - intros [[content Hc] [formato Hf]]. unfold detect. rewrite Hc, Hf.
    rewrite (supported_nonempty _ _ Hf). reflexivity.
Qed.

(** X7. The formats [get_supported_formats] announces are the six formats
    [csv], [excel], [ofx], [pdf], [image] and [html], and they are exactly
    the formats [detect] can return. *)
Theorem supported_formats_are_detected :
  get_supported_formats = {[ "csv"; "excel"; "ofx"; "pdf"; "image"; "html" ]}
  /\ forall formato : string,
       formato ∈ get_supported_formats
       <-> exists files guess_type file_path mime_type,
             detect files guess_type file_path = inr (formato, mime_type).
Proof.
  split.
  - unfold get_supported_formats. simpl. set_solver.
  - intros formato. unfold get_supported_formats.
    rewrite elem_of_list_to_set, list_elem_of_In. split.
    + intros Hin. apply in_map_iff in Hin. destruct Hin as ([ext f] & Hf & Hin).
      simpl in Hf. subst f.
      exists {[ "a" +:+ ext := "" ]}, (fun _ => None), ("a" +:+ ext), "application/octet-stream".
      simpl in Hin.
      repeat (destruct Hin as [[= <- <-]|Hin]; [reflexivity|]). destruct Hin.
    + intros (files & guess_type & file_path & mime_type & Hd).
      apply detect_inr in Hd. destruct Hd as [_ Hd]. apply dict_get_In in Hd.
      apply in_map_iff. exists (lower (suffix file_path), formato). split; [reflexivity|exact Hd].
Qed.

End FileDetectorMore.

(** ** More properties of the classification agent *)

Module ClasificacionMore.
Import PyStr PyNum Agents Clasificacion AgentFacts ClasificacionFacts.

(** *** Matching a rule *)

Lemma lower_char_idem a : lower_char (lower_char a) = lower_char a.
Proof. destruct a as [[] [] [] [] [] [] [] []]; reflexivity. Qed.

Lemma lower_idem s : lower (lower s) = lower s.
Proof.
  induction s as [|a s IH]; [reflexivity|].
  simpl. rewrite lower_char_idem, IH. reflexivity.
Qed.

Lemma startswith_empty s : startswith "" s = true.
Proof. destruct s; reflexivity. Qed.

Lemma contains_empty s : contains "" s = true.
Proof. destruct s; reflexivity. Qed.

(** X8. [_match_rule] at its edges.  A condition without [valor], or with an
    empty one, matches every transaction when its operator is [contains]
    (the default) or [startswith].  An operator that is none of
    [contains], [equals] and [startswith] matches nothing.  Letter case
    counts neither in the value of the rule nor in the text of the
    transaction.  A rule whose condition is the empty object, placed first,
    takes every transaction. *)
Theorem match_rule_edge_cases :
  forall (tx : Tx) (c : Condicion),
    (default "" (valor c) = "" ->
     default "contains" (operador c) = "contains"
     \/ default "contains" (operador c) = "startswith" ->
     _match_rule tx c = true)
    /\ (forall o, operador c = Some o ->
          o <> "contains" -> o <> "equals" -> o <> "startswith" -> _match_rule tx c = false)
    /\ (forall v, valor c = Some v ->
          _match_rule tx c = _match_rule tx (mkCondicion (campo c) (operador c) (Some (lower v))))
    /\ _match_rule tx c
       = _match_rule (mkTx (tx_id tx) (lower (tx_concepto tx)) (tx_importe tx)) c
    /\ (forall (r : Regla) (rs : list Regla),
          condicion r = mkCondicion None None None -> first_match tx (r :: rs) = Some r).
Proof.
  intros tx c. split; [|split; [|split; [|split]]].
  - intros Hv Ho. unfold _match_rule. rewrite Hv.
    destruct Ho as [-> | ->]; simpl; [apply contains_empty|reflexivity].
  - intros o Ho H1 H2 H3. unfold _match_rule. rewrite Ho. simpl.
    destruct (String.eqb_spec o "contains"); [contradiction|].
    destruct (String.eqb_spec o "equals"); [contradiction|].
    destruct (String.eqb_spec o "startswith"); [contradiction|reflexivity].
  - intros v Hv. unfold _match_rule. rewrite Hv. simpl. rewrite lower_idem. reflexivity.
  - unfold _match_rule.
    assert (H : forall k, lower (tx_get (mkTx (tx_id tx) (lower (tx_concepto tx)) (tx_importe tx)) k)
                          = lower (tx_get tx k)).
    { intros k. unfold tx_get. simpl.
      destruct (String.eqb k "id"); [reflexivity|].
      destruct (String.eqb k "concepto"); [apply lower_idem|reflexivity]. }
    rewrite H. reflexivity.
  - intros r rs Hr. simpl. rewrite Hr. unfold _match_rule. simpl.
    rewrite contains_empty. reflexivity.
Qed.

(** *** The confidence of a decision of the history phase *)

Lemma count_occ_le c l : 0 <= count_occ_str c l <= Z.of_nat (length l).
Proof.
  unfold count_occ_str. pose proof (filter_length_le (String.eqb c) l). lia.
Qed.

Lemma count_occ_pos c l : In c l -> 1 <= count_occ_str c l.
Proof.
  unfold count_occ_str. intros H.
  assert (Hin : In c (List.filter (String.eqb c) l))
    by (apply filter_In; split; [exact H|apply String.eqb_refl]).
  destruct (List.filter (String.eqb c) l); [destruct Hin|simpl; lia].
Qed.

Lemma count_occ_all c l :
  count_occ_str c l = Z.of_nat (length l) <-> forall x, In x l -> x = c.
Proof.
  unfold count_occ_str. induction l as [|a l IH]; simpl.
  - split; [intros _ ? []|reflexivity].
  - pose proof (filter_length_le (String.eqb c) l) as Hle.
    destruct (String.eqb_spec c a) as [<-|Hne]; simpl.
    + split.
      * intros H x [<-|Hx]; [reflexivity|]. apply IH; [lia|exact Hx].
      * intros H. assert (Hl : forall x, In x l -> x = c) by (intros x Hx; apply H; right; exact Hx).
        apply IH in Hl. lia.
    + split; [lia|]. intros H. exfalso. apply Hne. symmetry. apply H. left. reflexivity.
Qed.

Lemma max_by_count_In cands l best : In (max_by_count cands l best) (best :: cands).
Proof.
  revert best. induction cands as [|c cands IH]; intros best; simpl; [left; reflexivity|].
  specialize (IH (if count_occ_str best l <? count_occ_str c l then c else best)).
  destruct IH as [IH|IH]; [|right; right; exact IH].
  destruct (count_occ_str best l <? count_occ_str c l); [right; left|left]; exact IH.
Qed.

Lemma categoria_comun_In l : l <> [] -> In (categoria_comun l) l.
Proof.
  intros Hne. unfold categoria_comun.
  destruct (remove_dups l) as [|c cands] eqn:Hr.
  - destruct l as [|a l]; [congruence|].
    assert (Ha : a ∈ remove_dups (a :: l)) by (apply elem_of_remove_dups; left).
    rewrite Hr in Ha. inversion Ha.
  - pose proof (max_by_count_In cands l c) as Hin.
    rewrite <- list_elem_of_In. apply elem_of_remove_dups. rewrite Hr.
    rewrite list_elem_of_In. exact Hin.
Qed.

(** The confidence [round(0.85 * k / n, 2)] for [k] agreeing categories
    out of [n], for the [n] the query of the history can return. *)
Lemma history_confidence_table (n k : nat) :
  (1 <= k <= n)%nat -> (n <= 5)%nat ->
  let q := round2 (0.85 * (Z.of_nat k # Pos.of_nat n)) in
  (0 < q)%Q /\ (q <= 0.85)%Q
  /\ Qltb q 0.75 = negb (k =? n)%nat
  /\ ((k = n)%nat -> q = 0.85%Q).
Proof.
  intros Hk Hn.
  assert (Hcases : (n = 1 \/ n = 2 \/ n = 3 \/ n = 4 \/ n = 5)%nat) by lia.
  assert (Hkc : (k = 1 \/ k = 2 \/ k = 3 \/ k = 4 \/ k = 5)%nat) by lia.
  destruct Hcases as [->|[->|[->|[->| ->]]]];
    destruct Hkc as [->|[->|[->|[->| ->]]]]; try (exfalso; lia);
    (split; [reflexivity|split; [vm_compute; discriminate|split; [reflexivity|]]];
     intros; try reflexivity; exfalso; lia).
Qed.

(** X9. A decision of the history phase has the most frequent category of the
    validated classifications found, and a confidence in (0, 0.85].  The
    query returns at most five of them; with five or fewer, the confidence
    reaches the default review threshold 0.75 exactly when all of them
    agree, and is then 0.85: any disagreement sends the decision to
    review. *)
Theorem history_needs_unanimity :
  forall (tx : Tx) (categorias : list string),
    categorias <> [] ->
    (length categorias <= 5)%nat ->
    let c := history_decision tx categorias in
    transaccion_id c = tx_id tx
    /\ metodo c = "historico"
    /\ In (categoria_pgc c) categorias
    /\ (0 < confianza c)%Q /\ (confianza c <= 0.85)%Q
    /\ (below 0.75 c = false <-> forall x, In x categorias -> x = categoria_pgc c)
    /\ ((forall x, In x categorias -> x = categoria_pgc c) -> confianza c = 0.85%Q).
Proof.
  intros tx categorias Hne Hlen c.
  pose proof (categoria_comun_In categorias Hne) as Hin.
  pose proof (count_occ_pos _ _ Hin) as Hpos.
  pose proof (count_occ_le (categoria_comun categorias) categorias) as Hle.
  pose proof (count_occ_all (categoria_comun categorias) categorias) as Hall.
  set (k := Z.to_nat (count_occ_str (categoria_comun categorias) categorias)) in *.
  assert (Hk : count_occ_str (categoria_comun categorias) categorias = Z.of_nat k)
    by (unfold k; lia).
  assert (Hkn : (1 <= k <= length categorias)%nat) by lia.
  destruct (history_confidence_table (length categorias) k Hkn Hlen) as (H0 & H1 & H2 & H3).
  subst c. unfold history_decision, below. simpl. rewrite Hk.
  split; [reflexivity|]. split; [reflexivity|]. split; [exact Hin|].
  split; [exact H0|]. split; [exact H1|]. split.
  - rewrite H2, <- Hall, Hk. rewrite negb_false_iff, Nat.eqb_eq. lia.
  - intros Hu. apply H3. apply Hall in Hu. lia.
Qed.

Lemma history_needs_unanimity_witness :
  transaccion_id (history_decision (mkTx "t" "PAGO AMAZON" (Fin (-1250) (-2))) ["629"; "629"; "600"])
  = "t"
  /\ metodo (history_decision (mkTx "t" "PAGO AMAZON" (Fin (-1250) (-2))) ["629"; "629"; "600"])
     = "historico"
  /\ In (categoria_pgc (history_decision (mkTx "t" "PAGO AMAZON" (Fin (-1250) (-2)))
                                         ["629"; "629"; "600"]))
        ["629"; "629"; "600"]
  /\ (0 < confianza (history_decision (mkTx "t" "PAGO AMAZON" (Fin (-1250) (-2)))
                                      ["629"; "629"; "600"]))%Q
  /\ (confianza (history_decision (mkTx "t" "PAGO AMAZON" (Fin (-1250) (-2)))
                                  ["629"; "629"; "600"]) <= 0.85)%Q
  /\ (below 0.75 (history_decision (mkTx "t" "PAGO AMAZON" (Fin (-1250) (-2)))
                                   ["629"; "629"; "600"]) = false
      <-> forall x, In x ["629"; "629"; "600"] ->
                    x = categoria_pgc (history_decision (mkTx "t" "PAGO AMAZON" (Fin (-1250) (-2)))
                                                        ["629"; "629"; "600"]))
  /\ ((forall x, In x ["629"; "629"; "600"] ->
                 x = categoria_pgc (history_decision (mkTx "t" "PAGO AMAZON" (Fin (-1250) (-2)))
                                                     ["629"; "629"; "600"])) ->
      confianza (history_decision (mkTx "t" "PAGO AMAZON" (Fin (-1250) (-2)))
                                  ["629"; "629"; "600"]) = 0.85%Q).
Proof.
  apply (history_needs_unanimity (mkTx "t" "PAGO AMAZON" (Fin (-1250) (-2)))
           ["629"; "629"; "600"]).
  - discriminate.
  - simpl. lia.
Defined.

(** *** Runs that do not stop for review *)


Lemma threshold_ensure fresh (s : ClasificacionState) :
  threshold_of (ensure_session fresh s) = threshold_of s
  /\ human_feedback (ensure_session fresh s) = human_feedback s.
Proof. unfold ensure_session. destruct (session_id s); split; reflexivity. Qed.




(** X11. A run without transaction ids, the key missing or the list empty,
    reads nothing: whatever the tenant (even a missing or malformed one)
    and whatever the tables and the classifier, it completes with no
    decision, total 0, and the session receives one commit. *)
Theorem empty_batch_completes :
  forall (env : Env) (fresh : string) (s0 : ClasificacionState) (db : list DbCall),
    default [] (transaccion_ids (payload s0)) = [] ->
    let r := run_clasificacion env fresh s0 db in
    snd r = db ++ [Commit]
    /\ status (fst r) = Some "completed"
    /\ requires_human (fst r) = Some false
    /\ clasificaciones (payload (fst r)) = Some []
    /\ results (fst r) = Some (mkResults 0 [])
    /\ error (fst r) = error s0.
Proof.
  intros env fresh s0 db Hids r. subst r. rewrite run_pipeline.
  unfold pipeline, cascade. rewrite load_data_loaded.
  assert (Hl : loaded env (tenant_id (ensure_session fresh s0))
                 (default [] (transaccion_ids (payload (ensure_session fresh s0))))
               = inr ([], [])).
  { unfold ensure_session. destruct (session_id s0); simpl; rewrite Hids; reflexivity. }
  rewrite Hl.
  unfold ensure_session. destruct s0 as [tn [se|] st re rh hf er [em ti tr rg cl pr th]];
    repeat split.
Qed.

Lemma empty_batch_completes_witness :
  snd (run_clasificacion failing_env "sesion-2"
         (mkAgentState None None None None None None None
            (mkPayload None None None None None None None)) [])
  = [] ++ [Commit]
  /\ status (fst (run_clasificacion failing_env "sesion-2"
         (mkAgentState None None None None None None None
            (mkPayload None None None None None None None)) [])) = Some "completed"
  /\ requires_human (fst (run_clasificacion failing_env "sesion-2"
         (mkAgentState None None None None None None None
            (mkPayload None None None None None None None)) [])) = Some false
  /\ clasificaciones (payload (fst (run_clasificacion failing_env "sesion-2"
         (mkAgentState None None None None None None None
            (mkPayload None None None None None None None)) []))) = Some []
  /\ results (fst (run_clasificacion failing_env "sesion-2"
         (mkAgentState None None None None None None None
            (mkPayload None None None None None None None)) [])) = Some (mkResults 0 [])
  /\ error (fst (run_clasificacion failing_env "sesion-2"
         (mkAgentState None None None None None None None
            (mkPayload None None None None None None None)) []))
     = error (mkAgentState (F := Feedback) (R := Results) None None None None None None None
                (mkPayload None None None None None None None)).
Proof.
  apply (empty_batch_completes failing_env "sesion-2"
           (mkAgentState None None None None None None None
              (mkPayload None None None None None None None)) []).
  reflexivity.
Defined.

End ClasificacionMore.

(** ** [api/v1/clasificacion.py]: the batch and the validation endpoint *)

Module ClasificacionApi.
Import PyStr PyNum Agents Clasificacion.

(** [HTTPException(status_code, detail)] *)
Record HTTPError : Type := mkHTTPError {
  status_code : Z;
  detail : string
}.

(** [TokenPayload]; [exp] is a time stamp. *)
Record TokenPayload : Type := mkTokenPayload {
  sub : string;
  user_tenant_id : string;
  email : string;
  rol : string;
  exp : Z
}.




(** The dict [_sessions] of the module. *)
Abbreviation Sessions := (gmap string ClasificacionState).




End ClasificacionApi.

Module ClasificacionApiFacts.
Import PyStr PyNum Agents Clasificacion AgentFacts ClasificacionFacts ClasificacionMore.
Import ClasificacionApi.




End ClasificacionApiFacts.

(** ** [services/chat_orchestrator.py]: the [clasificar] tool *)

Module ChatOrchestrator.
Import PyStr PyNum Agents Clasificacion.

(** The [data] of an answer: [None], or the dict [result.get("results", {})],
    which is empty when the run set no results. *)
Inductive ToolData : Type :=
| DataNone
| DataResults (r : option Results).

(** The dict [_execute_tool] returns; [needs_input] is a key only some
    answers have. *)
Record ToolResponse : Type := mkToolResponse {
  response : string;
  tool_used : string;
  data : ToolData;
  needs_input : option bool
}.

(** [a or b] on two optional texts: the first that is neither [None] nor
    empty, else the second. *)
Definition or_else (a b : option string) : option string :=
  match a with
  | Some x => if String.eqb x "" then b else a
  | None => b
  end.

(** [not empresa_id] *)
Definition falsy (a : option string) : bool :=
  match a with
  | Some x => String.eqb x ""
  | None => true
  end.

(** [data.get("total", 0)] *)
Definition total_of (d : option Results) : Z :=
  match d with
  | Some r => total r
  | None => 0
  end.

(** The branch of [_execute_tool] for the tool [clasificar].
    [params_empresa_id] and [context_empresa_id] are
    [params.get("empresa_id")] and [context.get("empresa_id")];
    [unclassified] is the query of [_get_unclassified_transactions], which
    raises for a malformed id; [uuid4] is the session id [run] draws. *)
Definition execute_clasificar (env : Env) (uuid4 : string) (tenant_id : string)
    (params_empresa_id context_empresa_id : option string)
    (unclassified : string -> Exc + list string) (db : list DbCall)
  : (Exc + ToolResponse) * list DbCall :=
  let empresa_id := or_else params_empresa_id context_empresa_id in
  if falsy empresa_id then
    (inr (mkToolResponse "¿De qué empresa quieres clasificar transacciones?"
                         "clasificar" DataNone (Some true)), db)
  else
    match unclassified (default "" empresa_id) with
    | inl e => (inl e, db)
    | inr [] =>
        (inr (mkToolResponse
                "✅ No hay transacciones pendientes de clasificar para esta empresa."
                "clasificar" DataNone None), db)
    | inr tx_ids =>
        let '(result, db') :=
          run_clasificacion env uuid4
            (mkAgentState (Some tenant_id) None None None None None None
               (mkPayload None (Some (firstn 20 tx_ids)) None None None None (Some 0.75%Q)))
            db in
        let data := results result in
        (inr (mkToolResponse
                ("✅ He clasificado **" +:+ digits_of (total_of data)
                 +:+ " transacciones**. Las de baja confianza requieren tu revisión.")
                "clasificar" (DataResults data) None), db')
    end.

End ChatOrchestrator.

Module ChatFacts.
Import PyStr PyNum Agents Clasificacion AgentFacts ClasificacionFacts ClasificacionMore.
Import ChatOrchestrator.

Lemma cascade_results env s s4 : cascade env s = inr s4 -> results s4 = results s.
Proof.
  rewrite cascade_shape.
  destruct (loaded env _ _) as [e|[txs rs]]; [discriminate|].
  destruct (phases env rs txs) as [e|[[c1 c2] c3]]; [discriminate|].
  intros [= <-]. reflexivity.
Qed.

(** A run whose state carries no feedback stops when a decision is below
    the threshold. *)
Lemma run_pauses env fresh s0 s4 db c :
  cascade env (ensure_session fresh s0) = inr s4 ->
  feedback_truthy (human_feedback s0) = false ->
  In c (default [] (clasificaciones (payload s4))) ->
  (confianza c < threshold_of s0)%Q ->
  run_clasificacion env fresh s0 db = (prepare_review s4, db)
  /\ status (prepare_review s4) = Some "review"
  /\ results (prepare_review s4) = results s0.
Proof.
  intros Hcas Hno Hc Hlt.
  destruct (cascade_keeps _ _ _ Hcas) as (HT & Hfb & _).
  destruct (threshold_ensure fresh s0) as [HT0 Hfb0].
  assert (Hne : List.filter (below (threshold_of s4))
                  (default [] (clasificaciones (payload s4))) <> []).
  { intros Hnil.
    assert (Hin : In c (List.filter (below (threshold_of s4))
                          (default [] (clasificaciones (payload s4))))).
    { apply filter_In. split; [exact Hc|]. apply below_lt. rewrite HT, HT0. exact Hlt. }
    rewrite Hnil in Hin. destruct Hin. }
  destruct (prepare_review_flags s4 Hne) as [Hrh Hst].
  split; [|split; [exact Hst|]].
  - rewrite run_pipeline. unfold pipeline. rewrite Hcas. unfold should_pause.
    rewrite Hrh, prepare_review_feedback, Hfb, Hfb0, Hno. reflexivity.
  - change (results (prepare_review s4)) with (results s4).
    rewrite (cascade_results _ _ _ Hcas). unfold ensure_session.
    destruct (session_id s0); reflexivity.
Qed.

(** X13. The [clasificar] tool of the chat on a batch that needs review.  When a
    decision of the run is below 0.75 the run stops before [save_results]:
    its state has no results, so the answer says that 0 transactions were
    classified, its data is the empty dict, and nothing has been written to
    the database.  The tool keeps no session, so the decisions of the run
    are not available for a later validation. *)
Theorem chat_reports_zero_on_review :
  forall (env : Env) (uuid4 tenant_id empresa : string)
         (params_empresa_id context_empresa_id : option string)
         (unclassified : string -> Exc + list string) (db : list DbCall)
         (tx_ids : list string) (s4 : ClasificacionState) (c : Clasif),
    or_else params_empresa_id context_empresa_id = Some empresa ->
    empresa <> "" ->
    unclassified empresa = inr tx_ids ->
    tx_ids <> [] ->
    cascade env
      (ensure_session uuid4
         (mkAgentState (Some tenant_id) None None None None None None
            (mkPayload None (Some (firstn 20 tx_ids)) None None None None (Some 0.75%Q))))
    = inr s4 ->
    In c (default [] (clasificaciones (payload s4))) ->
    (confianza c < 0.75)%Q ->
    execute_clasificar env uuid4 tenant_id params_empresa_id context_empresa_id unclassified db
    = (inr (mkToolResponse
              "✅ He clasificado **0 transacciones**. Las de baja confianza requieren tu revisión."
              "clasificar" (DataResults None) None),
       db).
Proof.
  intros env uuid4 tenant_id empresa pe ce unclassified db tx_ids s4 c
         Hemp Hne Hun Hids Hcas Hc Hlt.
  unfold execute_clasificar. rewrite Hemp. simpl falsy.
  destruct (String.eqb_spec empresa ""); [contradiction|].
  simpl default. rewrite Hun.
  destruct tx_ids as [|t ts]; [congruence|].
  destruct (run_pauses env uuid4 _ s4 db c Hcas eq_refl Hc Hlt) as (Hrun & _ & Hres).
  rewrite Hrun, Hres. reflexivity.
Qed.

Lemma chat_reports_zero_on_review_witness :
  execute_clasificar demo_env "sesion-9" id_tenant (Some "empresa-1") None
    (fun _ => inr [id_tx1; id_tx2; id_tx3]) []
  = (inr (mkToolResponse
            "✅ He clasificado **0 transacciones**. Las de baja confianza requieren tu revisión."
            "clasificar" (DataResults None) None),
     []).
Proof.
  apply (chat_reports_zero_on_review demo_env "sesion-9" id_tenant "empresa-1"
           (Some "empresa-1") None (fun _ => inr [id_tx1; id_tx2; id_tx3]) []
           [id_tx1; id_tx2; id_tx3]
           (returned (cascade demo_env
              (ensure_session "sesion-9"
                 (mkAgentState (Some id_tenant) None None None None None None
                    (mkPayload None (Some [id_tx1; id_tx2; id_tx3]) None None None None
                               (Some 0.75%Q))))) demo_state)
           (mkClasif id_tx3 "705" 0.5 "llm" "ingreso")).
  - reflexivity.
  - discriminate.
  - reflexivity.
  - discriminate.
  - vm_compute. reflexivity.
  - vm_compute. right. right. left. reflexivity.
  - reflexivity.
Defined.

End ChatFacts.

(** ** More properties of the legacy CSV parser *)

Module CsvParserFacts.
Import PyStr PyNum PyDate Hashes Parsers ConceptFacts DateFacts.

(** *** The columns *)

(** The words of the pattern of a column type. *)
Definition words_of_type (col_type : string) : list string :=
  match List.find (fun p => String.eqb (fst p) col_type) COLUMN_PATTERNS with
  | Some p => snd p
  | None => []
  end.

(** A field name [_detect_columns] may take for [col_type]. *)
Definition candidate (col_type field : string) : bool :=
  negb (String.eqb field "") && pattern_search (words_of_type col_type) field.

(** One step of the loop of [_detect_columns]. *)
Definition detect_step (m : gmap string string) (field : string) : gmap string string :=
  if String.eqb field "" then m else assign_field COLUMN_PATTERNS field m.

Definition column_ok (fieldnames : list string) (m : gmap string string) : Prop :=
  forall col_type field, m !! col_type = Some field ->
    In field fieldnames /\ candidate col_type field = true.

Lemma assign_field_ok fieldnames field m :
  In field fieldnames -> field <> "" ->
  column_ok fieldnames m -> column_ok fieldnames (assign_field COLUMN_PATTERNS field m).
Proof.
  intros Hin Hne Hm.
  assert (Hgen : forall pats,
            (forall p, In p pats -> candidate (fst p) field = pattern_search (snd p) field) ->
            column_ok fieldnames (assign_field pats field m)).
  { induction pats as [|[col_type words] pats IH]; intros Hp; [exact Hm|].
    simpl. destruct (pattern_search words field && _) eqn:Hc.
    - intros k f Hk. apply lookup_insert_Some in Hk.
      destruct Hk as [[<- <-]|[_ Hk]]; [|exact (Hm k f Hk)].
      split; [exact Hin|].
      pose proof (Hp (col_type, words) (or_introl eq_refl)) as Hq. simpl in Hq. rewrite Hq.
      apply andb_true_iff in Hc. exact (proj1 Hc).
    - apply IH. intros p Hpin. apply Hp. right. exact Hpin. }
  apply Hgen. intros p Hp. unfold candidate.
  destruct (String.eqb_spec field ""); [contradiction|]. simpl.
  simpl in Hp.
  repeat (destruct Hp as [<-|Hp]; [reflexivity|]). destruct Hp.
Qed.

Lemma detect_fold_ok fieldnames : forall l m,
  incl l fieldnames -> column_ok fieldnames m ->
  column_ok fieldnames (fold_left detect_step l m).
Proof.
  induction l as [|field l IH]; intros m Hl Hm; [exact Hm|].
  simpl. apply IH; [intros x Hx; apply Hl; right; exact Hx|].
  unfold detect_step. destruct (String.eqb_spec field ""); [exact Hm|].
  apply assign_field_ok; [apply Hl; left; reflexivity|assumption|exact Hm].
Qed.

Lemma assign_field_cons col_type words pats field m :
  assign_field ((col_type, words) :: pats) field m
  = if pattern_search words field && negb (bool_decide (is_Some (m !! col_type)))
    then <[ col_type := field ]> m
    else assign_field pats field m.
Proof. reflexivity. Qed.

Lemma assign_field_other pats field m k :
  (forall p, In p pats -> fst p <> k) -> assign_field pats field m !! k = m !! k.
Proof.
  induction pats as [|[col_type words] pats IH]; intros Hk; [reflexivity|].
  rewrite assign_field_cons.
  destruct (pattern_search words field && _).
  - apply lookup_insert_ne. exact (Hk (col_type, words) (or_introl eq_refl)).
  - apply IH. intros p Hp. apply Hk. right. exact Hp.
Qed.

(** The column of the dates, once taken, stays; while it is free the
    first candidate takes it. *)
Lemma assign_field_fecha field m :
  assign_field COLUMN_PATTERNS field m !! "fecha"
  = match m !! "fecha" with
    | Some f => Some f
    | None => if pattern_search (words_of_type "fecha") field then Some field else None
    end.
Proof.
  change (words_of_type "fecha") with ["fecha"; "date"; "f."; "valor"; "fec"; "fcha"].
  unfold COLUMN_PATTERNS. rewrite assign_field_cons.
  assert (Hrest : forall pats, pats = tl COLUMN_PATTERNS ->
                    assign_field pats field m !! "fecha" = m !! "fecha").
  { intros pats ->. apply assign_field_other. intros p Hp. simpl in Hp.
    repeat (destruct Hp as [<-|Hp]; [discriminate|]). destruct Hp. }
  destruct (m !! "fecha") as [f|] eqn:Hf.
  - rewrite (bool_decide_eq_true_2 (is_Some (Some f))) by (eexists; reflexivity).
    rewrite andb_false_r.
    match goal with |- context [assign_field ?pats field m] => rewrite (Hrest pats eq_refl) end.
    reflexivity.
  - rewrite (bool_decide_eq_false_2 (is_Some None)) by (intros [? ?]; discriminate).
    rewrite andb_true_r.
    destruct (pattern_search _ field); [apply lookup_insert_eq|].
    match goal with |- context [assign_field ?pats field m] => rewrite (Hrest pats eq_refl) end.
    reflexivity.
Qed.

Lemma detect_step_fecha field m :
  detect_step m field !! "fecha"
  = match m !! "fecha" with
    | Some f => Some f
    | None => if candidate "fecha" field then Some field else None
    end.
Proof.
  unfold detect_step, candidate. destruct (String.eqb field "").
  - cbn [negb andb]. destruct (m !! "fecha"); reflexivity.
  - rewrite assign_field_fecha. cbn [negb andb]. reflexivity.
Qed.

Lemma detect_fold_fecha : forall l m,
  fold_left detect_step l m !! "fecha"
  = match m !! "fecha" with
    | Some f => Some f
    | None => List.find (candidate "fecha") l
    end.
Proof.
  induction l as [|field l IH]; intros m.
  - cbn [fold_left List.find]. destruct (m !! "fecha"); reflexivity.
  - cbn [fold_left List.find]. rewrite IH, detect_step_fecha.
    destruct (m !! "fecha"); [reflexivity|].
    destruct (candidate "fecha" field); reflexivity.
Qed.

(** X14. [_detect_columns].  When it returns, the map has a column for the
    dates and one for the amounts; every column it holds is a field name
    of the header, not empty, in which a word of the pattern of its type
    occurs (without regard to case); and the column of the dates is the
    first such field name of the header.  When no field name of the header
    is a candidate for the dates it raises a [ValueError]. *)
Theorem detect_columns_contract :
  forall fieldnames : list string,
    (forall column_map, _detect_columns fieldnames = inr column_map ->
       is_Some (column_map !! "fecha") /\ is_Some (column_map !! "importe")
       /\ (forall col_type field, column_map !! col_type = Some field ->
             In field fieldnames /\ field <> ""
             /\ pattern_search (words_of_type col_type) field = true)
       /\ column_map !! "fecha" = List.find (candidate "fecha") fieldnames)
    /\ (List.find (candidate "fecha") fieldnames = None ->
        exists msg, _detect_columns fieldnames = inl (ValueError msg)).
Proof.
  intros fieldnames.
  assert (Hfold : forall m field, (if String.eqb field "" then m
                                   else assign_field COLUMN_PATTERNS field m)
                                  = detect_step m field) by reflexivity.
  assert (Hdef : _detect_columns fieldnames
                 = let column_map := fold_left detect_step fieldnames ∅ in
                   if bool_decide (is_Some (column_map !! "fecha"))
                      && bool_decide (is_Some (column_map !! "importe"))
                   then inr column_map
                   else inl (ValueError "Columnas requeridas no encontradas")) by reflexivity.
  rewrite Hdef. clear Hdef. cbv zeta.
  pose proof (detect_fold_ok fieldnames fieldnames ∅ (incl_refl _)) as Hok.
  pose proof (detect_fold_fecha fieldnames ∅) as Hfe. rewrite lookup_empty in Hfe.
  set (cm := fold_left detect_step fieldnames ∅) in *.
  split.
  - intros column_map.
    destruct (bool_decide (is_Some (cm !! "fecha"))) eqn:H1; [|discriminate].
    destruct (bool_decide (is_Some (cm !! "importe"))) eqn:H2; [|discriminate].
    simpl. intros [= <-].
    apply bool_decide_eq_true in H1. apply bool_decide_eq_true in H2.
    split; [exact H1|]. split; [exact H2|]. split; [|exact Hfe].
    intros col_type field Hl.
    destruct (Hok ltac:(intros ? ? H; rewrite lookup_empty in H; discriminate)
               col_type field Hl) as [Hin Hc].
    unfold candidate in Hc. apply andb_true_iff in Hc. destruct Hc as [Hne Hp].
    split; [exact Hin|]. split; [|exact Hp].
    intros ->. discriminate.
  - intros Hnone. rewrite Hnone in Hfe.
    rewrite (bool_decide_eq_false_2 (is_Some (cm !! "fecha")))
      by (rewrite Hfe; intros [? ?]; discriminate).
    simpl. eexists. reflexivity.
Qed.

End CsvParserFacts.

(** ** The rows of the legacy CSV parser and the hash of a transaction *)

Module CsvRowsFacts.
Import PyStr PyNum PyDate Hashes Parsers ConceptFacts DateFacts.

(** The transactions of the rows that are not passed over, in the order
    of the file. *)
Definition emitted (column_map : gmap string string) (rows : list Row) : list TransaccionRaw :=
  flat_map (fun row => match parse_row column_map row with Emit tx => [tx] | _ => [] end) rows.

Lemma strip_idem s : strip (strip s) = strip s.
Proof.
  destruct (strip_shape s) as [H|(a & r & H & Ha & He)].
  - rewrite H. reflexivity.
  - unfold strip at 1. rewrite H in He |- *.
    change (lstrip_with is_space (String a r))
      with (if is_space a then lstrip_with is_space r else String a r).
    rewrite Ha. apply ends_rstrip, He.
Qed.

Lemma parse_row_emit column_map row tx :
  parse_row column_map row = Emit tx ->
  decimal_eq0 (importe tx) = inr false
  /\ valid_date (fecha tx)
  /\ strip (concepto tx) = concepto tx
  /\ fecha_valor tx = None
  /\ importe tx
     = normalize_amount (row_get row (default "" (column_map !! "importe")) (Some "0")).
Proof.
  unfold parse_row.
  destruct (decimal_eq0 (normalize_amount _)) as [e|[|]] eqn:Hz; try discriminate.
  destruct (row_get row (default "" (column_map !! "fecha")) (Some "")) as [fecha_str|];
    [|discriminate].
  destruct (String.eqb fecha_str ""); [discriminate|].
  destruct (parse_date fecha_str) as [e|d] eqn:Hd; [discriminate|].
  intros [= <-]. simpl. split; [exact Hz|]. split; [|split; [apply strip_idem|auto]].
  unfold parse_date in Hd.
  destruct (try_formats formats (strip fecha_str)) as [d'|] eqn:Ht; [|discriminate].
  injection Hd as <-. exact (legacy_try_formats_valid _ _ _ Ht).
Qed.

Lemma parse_rows_emitted column_map rows : forall txs,
  parse_rows column_map rows = inr txs -> txs = emitted column_map rows.
Proof.
  induction rows as [|row rest IH]; intros txs; simpl.
  - intros [= <-]. reflexivity.
  - destruct (parse_row column_map row) as [|tx|e]; [exact (IH txs)| |discriminate].
    destruct (parse_rows column_map rest) as [e|txs']; [discriminate|].
    intros [= <-]. simpl. f_equal. exact (IH txs' eq_refl).
Qed.

Lemma emitted_length column_map rows : (length (emitted column_map rows) <= length rows)%nat.
Proof.
  induction rows as [|row rest IH]; simpl; [lia|].
  destruct (parse_row column_map row); simpl; lia.
Qed.

(** X15. What [CSVGenericParser.parse] returns.  The transactions come from
    the rows in the order of the file, one at most per row.  None has a
    zero amount: a row whose amount reads as zero is passed over.  Every
    date is a date of the calendar, no concept has whitespace at its ends,
    and no value date is set. *)
Theorem parse_output_invariants :
  forall (fieldnames : list string) (rows : list Row) (txs : list TransaccionRaw),
    parse fieldnames rows = inr txs ->
    exists column_map,
      _detect_columns fieldnames = inr column_map
      /\ txs = emitted column_map rows
      /\ (length txs <= length rows)%nat
      /\ forall tx, In tx txs ->
           decimal_eq0 (importe tx) = inr false
           /\ make_date (year (fecha tx)) (month (fecha tx)) (day (fecha tx)) = Some (fecha tx)
           /\ strip (concepto tx) = concepto tx
           /\ fecha_valor tx = None.
Proof.
  intros fieldnames rows txs. unfold parse.
  destruct fieldnames as [|f fs]; [discriminate|].
  destruct (_detect_columns (f :: fs)) as [e|column_map]; [discriminate|].
  intros H. exists column_map. split; [reflexivity|].
  pose proof (parse_rows_emitted _ _ _ H) as ->.
  split; [reflexivity|]. split; [apply emitted_length|].
  intros tx Hin. unfold emitted in Hin. apply in_flat_map in Hin.
  destruct Hin as (row & _ & Hin).
  destruct (parse_row column_map row) as [|tx'|e] eqn:Hr; try destruct Hin.
  - subst tx'. destruct (parse_row_emit _ _ _ Hr) as (H1 & H2 & H3 & H4 & _). auto.
  - destruct H0.
Qed.

Lemma parse_output_invariants_witness :
  exists column_map,
    _detect_columns ParserFacts.cabecera = inr column_map
    /\ [mkTransaccionRaw (mkdate 2024 12 15) "TRANSFERENCIA NOMINA" (DFin false 250000 (-2))
          None None None]
       = emitted column_map [ParserFacts.fila_nomina; ParserFacts.fila_mal_importe]
    /\ (length [mkTransaccionRaw (mkdate 2024 12 15) "TRANSFERENCIA NOMINA"
                  (DFin false 250000 (-2)) None None None]
        <= length [ParserFacts.fila_nomina; ParserFacts.fila_mal_importe])%nat
    /\ forall tx,
         In tx [mkTransaccionRaw (mkdate 2024 12 15) "TRANSFERENCIA NOMINA"
                  (DFin false 250000 (-2)) None None None] ->
         decimal_eq0 (importe tx) = inr false
         /\ make_date (year (fecha tx)) (month (fecha tx)) (day (fecha tx)) = Some (fecha tx)
         /\ strip (concepto tx) = concepto tx
         /\ fecha_valor tx = None.
Proof.
  apply (parse_output_invariants ParserFacts.cabecera
           [ParserFacts.fila_nomina; ParserFacts.fila_mal_importe]).
  vm_compute. reflexivity.
Defined.

(** *** The hash *)

Definition is_hex (a : ascii) : bool :=
  is_digit a || ((97 <=? code a) && (code a <=? 102)).

Lemma sha256_round_length st kw : length (sha256_round st kw) = length st.
Proof.
  unfold sha256_round.
  destruct st as [|a [|b [|c [|d [|e [|f [|g [|h [|i st]]]]]]]]]; reflexivity.
Qed.

Lemma fold_rounds_length l : forall st,
  length (fold_left sha256_round l st) = length st.
Proof.
  induction l as [|kw l IH]; intros st; [reflexivity|].
  simpl. rewrite IH. apply sha256_round_length.
Qed.

Lemma sha256_block_length h block : length (sha256_block h block) = length h.
Proof.
  unfold sha256_block. rewrite length_map, length_combine, fold_rounds_length. lia.
Qed.

Lemma fold_blocks_length blocks : forall h,
  length (fold_left sha256_block blocks h) = length h.
Proof.
  induction blocks as [|b blocks IH]; intros h; [reflexivity|].
  simpl. rewrite IH. apply sha256_block_length.
Qed.

Lemma byte_at_range x i : 0 <= byte_at x i < 256.
Proof.
  unfold byte_at. change 255 with (Z.ones 8). rewrite Z.land_ones by lia.
  apply Z.mod_pos_bound. reflexivity.
Qed.

Lemma be4_bytes ws :
  Forall (fun b => 0 <= b < 256) (concat (map be4 ws))
  /\ length (concat (map be4 ws)) = (4 * length ws)%nat.
Proof.
  induction ws as [|w ws [IH1 IH2]]; [split; [constructor|reflexivity]|].
  simpl. split.
  - repeat (constructor; [apply byte_at_range|]). exact IH1.
  - rewrite IH2. lia.
Qed.

Lemma hex_digit_is_hex n : 0 <= n < 16 -> is_hex (hex_digit n) = true.
Proof. intros Hn. by_cases n 0 16%nat; reflexivity. Qed.

Lemma hex_of_bytes_shape bs :
  Forall (fun b => 0 <= b < 256) bs ->
  String.length (hex_of_bytes bs) = (2 * length bs)%nat
  /\ all_chars is_hex (hex_of_bytes bs) = true.
Proof.
  induction 1 as [|b bs Hb _ [IH1 IH2]]; [split; reflexivity|].
  simpl. split; [rewrite IH1; lia|].
  rewrite IH2, !hex_digit_is_hex; [reflexivity| |].
  - apply Z.mod_pos_bound. reflexivity.
  - split; [apply Z.div_pos; lia|apply Z.div_lt_upper_bound; lia].
Qed.

Lemma take_shape p n : forall s,
  (n <= String.length s)%nat -> all_chars p s = true ->
  String.length (take n s) = n /\ all_chars p (take n s) = true.
Proof.
  induction n as [|n IH]; intros s Hl Hp; [destruct s; split; reflexivity|].
  destruct s as [|c s]; [simpl in Hl; lia|].
  simpl in *. apply andb_true_iff in Hp. destruct Hp as [Hc Hs].
  destruct (IH s ltac:(lia) Hs) as [H1 H2]. rewrite H1, Hc, H2. split; reflexivity.
Qed.

(** The SHA-256 digest in hexadecimal has 64 characters, all of them
    hexadecimal digits in lower case. *)
Lemma sha256_hexdigest_shape s :
  String.length (sha256_hexdigest s) = 64%nat
  /\ all_chars is_hex (sha256_hexdigest s) = true.
Proof.
  unfold sha256_hexdigest, sha256.
  set (h := fold_left sha256_block _ H256).
  assert (Hh : length h = 8%nat) by (unfold h; rewrite fold_blocks_length; reflexivity).
  destruct (be4_bytes h) as [Hb Hl].
  destruct (hex_of_bytes_shape _ Hb) as [H1 H2].
  split; [rewrite H1, Hl, Hh; reflexivity|exact H2].
Qed.

(** X16. [compute_hash].  The hash has 16 characters, all of them hexadecimal
    digits in lower case.  It is computed from the date, the concept, the
    amount as a float and the reference only: the balance and the value
    date play no part, and an empty reference gives the same hash as no
    reference. *)
Theorem compute_hash_shape :
  forall (tx : TransaccionRaw) (h : string),
    compute_hash tx = inr h ->
    String.length h = 16%nat
    /\ all_chars is_hex h = true
    /\ (forall s fv,
          compute_hash (mkTransaccionRaw (fecha tx) (concepto tx) (importe tx) s
                                         (referencia tx) fv) = inr h)
    /\ (referencia tx = Some "" ->
        compute_hash (mkTransaccionRaw (fecha tx) (concepto tx) (importe tx) (saldo tx)
                                       None (fecha_valor tx)) = inr h).
Proof.
  intros tx h. unfold compute_hash.
  destruct (hash_data tx) as [e|data] eqn:Hd; [discriminate|].
  intros [= <-].
  destruct (sha256_hexdigest_shape data) as [Hl Hx].
  destruct (take_shape is_hex 16 (sha256_hexdigest data) ltac:(rewrite Hl; lia) Hx) as [H1 H2].
  split; [exact H1|]. split; [exact H2|]. split.
  - intros s fv. unfold hash_data in Hd |- *. simpl.
    destruct (float_of_decimal (importe tx)); [discriminate|].
    injection Hd as <-. reflexivity.
  - intros Hr. unfold hash_data in Hd |- *. simpl. rewrite Hr in Hd.
    destruct (float_of_decimal (importe tx)); [discriminate|].
    injection Hd as <-. reflexivity.
Qed.

Lemma compute_hash_shape_witness :
  String.length "63a4f217de769d5f" = 16%nat
  /\ all_chars is_hex "63a4f217de769d5f" = true
  /\ (forall s fv,
        compute_hash (mkTransaccionRaw (fecha ParserFacts.pago_raw)
                        (concepto ParserFacts.pago_raw) (importe ParserFacts.pago_raw) s
                        (referencia ParserFacts.pago_raw) fv) = inr "63a4f217de769d5f")
  /\ (referencia ParserFacts.pago_raw = Some "" ->
      compute_hash (mkTransaccionRaw (fecha ParserFacts.pago_raw)
                      (concepto ParserFacts.pago_raw) (importe ParserFacts.pago_raw)
                      (saldo ParserFacts.pago_raw) None (fecha_valor ParserFacts.pago_raw))
      = inr "63a4f217de769d5f").
Proof.
  apply (compute_hash_shape ParserFacts.pago_raw "63a4f217de769d5f").
  vm_compute. reflexivity.
Defined.

End CsvRowsFacts.

(** ** More properties of the upload endpoints *)

Module UploadFacts.
Import PyStr PyNum PyDate Hashes Validators Extractos.

Lemma hash_exists_app db more h :
  hash_exists (db ++ more) h = hash_exists db h || hash_exists more h.
Proof. unfold hash_exists. apply existsb_app. Qed.

Lemma hash_exists_In db h : hash_exists db h = true <-> In h (map t_hash db).
Proof.
  unfold hash_exists. rewrite existsb_exists, in_map_iff. split.
  - intros (t & Ht & He). apply String.eqb_eq in He. exists t. auto.
  - intros (t & He & Ht). exists t. split; [exact Ht|]. apply String.eqb_eq, He.
Qed.

Lemma NoDup_snoc_list {A : Type} (l : list A) (x : A) :
  List.NoDup l -> ~ In x l -> List.NoDup (l ++ [x]).
Proof.
  induction l as [|a l IH]; simpl; intros Hnd Hx.
  - apply List.NoDup_cons; [intros []|apply List.NoDup_nil].
  - apply List.NoDup_cons_iff in Hnd. destruct Hnd as [Ha Hnd].
    apply List.NoDup_cons.
    + intros Hin. apply in_app_or in Hin. destruct Hin as [Hin|[<-|[]]]; [exact (Ha Hin)|].
      apply Hx. left. reflexivity.
    + apply IH; [exact Hnd|]. intros Hin. apply Hx. right. exact Hin.
Qed.

Lemma NoDup_snoc db t :
  List.NoDup (map t_hash db) -> hash_exists db (t_hash t) = false ->
  List.NoDup (map t_hash (db ++ [t])).
Proof.
  intros Hnd Hno. rewrite map_app. simpl.
  apply NoDup_snoc_list; [exact Hnd|].
  intros Hin. apply hash_exists_In in Hin. congruence.
Qed.

(** *** The legacy endpoint *)

(** The row [upload_extracto] stores for a parsed transaction. *)
Definition stored_as (cuenta : string) (tx_raw : Parsers.TransaccionRaw) (t : Transaccion)
  : Prop :=
  Parsers.compute_hash tx_raw = inr (t_hash t)
  /\ cuenta_id t = cuenta
  /\ t_fecha t = isoformat (Parsers.fecha tx_raw)
  /\ t_importe t = Parsers.importe tx_raw
  /\ t_concepto t = Parsers.concepto tx_raw
  /\ t_referencia t = Parsers.referencia tx_raw
  /\ (decimal_gt0 (Parsers.importe tx_raw) = inr true /\ t_tipo t = "ingreso"
      \/ decimal_gt0 (Parsers.importe tx_raw) = inr false /\ t_tipo t = "gasto").

Lemma upload_loop_spec cuenta txs : forall db c d db' c' d',
  upload_loop cuenta txs db c d = inr (db', c', d') ->
  exists added,
    db' = db ++ added
    /\ c' = c + Z.of_nat (length added)
    /\ c' + d' = c + d + Z.of_nat (length txs)
    /\ (forall tx, In tx txs ->
          exists h, Parsers.compute_hash tx = inr h /\ hash_exists db' h = true)
    /\ (List.NoDup (map t_hash db) -> List.NoDup (map t_hash db'))
    /\ (forall t, In t added -> exists tx, In tx txs /\ stored_as cuenta tx t).
Proof.
  induction txs as [|tx rest IH]; intros db c d db' c' d'; simpl.
  - intros [= <- <- <-]. exists []. rewrite app_nil_r.
    split; [reflexivity|]. split; [simpl; lia|]. split; [simpl; lia|].
    split; [intros ? []|]. split; [tauto|intros ? []].
  - destruct (Parsers.compute_hash tx) as [e|h] eqn:Hh; [discriminate|].
    destruct (hash_exists db h) eqn:He.
    + intros H. destruct (IH _ _ _ _ _ _ H) as (added & -> & Hc & Hs & Hall & Hnd & Hst).
      exists added. split; [reflexivity|]. split; [exact Hc|]. split; [lia|].
      split; [|split; [exact Hnd|]].
      * intros x [<-|Hx]; [|exact (Hall x Hx)].
        exists h. split; [exact Hh|]. rewrite hash_exists_app, He. reflexivity.
      * intros t Ht. destruct (Hst t Ht) as (x & Hx & Hsx). exists x. split; [right|]; assumption.
    + destruct (decimal_gt0 (Parsers.importe tx)) as [e|positive] eqn:Hp; [discriminate|].
      intros H. destruct (IH _ _ _ _ _ _ H) as (added & -> & Hc & Hs & Hall & Hnd & Hst).
      eexists (_ :: added). rewrite <- app_assoc. split; [reflexivity|].
      split; [simpl length; lia|]. split; [lia|]. split; [|split].
      * intros x [<-|Hx]; [|rewrite app_assoc; exact (Hall x Hx)].
        exists h. split; [exact Hh|].
        rewrite hash_exists_app. simpl. rewrite String.eqb_refl. apply orb_true_r.
      * intros Hn. rewrite app_assoc. apply Hnd. apply NoDup_snoc; [exact Hn|exact He].
      * intros t [<-|Ht].
        -- exists tx. split; [left; reflexivity|]. unfold stored_as. simpl.
           repeat split; try assumption. destruct positive; [left|right]; auto.
        -- destruct (Hst t Ht) as (x & Hx & Hsx). exists x. split; [right|]; assumption.
Qed.

Lemma upload_loop_all_known cuenta txs : forall db c d,
  (forall tx, In tx txs ->
     exists h, Parsers.compute_hash tx = inr h /\ hash_exists db h = true) ->
  upload_loop cuenta txs db c d = inr (db, c, d + Z.of_nat (length txs)).
Proof.
  induction txs as [|tx rest IH]; intros db c d Hall; simpl.
  - f_equal. f_equal. lia.
  - destruct (Hall tx (or_introl eq_refl)) as (h & Hh & He). rewrite Hh, He.
    rewrite IH by (intros x Hx; apply Hall; right; exact Hx).
    f_equal. f_equal. lia.
Qed.

(** X17. The accounts of [upload_extracto].  When it answers, the file had
    transactions; the rows it added come after the rows the table had,
    which are untouched; their number is [transacciones_creadas], and
    created and ignored together are the transactions of the file; every
    added row is one of them, stored for the account, as [ingreso] when
    its amount is positive and as [gasto] otherwise; and if the hashes of
    the table were distinct they still are.  When it fails the table is
    as it was. *)
Theorem upload_accounts :
  forall (cuenta : string) (parsed : Exc + list Parsers.TransaccionRaw)
         (db : list Transaccion),
    (forall resp db', upload_extracto cuenta parsed db = (inr resp, db') ->
       exists txs added,
         parsed = inr txs /\ txs <> []
         /\ db' = db ++ added
         /\ transacciones_creadas resp = Z.of_nat (length added)
         /\ transacciones_creadas resp + duplicados_ignorados resp = Z.of_nat (length txs)
         /\ (forall t, In t added -> exists tx, In tx txs /\ stored_as cuenta tx t)
         /\ (List.NoDup (map t_hash db) -> List.NoDup (map t_hash db')))
    /\ (forall e db', upload_extracto cuenta parsed db = (inl e, db') -> db' = db).
Proof.
  intros cuenta parsed db. unfold upload_extracto. split.
  - intros resp db'. destruct parsed as [e|[|tx txs]]; try discriminate.
    destruct (upload_loop cuenta (tx :: txs) db 0 0) as [e|[[db1 c1] d1]] eqn:Hl;
      [discriminate|].
    intros [= <- <-].
    destruct (upload_loop_spec _ _ _ _ _ _ _ _ Hl) as (added & Hdb & Hc & Hs & _ & Hnd & Hst).
    exists (tx :: txs), added. simpl transacciones_creadas. simpl duplicados_ignorados.
    split; [reflexivity|]. split; [discriminate|]. split; [exact Hdb|].
    split; [lia|]. split; [lia|]. split; [exact Hst|exact Hnd].
  - intros e db'. destruct parsed as [e'|[|tx txs]]; try (intros [= _ <-]; reflexivity).
    destruct (upload_loop cuenta (tx :: txs) db 0 0) as [e'|[[db1 c1] d1]];
      [intros [= _ <-]; reflexivity|discriminate].
Qed.

(** X18. Uploading the same transactions again through [upload_extracto]
    creates nothing: every one of them is counted as a duplicate and the
    table stays as it is. *)
Theorem upload_again_creates_nothing :
  forall (cuenta : string) (txs : list Parsers.TransaccionRaw) (db db' : list Transaccion)
         (resp : Response),
    upload_extracto cuenta (inr txs) db = (inr resp, db') ->
    forall cuenta' : string,
      upload_extracto cuenta' (inr txs) db'
      = (inr (mkResponse 0 (Z.of_nat (length txs))), db').
Proof.
  intros cuenta txs db db' resp H cuenta'. unfold upload_extracto in *.
  destruct txs as [|tx txs]; [discriminate|].
  destruct (upload_loop cuenta (tx :: txs) db 0 0) as [e|[[db1 c1] d1]] eqn:Hl; [discriminate|].
  injection H as _ <-.
  destruct (upload_loop_spec _ _ _ _ _ _ _ _ Hl) as (added & _ & _ & _ & Hall & _).
  rewrite (upload_loop_all_known cuenta' (tx :: txs) db1 0 0 Hall). reflexivity.
Qed.

Lemma upload_again_creates_nothing_witness :
  upload_extracto "cuenta-2" (inr [ParserFacts.pago_raw])
    (snd (upload_extracto "cuenta-1" (inr [ParserFacts.pago_raw]) []))
  = (inr (mkResponse 0 (Z.of_nat (length [ParserFacts.pago_raw]))),
     snd (upload_extracto "cuenta-1" (inr [ParserFacts.pago_raw]) [])).
Proof.
  refine (upload_again_creates_nothing "cuenta-1" [ParserFacts.pago_raw] []
            (snd (upload_extracto "cuenta-1" (inr [ParserFacts.pago_raw]) []))
            (mkResponse 1 0) _ "cuenta-2").
  vm_compute. reflexivity.
Defined.

(** *** The smart endpoint *)

Lemma upload_smart_loop_raises fromisoformat cuenta tx rest db c d :
  hash_exists db (smart_hash tx) = false ->
  exists e, upload_smart_loop fromisoformat cuenta (tx :: rest) db c d = inl e.
Proof.
  intros Hno. simpl. rewrite Hno.
  destruct (fromisoformat (fecha tx)); [|eexists; reflexivity].
  destruct (Decimal (float_repr (importe tx))); [|eexists; reflexivity].
  eexists. reflexivity.
Qed.

Lemma upload_smart_loop_returns fromisoformat cuenta txs : forall db c d db' c' d',
  upload_smart_loop fromisoformat cuenta txs db c d = inr (db', c', d') ->
  db' = db /\ c' = c /\ d' = d + Z.of_nat (length txs)
  /\ forall tx, In tx txs -> hash_exists db (smart_hash tx) = true.
Proof.
  induction txs as [|tx rest IH]; intros db c d db' c' d' H.
  - simpl in H. injection H as <- <- <-. repeat split; [simpl; lia|intros tx []].
  - destruct (hash_exists db (smart_hash tx)) eqn:He.
    + simpl in H. rewrite He in H.
      destruct (IH _ _ _ _ _ _ H) as (-> & -> & -> & Hall).
      repeat split; [rewrite length_cons; lia|].
      intros x [<-|Hx]; [exact He|exact (Hall x Hx)].
    + destruct (upload_smart_loop_raises fromisoformat cuenta tx rest db c d He) as [e Hr].
      rewrite Hr in H. discriminate.
Qed.

(** X19. [upload_extracto_smart] never stores a transaction.  For an
    account that exists, whatever the file, the run of the parsing agent
    ends in error and the endpoint answers 400 with the message of the
    [AttributeError]; the table is left as it was.  The loop that would
    store the validated transactions could not add a row either: for a
    transaction whose hash is not in the table the constructor of
    [Transaccion] raises [TypeError] for the keyword [estado], which is no
    column, so the loop returns only when every transaction is in the
    table already. *)
Theorem upload_smart_never_stores :
  forall (u : SmartParser.Unmodelled) (fromisoformat : string -> option date)
         (uuid4 : string) (up : SmartUpload) (db : list Transaccion),
    upload_extracto_smart u fromisoformat uuid4 up db
    = (inl (HTTPException
              "Error parseando archivo: 'SmartParserAgent' object has no attribute 'logger'"),
       db)
    /\ (forall (cuenta : string) (tx : ValidTx) (rest : list ValidTx) (db0 : list Transaccion)
               (c d : Z),
          hash_exists db0 (smart_hash tx) = false ->
          (exists e, upload_smart_loop fromisoformat cuenta (tx :: rest) db0 c d = inl e)
          /\ (is_Some (fromisoformat (fecha tx)) ->
              is_Some (Decimal (float_repr (importe tx))) ->
              upload_smart_loop fromisoformat cuenta (tx :: rest) db0 c d
              = inl (TypeError "'estado' is an invalid keyword argument for Transaccion")))
    /\ (forall (cuenta : string) (txs : list ValidTx) (db0 db1 : list Transaccion)
               (c d c1 d1 : Z),
          upload_smart_loop fromisoformat cuenta txs db0 c d = inr (db1, c1, d1) ->
          db1 = db0 /\ c1 = c /\ d1 = d + Z.of_nat (length txs)
          /\ forall tx, In tx txs -> hash_exists db0 (smart_hash tx) = true).
Proof.
  intros u fromisoformat uuid4 up db. split; [|split].
  - apply ParserFacts.upload_extracto_smart_400.
  - intros cuenta tx rest db0 c d Hno. split.
    + apply upload_smart_loop_raises, Hno.
    + intros [x Hx] [v Hv]. simpl. rewrite Hno, Hx, Hv. reflexivity.
  - intros cuenta txs db0 db1 c d c1 d1 H.
    exact (upload_smart_loop_returns _ _ _ _ _ _ _ _ _ H).
Qed.

End UploadFacts.

(** ** More properties of the guided CSV extractor *)

Module GuidedExtractFacts.
Import PyStr PyNum Validators CsvExtractorLLM ConceptFacts CsvRowsFacts.

Lemma cell_stripped row i v : cell row i = inr v -> strip v = v.
Proof.
  unfold cell. destruct (i <? Z.of_nat (length row)).
  - destruct (row_index row i) as [e|x]; [discriminate|].
    intros [= <-]. apply strip_idem.
  - intros [= <-]. reflexivity.
Qed.

Lemma extract_row_some fecha_idx concepto_idx referencia_idx indices row_idx row tx :
  extract_row fecha_idx concepto_idx referencia_idx indices row_idx row = Some tx ->
  (2 <= length row)%nat
  /\ exists fecha concepto importe,
       cell row fecha_idx = inr fecha
       /\ importe_of indices row = inr (Some importe)
       /\ fecha <> "" /\ importe <> ""
       /\ raw_fecha tx = Some fecha /\ raw_concepto tx = Some concepto
       /\ raw_importe tx = Some importe
       /\ raw_metadata tx = row_metadata row_idx.
Proof.
  unfold extract_row.
  destruct (Nat.ltb_spec (length row) 2); [discriminate|].
  destruct (cell row fecha_idx) as [e|fecha]; [discriminate|].
  destruct (match concepto_idx with Some c => cell row c | None => inr "" end)
    as [e|concepto]; [discriminate|].
  destruct (match referencia_idx with Some r => _ | None => _ end)
    as [e|referencia]; [discriminate|].
  destruct (importe_of indices row) as [e|[importe|]]; try discriminate.
  destruct (String.eqb_spec fecha ""); [discriminate|].
  destruct (String.eqb_spec importe ""); [discriminate|].
  intros [= <-]. split; [lia|]. exists fecha, concepto, importe. repeat split; assumption.
Qed.

Lemma extract_rows_In fecha_idx concepto_idx referencia_idx indices rows : forall row_idx tx,
  In tx (extract_rows fecha_idx concepto_idx referencia_idx indices row_idx rows) ->
  exists j row,
    nth_error rows j = Some row
    /\ extract_row fecha_idx concepto_idx referencia_idx indices (row_idx + Z.of_nat j) row
       = Some tx.
Proof.
  induction rows as [|row rest IH]; intros row_idx tx; simpl; [intros []|].
  assert (Hrest : In tx (extract_rows fecha_idx concepto_idx referencia_idx indices
                           (row_idx + 1) rest) ->
                  exists j r, nth_error (row :: rest) j = Some r
                    /\ extract_row fecha_idx concepto_idx referencia_idx indices
                         (row_idx + Z.of_nat j) r = Some tx).
  { intros Hin. destruct (IH _ _ Hin) as (j & r & Hn & He). exists (S j), r.
    split; [exact Hn|]. replace (row_idx + Z.of_nat (S j)) with (row_idx + 1 + Z.of_nat j) by lia.
    exact He. }
  destruct (extract_row fecha_idx concepto_idx referencia_idx indices row_idx row) as [t|] eqn:He;
    [|exact Hrest].
  intros [<-|Hin]; [|exact (Hrest Hin)].
  exists 0%nat, row. split; [reflexivity|]. rewrite Z.add_0_r. exact He.
Qed.

Lemma extract_rows_length fecha_idx concepto_idx referencia_idx indices rows : forall row_idx,
  (length (extract_rows fecha_idx concepto_idx referencia_idx indices row_idx rows)
   <= length rows)%nat.
Proof.
  induction rows as [|row rest IH]; intros row_idx; simpl; [lia|].
  specialize (IH (row_idx + 1)).
  destruct (extract_row fecha_idx concepto_idx referencia_idx indices row_idx row); simpl; lia.
Qed.

(** The rows [extract] reads: those after the header, when there is one. *)
Definition data_rows (estructura : Estructura) (rows : list (list string))
  : list (list string) :=
  if default true (tiene_cabecera estructura) then tl rows else rows.

(** X20. [CSVExtractorLLM.extract] as a whole.  Without a column of type
    [fecha] it raises, whatever the file holds, and a missing date column
    is reported before a missing amount column.  Otherwise it returns, for
    an empty file too.  Every transaction it returns comes from a row of
    two cells or more after the header (the header is the first row unless
    [tiene_cabecera] is false): its date and its amount are the trimmed
    texts that row gives and are not empty, and its line number is the
    position of the row among these counted from 2.  With a single amount
    column the amount is the trimmed text of that cell, its sign left as it
    is. *)
Theorem guided_extract_contract :
  forall (estructura : Estructura) (rows : list (list string)),
    let d := columnas_dict estructura in
    (_get_column_index_by_type d "fecha" = None ->
     extract estructura rows = inl (ValueError "LLM no identificó columna de fecha"))
    /\ (is_Some (_get_column_index_by_type d "fecha") -> importe_indices d = [] ->
        extract estructura rows = inl (ValueError "LLM no identificó columnas de importe"))
    /\ (is_Some (_get_column_index_by_type d "fecha") -> importe_indices d <> [] ->
        exists txs, extract estructura rows = inr txs)
    /\ (forall txs, extract estructura rows = inr txs ->
        (length txs <= length (data_rows estructura rows))%nat
        /\ forall tx, In tx txs ->
             exists (j : nat) (row : list string) (fecha importe : string),
               nth_error (data_rows estructura rows) j = Some row
               /\ (2 <= length row)%nat
               /\ raw_fecha tx = Some fecha /\ fecha <> "" /\ strip fecha = fecha
               /\ raw_importe tx = Some importe /\ importe <> ""
               /\ importe_of (importe_indices d) row = inr (Some importe)
               /\ raw_metadata tx = row_metadata (2 + Z.of_nat j)
               /\ (forall i0, importe_indices d = [i0] ->
                     cell row i0 = inr importe /\ strip importe = importe)).
Proof.
  intros estructura rows d. unfold extract. fold d.
  assert (Hdata : (if default true (tiene_cabecera estructura)
                   then match rows with [] => [] | _ :: rest => rest end
                   else rows) = data_rows estructura rows).
  { unfold data_rows. destruct (default true (tiene_cabecera estructura)); [|reflexivity].
    destruct rows; reflexivity. }
  rewrite Hdata.
  split; [intros ->; reflexivity|]. split; [intros [i ->] ->; reflexivity|]. split.
  - intros [i ->] Hne. destruct (importe_indices d); [congruence|]. eexists. reflexivity.
  - intros txs. destruct (_get_column_index_by_type d "fecha") as [fecha_idx|]; [|discriminate].
    destruct (importe_indices d) as [|i0 more] eqn:Hi; [discriminate|].
    intros [= <-]. split; [apply extract_rows_length|].
    intros tx Hin. destruct (extract_rows_In _ _ _ _ _ _ _ Hin) as (j & row & Hn & He).
    destruct (extract_row_some _ _ _ _ _ _ _ He)
      as (Hlen & fecha & concepto & importe & Hf & Himp & Hfn & Hin' & H1 & H2 & H3 & H4).
    exists j, row, fecha, importe.
    split; [exact Hn|]. split; [exact Hlen|]. split; [exact H1|]. split; [exact Hfn|].
    split; [exact (cell_stripped _ _ _ Hf)|]. split; [exact H3|]. split; [exact Hin'|].
    split; [exact Himp|]. split; [exact H4|].
    intros i1 [= -> ->]. simpl in Himp.
    destruct (cell row i1) as [e|v] eqn:Hc; [discriminate|].
    injection Himp as <-. split; [reflexivity|exact (cell_stripped _ _ _ Hc)].
Qed.

End GuidedExtractFacts.

(** ** [services/extractors/csv_extractor.py]: [CSVExtractor] *)

Module CsvExtractor.
Import PyStr.

Definition FECHA_KEYWORDS : list string :=
  ["fecha"; "date"; "fec"; "f.valor"; "f.operacion"; "datetime"].
Definition CONCEPTO_KEYWORDS : list string :=
  ["concepto"; "descripcion"; "description"; "desc"; "detalle"; "observaciones"].
Definition IMPORTE_KEYWORDS : list string :=
  ["importe"; "amount"; "monto"; "cantidad"; "valor"; "debe"; "haber"].
Definition REFERENCIA_KEYWORDS : list string :=
  ["referencia"; "reference"; "ref"; "num"; "numero"].

(** The tab character. *)
Definition tab : ascii := ascii_of_N 9.

(** [max(counts, key=counts.get)] over the keys in their order: the first
    key with the greatest count. *)
Fixpoint max_key (key : ascii -> Z) (best : ascii) (rest : list ascii) : ascii :=
  match rest with
  | [] => best
  | x :: rest' => max_key key (if key best <? key x then x else best) rest'
  end.

(** [_detect_delimiter], from the first line of the file. *)
Definition _detect_delimiter (first_line : string) : ascii :=
  max_key (fun c => count c first_line) "," [";"%char; tab].

(** [_match_column] *)
Definition _match_column (col_name : string) (keywords : list string) : bool :=
  let col_name_lower := strip (lower col_name) in
  existsb (fun keyword => contains keyword col_name_lower) keywords.

(** The dict [mapping]: each field has a column index or [None]. *)
Record Mapping : Type := mkMapping {
  m_fecha : option Z;
  m_concepto : option Z;
  m_importe : option Z;
  m_referencia : option Z
}.

Definition is_none {A : Type} (o : option A) : bool :=
  match o with None => true | Some _ => false end.

(** The body of the loop of [_detect_columns]. *)
Definition detect_header (mapping : Mapping) (idx : Z) (header : string) : Mapping :=
  if is_none (m_fecha mapping) && _match_column header FECHA_KEYWORDS then
    mkMapping (Some idx) (m_concepto mapping) (m_importe mapping) (m_referencia mapping)
  else if is_none (m_concepto mapping) && _match_column header CONCEPTO_KEYWORDS then
    mkMapping (m_fecha mapping) (Some idx) (m_importe mapping) (m_referencia mapping)
  else if is_none (m_importe mapping) && _match_column header IMPORTE_KEYWORDS then
    mkMapping (m_fecha mapping) (m_concepto mapping) (Some idx) (m_referencia mapping)
  else if is_none (m_referencia mapping) && _match_column header REFERENCIA_KEYWORDS then
    mkMapping (m_fecha mapping) (m_concepto mapping) (m_importe mapping) (Some idx)
  else mapping.

Fixpoint detect_headers (mapping : Mapping) (idx : Z) (headers : list string) : Mapping :=
  match headers with
  | [] => mapping
  | header :: rest => detect_headers (detect_header mapping idx header) (idx + 1) rest
  end.

(** [_detect_columns] *)
Definition _detect_columns (headers : list string) : Mapping :=
  detect_headers (mkMapping None None None None) 0 headers.

End CsvExtractor.

Module CsvExtractorKeywordFacts.
Import PyStr CsvExtractor.

Lemma max_key_spec key rest : forall best,
  let r := max_key key best rest in
  In r (best :: rest)
  /\ (forall x, In x (best :: rest) -> key x <= key r)
  /\ ((forall x, In x rest -> key x <= key best) -> r = best).
Proof.
  induction rest as [|x rest IH]; intros best; simpl.
  - split; [left; reflexivity|]. split; [intros y [<-|[]]; lia|reflexivity].
  - destruct (IH (if key best <? key x then x else best)) as (H1 & H2 & H3).
    destruct (Z.ltb_spec (key best) (key x)) as [Hlt|Hge].
    + split; [destruct H1 as [H1|H1]; [right; left; exact H1|right; right; exact H1]|].
      split.
      * intros y [<-|[<-|Hy]].
        -- specialize (H2 x (or_introl eq_refl)). lia.
        -- exact (H2 x (or_introl eq_refl)).
        -- exact (H2 y (or_intror Hy)).
      * intros Hall. specialize (Hall x (or_introl eq_refl)). lia.
    + split; [destruct H1 as [H1|H1]; [left; exact H1|right; right; exact H1]|].
      split.
      * intros y [<-|[<-|Hy]].
        -- exact (H2 best (or_introl eq_refl)).
        -- specialize (H2 best (or_introl eq_refl)). lia.
        -- exact (H2 y (or_intror Hy)).
      * intros Hall. apply H3. intros y Hy. apply Hall. right. exact Hy.
Qed.

(** X21. [_detect_delimiter] returns the comma, the semicolon or the tab; none
    of the three occurs more often in the first line than the one it
    returns; and it returns the comma whenever no other occurs more often
    than the comma, so also for a line without any of them. *)
Theorem detect_delimiter_is_most_frequent :
  forall first_line : string,
    let d := _detect_delimiter first_line in
    In d [","%char; ";"%char; tab]
    /\ (forall c, In c [","%char; ";"%char; tab] -> count c first_line <= count d first_line)
    /\ (count ";" first_line <= count "," first_line ->
        count tab first_line <= count "," first_line -> d = ","%char).
Proof.
  intros first_line d. subst d. unfold _detect_delimiter.
  destruct (max_key_spec (fun c => count c first_line) [";"%char; tab] ","%char)
    as (H1 & H2 & H3).
  split; [exact H1|]. split; [exact H2|].
  intros Ha Hb. apply H3. intros x [<-|[<-|[]]]; assumption.
Qed.

(** *** The columns *)

(** The fields of a mapping with their keywords. *)
Definition field_of (m : Mapping) (k : nat) : option Z :=
  match k with
  | 0%nat => m_fecha m
  | 1%nat => m_concepto m
  | 2%nat => m_importe m
  | _ => m_referencia m
  end.

Definition keywords_of (k : nat) : list string :=
  match k with
  | 0%nat => FECHA_KEYWORDS
  | 1%nat => CONCEPTO_KEYWORDS
  | 2%nat => IMPORTE_KEYWORDS
  | _ => REFERENCIA_KEYWORDS
  end.

(** The invariant of the loop when it reaches the header at [idx]. *)
Definition mapping_ok (all : list string) (idx : Z) (m : Mapping) : Prop :=
  (forall k i, (k < 4)%nat -> field_of m k = Some i ->
     0 <= i < idx
     /\ exists h, nth_error all (Z.to_nat i) = Some h /\ _match_column h (keywords_of k) = true)
  /\ (forall k k' i, (k < 4)%nat -> (k' < 4)%nat ->
        field_of m k = Some i -> field_of m k' = Some i -> k = k')
  /\ match m_fecha m with
     | Some i => forall j h, 0 <= j < i -> nth_error all (Z.to_nat j) = Some h ->
                             _match_column h FECHA_KEYWORDS = false
     | None => forall j h, 0 <= j < idx -> nth_error all (Z.to_nat j) = Some h ->
                           _match_column h FECHA_KEYWORDS = false
     end.

Ltac field_cases k :=
  destruct k as [|[|[|[|k]]]]; [| | | |exfalso; lia].

Lemma detect_header_ok all idx m header :
  0 <= idx ->
  nth_error all (Z.to_nat idx) = Some header ->
  mapping_ok all idx m -> mapping_ok all (idx + 1) (detect_header m idx header).
Proof.
  intros Hidx Hn (Hv & Hd & Hf).
  assert (Hold : forall k i, (k < 4)%nat -> field_of m k = Some i ->
                   0 <= i < idx + 1
                   /\ exists h, nth_error all (Z.to_nat i) = Some h
                                /\ _match_column h (keywords_of k) = true).
  { intros k i Hk Hki. destruct (Hv k i Hk Hki) as [Hr Hh]. split; [lia|exact Hh]. }
  assert (Hfresh : forall k, (k < 4)%nat -> field_of m k <> Some idx).
  { intros k Hk Hki. destruct (Hv k idx Hk Hki) as [Hr _]. lia. }
  unfold detect_header.
  destruct (is_none (m_fecha m) && _match_column header FECHA_KEYWORDS) eqn:C1.
  { apply andb_true_iff in C1. destruct C1 as [Hnone Hm].
    destruct (m_fecha m) as [x|] eqn:Hmf; [discriminate|].
    split; [|split].
    - intros k i Hk. field_cases k; simpl; try (apply (Hold _ i Hk)).
      intros [= <-]. split; [lia|]. exists header. split; [exact Hn|exact Hm].
    - intros k k' i Hk Hk'. field_cases k; field_cases k'; simpl; intros H1 H2;
        try reflexivity;
        try (injection H1 as <-; exfalso;
             first [ exact (Hfresh 1%nat ltac:(lia) H2)
                   | exact (Hfresh 2%nat ltac:(lia) H2)
                   | exact (Hfresh 3%nat ltac:(lia) H2) ]);
        try (injection H2 as <-; exfalso;
             first [ exact (Hfresh 1%nat ltac:(lia) H1)
                   | exact (Hfresh 2%nat ltac:(lia) H1)
                   | exact (Hfresh 3%nat ltac:(lia) H1) ]);
        first [ exact (Hd 1%nat 2%nat i ltac:(lia) ltac:(lia) H1 H2)
              | exact (Hd 1%nat 3%nat i ltac:(lia) ltac:(lia) H1 H2)
              | exact (Hd 2%nat 1%nat i ltac:(lia) ltac:(lia) H1 H2)
              | exact (Hd 2%nat 3%nat i ltac:(lia) ltac:(lia) H1 H2)
              | exact (Hd 3%nat 1%nat i ltac:(lia) ltac:(lia) H1 H2)
              | exact (Hd 3%nat 2%nat i ltac:(lia) ltac:(lia) H1 H2) ].
    - simpl. exact Hf. }
  assert (Hf' : match m_fecha m with
                | Some i => forall j h, 0 <= j < i -> nth_error all (Z.to_nat j) = Some h ->
                                        _match_column h FECHA_KEYWORDS = false
                | None => forall j h, 0 <= j < idx + 1 ->
                                      nth_error all (Z.to_nat j) = Some h ->
                                      _match_column h FECHA_KEYWORDS = false
                end).
  { destruct (m_fecha m) as [x|]; [exact Hf|].
    intros j h Hj Hjn. destruct (Z.eq_dec j idx) as [->|Hne].
    - rewrite Hn in Hjn. injection Hjn as <-. simpl in C1. exact C1.
    - apply (Hf j h); [lia|exact Hjn]. }
  assert (Hset : forall (k0 : nat) (m' : Mapping),
            (k0 < 4)%nat -> k0 <> 0%nat ->
            field_of m k0 = None ->
            _match_column header (keywords_of k0) = true ->
            (forall k, (k < 4)%nat -> k <> k0 -> field_of m' k = field_of m k) ->
            field_of m' k0 = Some idx ->
            m_fecha m' = m_fecha m ->
            mapping_ok all (idx + 1) m').
  { intros k0 m' Hk0 Hk0n Hnone Hm Hsame Hnew Hfe. split; [|split].
    - intros k i Hk Hki. destruct (Nat.eq_dec k k0) as [->|Hne].
      + rewrite Hnew in Hki. injection Hki as <-. split; [lia|].
        exists header. split; [exact Hn|exact Hm].
      + rewrite (Hsame k Hk Hne) in Hki. exact (Hold k i Hk Hki).
    - intros k k' i Hk Hk' H1 H2.
      destruct (Nat.eq_dec k k0) as [->|Hne], (Nat.eq_dec k' k0) as [->|Hne'];
        try reflexivity.
      + rewrite Hnew in H1. injection H1 as <-. rewrite (Hsame k' Hk' Hne') in H2.
        exfalso. exact (Hfresh k' Hk' H2).
      + rewrite Hnew in H2. injection H2 as <-. rewrite (Hsame k Hk Hne) in H1.
        exfalso. exact (Hfresh k Hk H1).
      + rewrite (Hsame k Hk Hne) in H1. rewrite (Hsame k' Hk' Hne') in H2.
        exact (Hd k k' i Hk Hk' H1 H2).
    - rewrite Hfe. exact Hf'. }
  destruct (is_none (m_concepto m) && _match_column header CONCEPTO_KEYWORDS) eqn:C2.
  { apply andb_true_iff in C2. destruct C2 as [Hnone Hm].
    destruct (m_concepto m) eqn:Hmc; [discriminate|].
    apply (Hset 1%nat); try lia; try assumption; try reflexivity.
    intros k Hk Hne. field_cases k; try reflexivity; congruence. }
  destruct (is_none (m_importe m) && _match_column header IMPORTE_KEYWORDS) eqn:C3.
  { apply andb_true_iff in C3. destruct C3 as [Hnone Hm].
    destruct (m_importe m) eqn:Hmc; [discriminate|].
    apply (Hset 2%nat); try lia; try assumption; try reflexivity.
    intros k Hk Hne. field_cases k; try reflexivity; congruence. }
  destruct (is_none (m_referencia m) && _match_column header REFERENCIA_KEYWORDS) eqn:C4.
  { apply andb_true_iff in C4. destruct C4 as [Hnone Hm].
    destruct (m_referencia m) eqn:Hmc; [discriminate|].
    apply (Hset 3%nat); try lia; try assumption; try reflexivity.
    intros k Hk Hne. field_cases k; try reflexivity; congruence. }
  split; [exact Hold|]. split; [exact Hd|exact Hf'].
Qed.

Lemma detect_headers_ok all : forall rest pre m,
  all = pre ++ rest ->
  mapping_ok all (Z.of_nat (length pre)) m ->
  mapping_ok all (Z.of_nat (length all)) (detect_headers m (Z.of_nat (length pre)) rest).
Proof.
  induction rest as [|header rest IH]; intros pre m Hall Hm.
  - simpl. rewrite app_nil_r in Hall. subst pre. exact Hm.
  - simpl. replace (Z.of_nat (length pre) + 1) with (Z.of_nat (length (pre ++ [header])))
      by (rewrite length_app; simpl; lia).
    apply IH; [rewrite <- app_assoc; exact Hall|].
    replace (Z.of_nat (length (pre ++ [header]))) with (Z.of_nat (length pre) + 1)
      by (rewrite length_app; simpl; lia).
    apply detect_header_ok; [lia| |exact Hm].
    rewrite Nat2Z.id, Hall, nth_error_app2 by lia. rewrite Nat.sub_diag. reflexivity.
Qed.

(** X22. [_detect_columns] of the keyword extractor.  Every index of the
    mapping is the position of a header in which a keyword of its field
    occurs; no header serves two fields; the date column is the first
    header in which a date keyword occurs, and it is [None] exactly when
    there is no such header. *)
Theorem keyword_columns_contract :
  forall headers : list string,
    let m := _detect_columns headers in
    (forall k i, (k < 4)%nat -> field_of m k = Some i ->
       0 <= i < Z.of_nat (length headers)
       /\ exists h, nth_error headers (Z.to_nat i) = Some h
                    /\ _match_column h (keywords_of k) = true)
    /\ (forall k k' i, (k < 4)%nat -> (k' < 4)%nat ->
          field_of m k = Some i -> field_of m k' = Some i -> k = k')
    /\ (forall i, m_fecha m = Some i ->
          forall j h, 0 <= j < i -> nth_error headers (Z.to_nat j) = Some h ->
                      _match_column h FECHA_KEYWORDS = false)
    /\ (m_fecha m = None <-> forall h, In h headers -> _match_column h FECHA_KEYWORDS = false).
Proof.
  intros headers m.
  assert (H0 : mapping_ok headers (Z.of_nat (length (@nil string))) (mkMapping None None None None)).
  { split; [|split].
    - intros k i Hk. field_cases k; discriminate.
    - intros k k' i Hk Hk'. field_cases k; discriminate.
    - simpl. intros j h Hj. lia. }
  pose proof (detect_headers_ok headers headers [] _ eq_refl H0) as (Hv & Hd & Hf).
  change (detect_headers (mkMapping None None None None) (Z.of_nat (length (@nil string))) headers)
    with m in Hv, Hd, Hf.
  split; [exact Hv|]. split; [exact Hd|]. split; [|split].
  - intros i Hi. rewrite Hi in Hf. exact Hf.
  - intros Hnone h Hin. rewrite Hnone in Hf.
    apply In_nth_error in Hin. destruct Hin as [n Hn].
    apply (Hf (Z.of_nat n) h).
    + split; [lia|]. apply Nat2Z.inj_lt. apply nth_error_Some. congruence.
    + rewrite Nat2Z.id. exact Hn.
  - intros Hall. destruct (m_fecha m) as [i|] eqn:Hi; [|reflexivity].
    destruct (Hv 0%nat i ltac:(lia) Hi) as (_ & h & Hn & Hm).
    apply nth_error_In in Hn. pose proof (Hall h Hn) as Hx.
    change (keywords_of 0%nat) with FECHA_KEYWORDS in Hm. congruence.
Qed.

End CsvExtractorKeywordFacts.

(** ** [agents/conciliacion.py]: the reconciliation agent *)

(** Binary floating point, for the rate [generate_summary] computes: the
    quotient of two ints, its product by 100 and [round(x, 1)] are each
    the nearest representable number to the exact result. *)
Module PyBinary.
Import PyNum.

(** [n / d] rounded to the nearest integer, a tie to the even one. *)
Definition half_even (n d : Z) : Z :=
  let q := n / d in
  let r := n mod d in
  if 2 * r <? d then q
  else if d <? 2 * r then q + 1
  else if Z.even q then q else q + 1.

Definition pow2 (k : Z) : Z := 2 ^ Z.max 0 k.

(** The binary64 number nearest to [n / d], as a fraction; [0 <= n],
    [0 < d], and the quotient is in the normal range.  It is
    [m * 2^e] with 53 significant bits in [m]. *)
Definition nearest_double (n d : Z) : Z * Z :=
  if n =? 0 then (0, 1)
  else
    let k := Z.log2 n - Z.log2 d in
    let e := if d * pow2 k <=? n * pow2 (- k) then k - 52 else k - 53 in
    let m := half_even (n * pow2 (- e)) (d * pow2 e) in
    (m * pow2 e, pow2 (- e)).

(** [round(a / b * 100, 1)] for ints [0 <= a] and [0 < b]: the result has
    one decimal. *)
Definition round_pct (a b : Z) : PyFloat :=
  let '(n1, d1) := nearest_double a b in
  let '(n2, d2) := nearest_double (100 * n1) d1 in
  py_float (half_even (10 * n2) d2) (-1).

End PyBinary.

Module Conciliacion.
Import PyStr PyNum PyDate PyBinary Agents.

(** A transaction as [load_data] puts it in the state. *)
Record Tx : Type := mkTx {
  tx_id : string;
  tx_fecha : string;
  tx_concepto : string;
  tx_importe : PyFloat;
  tx_embedding : option (list PyFloat)
}.

(** A match, and a proposal made of it: a dict read with [.get] and with
    [[]]; an absent key is [None]. *)
Record Match : Type := mkMatch {
  transaccion_id : option string;
  asiento_id : option string;
  confianza : option Q;
  metodo : option string;
  razones : option (list string);
  estado : option string
}.

(** An element of [discrepancias]. *)
Record Discrepancia : Type := mkDiscrepancia {
  d_transaccion_id : string;
  d_tipo : string;
  d_concepto : string
}.

(** An accounting entry of the request: a JSON object. *)
Definition Asiento : Type := list (string * string).

(** [human_feedback], with the keys the validation endpoint writes. *)
Record Feedback : Type := mkFeedback {
  aprobadas : option (list string);
  rechazadas : option (list string);
  validado_por : option string
}.

(** An [int] or a [float]. *)
Inductive Number : Type := Int (n : Z) | Float (f : PyFloat).

(** [results] of a completed run. *)
Record Results : Type := mkResults {
  total_transacciones : Z;
  conciliadas : Z;
  pendientes : Z;
  tasa_conciliacion : Number;
  res_propuestas : list Match;
  res_discrepancias : list Discrepancia
}.

(** The keys [ConciliacionState] adds to [AgentState]. *)
Record Payload : Type := mkPayload {
  empresa_id : option string;
  periodo_inicio : option string;
  periodo_fin : option string;
  transacciones : option (list Tx);
  asientos : option (list Asiento);
  matches_exactos : option (list Match);
  matches_fuzzy : option (list Match);
  propuestas : option (list Match);
  discrepancias : option (list Discrepancia);
  auto_approve_threshold : option Q
}.

Abbreviation ConciliacionState := (AgentState Feedback Results Payload).

(** A row of [transaccion] joined with its [cuenta_bancaria]:
    [row_empresa] is the [empresa_id] of the account, [row_importe] the
    amount in cents. *)
Record TransaccionRow : Type := mkTransaccionRow {
  row_id : string;
  row_empresa : string;
  row_fecha : date;
  row_concepto : option string;
  row_importe : Z;
  row_embedding : option (list PyFloat)
}.

(** What the agent reads from outside: [UUID] is [str(uuid.UUID(s))] and
    [fromisoformat] is [date.fromisoformat] ([None] where they raise
    [ValueError]), and the table. *)
Record Env : Type := mkEnv {
  UUID : string -> option string;
  fromisoformat : string -> option date;
  tabla_transaccion : list TransaccionRow
}.

(** A row of the table [conciliacion], as [apply_decisions] builds it. *)
Record ConciliacionRow : Type := mkConciliacionRow {
  c_transaccion_id : string;
  c_asiento_id : option string;
  c_confianza : Q;
  c_estado : string;
  c_match_type : string;
  c_razones : list string
}.

(** A call on the database session that writes. *)
Inductive DbCall : Type := Add (c : ConciliacionRow) | Commit.

(** [a <= b] on dates. *)
Definition date_le (a b : date) : bool :=
  (year a <? year b)
  || ((year a =? year b)
      && ((month a <? month b) || ((month a =? month b) && (day a <=? day b)))).

(** [ORDER BY fecha]: rows of the same date keep the order of the table
    (the database leaves their order open). *)
Fixpoint insert_by_fecha (r : TransaccionRow) (l : list TransaccionRow) : list TransaccionRow :=
  match l with
  | [] => [r]
  | x :: l' =>
      if date_le (row_fecha r) (row_fecha x) then r :: l else x :: insert_by_fecha r l'
  end.

Definition order_by_fecha (l : list TransaccionRow) : list TransaccionRow :=
  fold_right insert_by_fecha [] l.

Definition tx_of_row (t : TransaccionRow) : Tx :=
  mkTx (row_id t) (isoformat (row_fecha t)) (default "" (row_concepto t))
       (py_float (row_importe t) (-2)) (row_embedding t).

(** The rows the query of [load_data] returns. *)
Definition select_transacciones (env : Env) (empresa : string) (inicio fin : date)
  : list TransaccionRow :=
  order_by_fecha
    (List.filter (fun t => String.eqb (row_empresa t) empresa
                           && date_le inicio (row_fecha t) && date_le (row_fecha t) fin)
                 (tabla_transaccion env)).

Definition with_loaded (txs : list Tx) (s : ConciliacionState) : ConciliacionState :=
  let p := payload s in
  set_status "processing"
    (set_payload (mkPayload (empresa_id p) (periodo_inicio p) (periodo_fin p) (Some txs)
                            (asientos p) (Some []) (Some []) (Some []) (Some [])
                            (auto_approve_threshold p)) s).

(** [date.fromisoformat(state[key])] *)
Definition read_date (env : Env) (key : string) (v : option string) : Exc + date :=
  match v with
  | None => inl (KeyError ("'" +:+ key +:+ "'"))
  | Some text =>
      match fromisoformat env text with
      | None => inl (ValueError ("Invalid isoformat string: '" +:+ text +:+ "'"))
      | Some d => inr d
      end
  end.

Definition load_data (env : Env) (state : ConciliacionState) : Exc + ConciliacionState :=
  match empresa_id (payload state) with
  | None => inl (KeyError "'empresa_id'")
  | Some empresa_id =>
      match read_date env "periodo_inicio" (periodo_inicio (payload state)) with
      | inl e => inl e
      | inr inicio =>
          match read_date env "periodo_fin" (periodo_fin (payload state)) with
          | inl e => inl e
          | inr fin =>
              match UUID env empresa_id with
              | None => inl (ValueError "badly formed hexadecimal UUID string")
              | Some empresa =>
                  inr (with_loaded (map tx_of_row (select_transacciones env empresa inicio fin))
                                   state)
              end
          end
      end
  end.

Definition set_matches_exactos (v : list Match) (s : ConciliacionState) : ConciliacionState :=
  let p := payload s in
  set_payload (mkPayload (empresa_id p) (periodo_inicio p) (periodo_fin p) (transacciones p)
                         (asientos p) (Some v) (matches_fuzzy p) (propuestas p)
                         (discrepancias p) (auto_approve_threshold p)) s.

Definition set_matches_fuzzy (v : list Match) (s : ConciliacionState) : ConciliacionState :=
  let p := payload s in
  set_payload (mkPayload (empresa_id p) (periodo_inicio p) (periodo_fin p) (transacciones p)
                         (asientos p) (matches_exactos p) (Some v) (propuestas p)
                         (discrepancias p) (auto_approve_threshold p)) s.

Definition set_propuestas (v : list Match) (s : ConciliacionState) : ConciliacionState :=
  let p := payload s in
  set_payload (mkPayload (empresa_id p) (periodo_inicio p) (periodo_fin p) (transacciones p)
                         (asientos p) (matches_exactos p) (matches_fuzzy p) (Some v)
                         (discrepancias p) (auto_approve_threshold p)) s.

Definition set_discrepancias (v : list Discrepancia) (s : ConciliacionState)
  : ConciliacionState :=
  let p := payload s in
  set_payload (mkPayload (empresa_id p) (periodo_inicio p) (periodo_fin p) (transacciones p)
                         (asientos p) (matches_exactos p) (matches_fuzzy p) (propuestas p)
                         (Some v) (auto_approve_threshold p)) s.

(** [exact_match] and [fuzzy_match]: the matching is still to be written,
    both return no match. *)
Definition exact_match (state : ConciliacionState) : ConciliacionState :=
  set_matches_exactos [] state.

Definition fuzzy_match (state : ConciliacionState) : ConciliacionState :=
  set_matches_fuzzy [] state.

(** [a < b] on confidences. *)
Definition Qltb (a b : Q) : bool := negb (Qle_bool b a).

Definition threshold_of (state : ConciliacionState) : Q :=
  default 0.95%Q (auto_approve_threshold (payload state)).

(** [m.get("confianza", 0)] *)
Definition confianza_of (m : Match) : Q := default 0%Q (confianza m).

(** [{**m, "estado": v}] *)
Definition with_estado (v : string) (m : Match) : Match :=
  mkMatch (transaccion_id m) (asiento_id m) (confianza m) (metodo m) (razones m) (Some v).

(** [{m["transaccion_id"] for m in all_matches}] *)
Fixpoint matched_tx_ids (ms : list Match) : Exc + gset string :=
  match ms with
  | [] => inr ∅
  | m :: rest =>
      match transaccion_id m with
      | None => inl (KeyError "'transaccion_id'")
      | Some i =>
          match matched_tx_ids rest with
          | inl e => inl e
          | inr ids => inr ({[ i ]} ∪ ids)
          end
      end
  end.

Definition sin_match (tx : Tx) : Discrepancia :=
  mkDiscrepancia (tx_id tx) "sin_match" (tx_concepto tx).

Definition prepare_review (state : ConciliacionState) : Exc + ConciliacionState :=
  let p := payload state in
  let threshold := threshold_of state in
  let all_matches := default [] (matches_exactos p) ++ default [] (matches_fuzzy p) in
  let auto_approved :=
    map (with_estado "auto_aprobado")
        (List.filter (fun m => Qle_bool threshold (confianza_of m)) all_matches) in
  let needs_review :=
    map (with_estado "pendiente_revision")
        (List.filter (fun m => Qltb (confianza_of m) threshold) all_matches) in
  match matched_tx_ids all_matches with
  | inl e => inl e
  | inr ids =>
      let discrepancias :=
        map sin_match
            (List.filter (fun tx => bool_decide (tx_id tx ∉ ids))
                         (default [] (transacciones p))) in
      inr (set_status (match needs_review with [] => "processing" | _ => "review" end)
             (set_requires_human (match needs_review with [] => false | _ => true end)
                (set_discrepancias discrepancias
                   (set_propuestas (auto_approved ++ needs_review) state))))
  end.

Definition present {A : Type} (o : option A) : bool :=
  match o with Some _ => true | None => false end.

(** Truth value of the feedback: a dict is false when it is empty, and so
    is an absent one. *)
Definition feedback_truthy (f : option Feedback) : bool :=
  match f with
  | None => false
  | Some fb => present (aprobadas fb) || present (rechazadas fb) || present (validado_por fb)
  end.

(** [_should_pause_for_review]: [true] is the answer [pause]. *)
Definition _should_pause_for_review (state : ConciliacionState) : bool :=
  let threshold := threshold_of state in
  let propuestas_pendientes :=
    List.filter (fun p => Qltb (confianza_of p) threshold)
                (default [] (propuestas (payload state))) in
  match propuestas_pendientes with
  | [] => false
  | _ => negb (feedback_truthy (human_feedback state))
  end.

(** The first loop of [apply_decisions], on one proposal. *)
Definition decide_one (aprobadas rechazadas : gset string) (propuesta : Match) : Exc + Match :=
  match transaccion_id propuesta with
  | None => inl (KeyError "'transaccion_id'")
  | Some i =>
      if bool_decide (i ∈ aprobadas) then inr (with_estado "validado" propuesta)
      else if bool_decide (i ∈ rechazadas) then inr (with_estado "rechazado" propuesta)
      else
        match estado propuesta with
        | None => inl (KeyError "'estado'")
        | Some e =>
            if String.eqb e "auto_aprobado" then inr (with_estado "validado" propuesta)
            else inr propuesta
        end
  end.

Fixpoint decide_all (aprobadas rechazadas : gset string) (ps : list Match) : Exc + list Match :=
  match ps with
  | [] => inr []
  | p :: rest =>
      match decide_one aprobadas rechazadas p with
      | inl e => inl e
      | inr p' =>
          match decide_all aprobadas rechazadas rest with
          | inl e => inl e
          | inr rest' => inr (p' :: rest')
          end
      end
  end.

(** The second loop: one row per validated proposal. *)
Fixpoint store_all (ps : list Match) (db : list DbCall) : (Exc + unit) * list DbCall :=
  match ps with
  | [] => (inr tt, db)
  | p :: rest =>
      match estado p with
      | None => (inl (KeyError "'estado'"), db)
      | Some e =>
          if String.eqb e "validado" then
            match transaccion_id p with
            | None => (inl (KeyError "'transaccion_id'"), db)
            | Some i =>
                match confianza p with
                | None => (inl (KeyError "'confianza'"), db)
                | Some c =>
                    match metodo p with
                    | None => (inl (KeyError "'metodo'"), db)
                    | Some mt =>
                        store_all rest
                          (db ++ [Add (mkConciliacionRow i (asiento_id p) c "validado" mt
                                         (default [] (razones p)))])
                    end
                end
            end
          else store_all rest db
      end
  end.

(** [apply_decisions].  The first loop changes the proposals in place, so
    the state returned holds the changed ones. *)
Definition apply_decisions (state : ConciliacionState) (db : list DbCall)
  : (Exc + ConciliacionState) * list DbCall :=
  let feedback := human_feedback state in
  let aprobadas : gset string :=
    list_to_set (match feedback with Some fb => default [] (aprobadas fb) | None => [] end) in
  let rechazadas : gset string :=
    list_to_set (match feedback with Some fb => default [] (rechazadas fb) | None => [] end) in
  match decide_all aprobadas rechazadas (default [] (propuestas (payload state))) with
  | inl e => (inl e, db)
  | inr ps =>
      match store_all ps db with
      | (inl e, db') => (inl e, db')
      | (inr _, db') =>
          (inr (set_status "completing"
                  (match propuestas (payload state) with
                   | Some _ => set_propuestas ps state
                   | None => state
                   end)),
           db' ++ [Commit])
      end
  end.

(** [p.get("estado") == "validado"] *)
Definition is_validado (p : Match) : bool :=
  match estado p with
  | Some e => String.eqb e "validado"
  | None => false
  end.

Definition generate_summary (state : ConciliacionState) : ConciliacionState :=
  let p := payload state in
  let total := Z.of_nat (length (default [] (transacciones p))) in
  let conciliadas := Z.of_nat (length (List.filter is_validado (default [] (propuestas p)))) in
  let pendientes := Z.of_nat (length (default [] (discrepancias p))) in
  set_results
    (mkResults total conciliadas pendientes
               (if 0 <? total then Float (round_pct conciliadas total) else Int 0)
               (default [] (propuestas p)) (default [] (discrepancias p)))
    (set_status "completed" state).

(** A node that leaves the session alone. *)
Definition pure_node (f : ConciliacionState -> Exc + ConciliacionState)
  : @Node Feedback Results Payload (list DbCall) :=
  fun s db => (f s, db).

(** [build_graph] *)
Definition build_graph (env : Env) : @StateGraph Feedback Results Payload (list DbCall) :=
  mkStateGraph
    [ ("load_data", pure_node (load_data env));
      ("exact_match", pure_node (fun s => inr (exact_match s)));
      ("fuzzy_match", pure_node (fun s => inr (fuzzy_match s)));
      ("prepare_review", pure_node prepare_review);
      ("apply_decisions", apply_decisions);
      ("generate_summary", pure_node (fun s => inr (generate_summary s))) ]
    (fun name s =>
       if String.eqb name "load_data" then Goto "exact_match"
       else if String.eqb name "exact_match" then Goto "fuzzy_match"
       else if String.eqb name "fuzzy_match" then Goto "prepare_review"
       else if String.eqb name "prepare_review"
            then (if _should_pause_for_review s then END else Goto "apply_decisions")
       else if String.eqb name "apply_decisions" then Goto "generate_summary"
       else END)
    "load_data".

(** [ConciliacionAgent(db, hf).run(initial_state)] *)
Definition run_conciliacion (env : Env) (fresh : string) (initial_state : ConciliacionState)
    (db : list DbCall) : ConciliacionState * list DbCall :=
  run (build_graph env) fresh initial_state db.

End Conciliacion.

(** ** [api/v1/conciliacion.py]: the reconciliation endpoints *)

Module ConciliacionApi.
Import PyStr PyNum PyDate Agents Conciliacion.
Import ClasificacionApi.

(** [ConciliacionRequest], with its defaults filled in. *)
Record ConciliacionRequest : Type := mkConciliacionRequest {
  req_empresa_id : string;
  req_periodo_inicio : string;
  req_periodo_fin : string;
  req_asientos : list Asiento;
  req_auto_approve_threshold : Q
}.

(** [ConciliacionValidate]: the ids as [str] writes them. *)
Record ConciliacionValidate : Type := mkConciliacionValidate {
  val_propuestas : list string;
  val_rechazadas : list string
}.

(** What [iniciar_conciliacion] answers. *)
Record IniciarResponse : Type := mkIniciarResponse {
  i_session_id : string;
  i_status : option string;
  i_requires_human : bool;
  i_propuestas : list Match;
  i_discrepancias : list Discrepancia;
  i_results : option Results
}.

(** What [get_session] answers. *)
Record SessionResponse : Type := mkSessionResponse {
  g_session_id : string;
  g_status : option string;
  g_propuestas : list Match;
  g_discrepancias : list Discrepancia
}.

(** What [validar_propuestas] answers. *)
Record ValidarPropuestasResponse : Type := mkValidarPropuestasResponse {
  vp_session_id : string;
  vp_status : option string;
  vp_results : option Results
}.

(** The dict [_sessions] of the module. *)
Abbreviation ConciliacionSessions := (gmap string ConciliacionState).

(** [result.get("status") == text] *)
Definition estado_is (text : string) (s : ConciliacionState) : bool :=
  match status s with
  | Some st => String.eqb st text
  | None => false
  end.

(** [iniciar_conciliacion]; [uuid4] is the session id it draws. *)
Definition iniciar_conciliacion (env : Env) (uuid4 : string) (request : ConciliacionRequest)
    (current_user : TokenPayload) (sessions : ConciliacionSessions) (db : list DbCall)
  : IniciarResponse * ConciliacionSessions * list DbCall :=
  let session_id := uuid4 in
  let initial_state :=
    mkAgentState (Some (user_tenant_id current_user)) (Some session_id) None None None None None
      (mkPayload (Some (req_empresa_id request)) (Some (req_periodo_inicio request))
                 (Some (req_periodo_fin request)) None (Some (req_asientos request))
                 None None None None (Some (req_auto_approve_threshold request))) in
  let '(result, db') := run_conciliacion env uuid4 initial_state db in
  let sessions' :=
    if estado_is "review" result then <[ session_id := result ]> sessions else sessions in
  (mkIniciarResponse session_id (status result) (default false (requires_human result))
     (default [] (propuestas (payload result)))
     (default [] (discrepancias (payload result)))
     (results result),
   sessions', db').

(** [get_session] *)
Definition get_session (session_id : string) (current_user : TokenPayload)
    (sessions : ConciliacionSessions) : HTTPError + SessionResponse :=
  match sessions !! session_id with
  | None => inl (mkHTTPError 404 "Sesión no encontrada")
  | Some state =>
      if negb (bool_decide (tenant_id state = Some (user_tenant_id current_user)))
      then inl (mkHTTPError 403 "Acceso denegado")
      else inr (mkSessionResponse session_id (status state)
                  (default [] (propuestas (payload state)))
                  (default [] (discrepancias (payload state))))
  end.

(** [validar_propuestas].  The feedback is written into the stored state
    itself; [uuid4] is the id [run] would draw for a state without one. *)
Definition validar_propuestas (env : Env) (uuid4 : string) (session_id : string)
    (validacion : ConciliacionValidate) (current_user : TokenPayload)
    (sessions : ConciliacionSessions) (db : list DbCall)
  : (HTTPError + ValidarPropuestasResponse) * ConciliacionSessions * list DbCall :=
  match sessions !! session_id with
  | None => (inl (mkHTTPError 404 "Sesión no encontrada"), sessions, db)
  | Some state =>
      if negb (bool_decide (tenant_id state = Some (user_tenant_id current_user)))
      then (inl (mkHTTPError 403 "Acceso denegado"), sessions, db)
      else
        let state :=
          set_human_feedback
            (mkFeedback (Some (val_propuestas validacion)) (Some (val_rechazadas validacion))
                        (Some (sub current_user))) state in
        let sessions := <[ session_id := state ]> sessions in
        let '(result, db') := run_conciliacion env uuid4 state db in
        let sessions' :=
          if estado_is "completed" result then delete session_id sessions else sessions in
        (inr (mkValidarPropuestasResponse session_id (status result) (results result)),
         sessions', db')
  end.

End ConciliacionApi.

Module ConciliacionFacts.
Import PyStr PyNum PyDate PyBinary Agents Conciliacion ConciliacionApi.
Import ClasificacionApi.

Lemma conciliacion_loaded env s s1 :
  load_data env s = inr s1 -> exists txs, s1 = with_loaded txs s.
Proof.
  unfold load_data, read_date.
  destruct (empresa_id (payload s)); [|discriminate].
  destruct (periodo_inicio (payload s)) as [a|]; [|discriminate].
  destruct (fromisoformat env a); [|discriminate].
  destruct (periodo_fin (payload s)) as [b|]; [|discriminate].
  destruct (fromisoformat env b); [|discriminate].
  destruct (UUID env s0); [|discriminate].
  intros [= <-]. eexists. reflexivity.
Qed.

Lemma filter_all_true {A : Type} (f : A -> bool) (l : list A) :
  (forall x, f x = true) -> List.filter f l = l.
Proof.
  intros H. induction l as [|x l IH]; [reflexivity|].
  simpl. rewrite H, IH. reflexivity.
Qed.

Lemma round_pct_zero n : round_pct 0 n = py_float 0 0.
Proof. reflexivity. Qed.

(** The state a run ends with once the transactions are loaded. *)
Definition summary (txs : list Tx) (s : ConciliacionState) : ConciliacionState :=
  let n := Z.of_nat (length txs) in
  let p := payload s in
  mkAgentState (tenant_id s) (session_id s) (Some "completed")
    (Some (mkResults n 0 n (if 0 <? n then Float (py_float 0 0) else Int 0) []
                     (map sin_match txs)))
    (Some false) (human_feedback s) (error s)
    (mkPayload (empresa_id p) (periodo_inicio p) (periodo_fin p) (Some txs) (asientos p)
               (Some []) (Some []) (Some []) (Some (map sin_match txs))
               (auto_approve_threshold p)).

Lemma ainvoke_loaded env s db txs :
  load_data env s = inr (with_loaded txs s) ->
  ainvoke recursion_limit (build_graph env) "load_data" s db
  = (inr (summary txs s), db ++ [Commit]).
Proof.
  intros H. unfold recursion_limit.
  cbn [ainvoke find_node nodes build_graph String.eqb Ascii.eqb Bool.eqb pure_node edges].
  rewrite H.
  cbn [ainvoke find_node nodes build_graph String.eqb Ascii.eqb Bool.eqb pure_node edges].
  unfold prepare_review, exact_match, fuzzy_match, with_loaded. simpl.
  rewrite (filter_all_true _ txs) by (intros x; apply bool_decide_eq_true; set_solver).
  unfold summary, generate_summary. simpl. rewrite length_map. reflexivity.
Qed.

Lemma ainvoke_failed env s db e :
  load_data env s = inl e ->
  ainvoke recursion_limit (build_graph env) "load_data" s db = (inl e, db).
Proof.
  intros H. unfold recursion_limit.
  cbn [ainvoke find_node nodes build_graph String.eqb Ascii.eqb Bool.eqb pure_node edges].
  rewrite H. reflexivity.
Qed.

(** A run ends in one of two ways. *)
Lemma run_conciliacion_outcome env fresh s0 db :
  match load_data env (ensure_session fresh s0) with
  | inl e =>
      run_conciliacion env fresh s0 db
      = (set_error (exc_str e) (set_status "error" (ensure_session fresh s0)), db)
  | inr s1 =>
      exists txs, s1 = with_loaded txs (ensure_session fresh s0)
        /\ run_conciliacion env fresh s0 db
           = (summary txs (ensure_session fresh s0), db ++ [Commit])
  end.
Proof.
  unfold run_conciliacion, run.
  change (entry_point (build_graph env)) with "load_data".
  destruct (load_data env (ensure_session fresh s0)) as [e|s1] eqn:H.
  - rewrite (ainvoke_failed _ _ _ _ H). reflexivity.
  - destruct (conciliacion_loaded _ _ _ H) as [txs ->]. exists txs. split; [reflexivity|].
    rewrite (ainvoke_loaded _ _ _ _ H). reflexivity.
Qed.

(** X24. The matching stages of the agent return no match, so a run that loads
    its period reconciles nothing: it never pauses for review, it reports
    every transaction of the period as a discrepancy of the kind
    [sin_match], in the order of their dates as loaded, with a rate of 0,
    and it only commits the session.  This holds whatever accounting
    entries, threshold and feedback the state carries. *)
Theorem conciliacion_reconciles_nothing :
  forall (env : Env) (fresh : string) (s0 s1 : ConciliacionState) (db : list DbCall),
    load_data env (ensure_session fresh s0) = inr s1 ->
    let txs := default [] (transacciones (payload s1)) in
    let n := Z.of_nat (length txs) in
    let r := run_conciliacion env fresh s0 db in
    snd r = db ++ [Commit]
    /\ status (fst r) = Some "completed"
    /\ requires_human (fst r) = Some false
    /\ results (fst r)
       = Some (mkResults n 0 n (if 0 <? n then Float (py_float 0 0) else Int 0) []
                         (map sin_match txs))
    /\ propuestas (payload (fst r)) = Some []
    /\ transacciones (payload (fst r)) = Some txs.
Proof.
  intros env fresh s0 s1 db H txs n r.
  pose proof (run_conciliacion_outcome env fresh s0 db) as Hr. rewrite H in Hr.
  destruct Hr as (txs' & -> & Hr). subst r txs n. rewrite Hr. simpl.
  repeat split; reflexivity.
Qed.

(** *** A sample period *)

(** A stand-in for [date.fromisoformat]: the dates written
    [YYYY-MM-DD]. *)
Definition demo_fromisoformat (s : string) : option date :=
  match strptime s fmt_Ymd_dash with
  | inr d => Some d
  | inl _ => None
  end.

Definition id_empresa : string := "dddddddd-0000-4000-8000-000000000001".
Definition id_otra_empresa : string := "dddddddd-0000-4000-8000-000000000002".

(** Four rows: two of the company in December 2024, stored out of
    order, one of January and one of another company. *)
Definition periodo_env : Env :=
  mkEnv ClasificacionFacts.demo_uuid demo_fromisoformat
    [ mkTransaccionRow ClasificacionFacts.id_tx1 id_empresa (mkdate 2024 12 16)
        (Some "PAGO AMAZON") (-4599) None;
      mkTransaccionRow ClasificacionFacts.id_tx2 id_empresa (mkdate 2024 12 2)
        None 120000 None;
      mkTransaccionRow ClasificacionFacts.id_tx3 id_empresa (mkdate 2025 1 3)
        (Some "ALQUILER") (-80000) None;
      mkTransaccionRow "bbbbbbbb-0000-4000-8000-000000000004" id_otra_empresa
        (mkdate 2024 12 10) (Some "NOMINA") 150000 None ].

(** The state of a validation: an entry to match and a feedback that
    approves the first transaction. *)
Definition periodo_state : ConciliacionState :=
  mkAgentState (Some ClasificacionFacts.id_tenant) (Some "sesion-3") None None None
    (Some (mkFeedback (Some [ClasificacionFacts.id_tx1]) (Some []) (Some "u-1"))) None
    (mkPayload (Some id_empresa) (Some "2024-12-01") (Some "2024-12-31") None
               (Some [[("importe", "-45.99"); ("fecha", "2024-12-16")]])
               None None None None (Some 0.5%Q)).

Lemma conciliacion_reconciles_nothing_witness :
  snd (run_conciliacion periodo_env "sesion-4" periodo_state []) = [] ++ [Commit]
  /\ results (fst (run_conciliacion periodo_env "sesion-4" periodo_state []))
     = Some (mkResults 2 0 2 (Float (py_float 0 0)) []
               [ mkDiscrepancia ClasificacionFacts.id_tx2 "sin_match" "";
                 mkDiscrepancia ClasificacionFacts.id_tx1 "sin_match" "PAGO AMAZON" ]).
Proof.
  destruct (conciliacion_reconciles_nothing periodo_env "sesion-4" periodo_state
              (with_loaded
                 [ mkTx ClasificacionFacts.id_tx2 "2024-12-02" "" (py_float 120000 (-2)) None;
                   mkTx ClasificacionFacts.id_tx1 "2024-12-16" "PAGO AMAZON"
                        (py_float (-4599) (-2)) None ]
                 periodo_state)
              [] eq_refl) as (Hdb & _ & _ & Hres & _).
  split; [exact Hdb|exact Hres].
Defined.

(** X25. [POST /conciliacion/iniciar] never opens a review session: the run it
    starts ends completed or in error, so the session store is left as it
    was and the answer carries no proposal and asks for no review.  The
    session id it answers is then unknown to [get_session] and
    [validar_propuestas], which answer 404 and change nothing. *)
Theorem iniciar_never_opens_a_session :
  forall (env : Env) (uuid4 : string) (request : ConciliacionRequest)
         (current_user : TokenPayload) (sessions : ConciliacionSessions) (db : list DbCall),
    let '(resp, sessions1, db1) :=
      iniciar_conciliacion env uuid4 request current_user sessions db in
    sessions1 = sessions
    /\ i_session_id resp = uuid4
    /\ i_requires_human resp = false
    /\ i_propuestas resp = []
    /\ ((i_status resp = Some "completed" /\ db1 = db ++ [Commit]
         /\ exists n, i_results resp
                      = Some (mkResults n 0 n (if 0 <? n then Float (py_float 0 0) else Int 0)
                                        [] (i_discrepancias resp))
                      /\ n = Z.of_nat (length (i_discrepancias resp)))
        \/ (i_status resp = Some "error" /\ db1 = db
            /\ i_results resp = None /\ i_discrepancias resp = []))
    /\ (sessions !! uuid4 = None ->
        forall (user : TokenPayload),
          get_session uuid4 user sessions1 = inl (mkHTTPError 404 "Sesión no encontrada")
          /\ forall (fresh : string) (validacion : ConciliacionValidate) (db2 : list DbCall),
               validar_propuestas env fresh uuid4 validacion user sessions1 db2
               = (inl (mkHTTPError 404 "Sesión no encontrada"), sessions1, db2)).
Proof.
  intros env uuid4 request current_user sessions db. unfold iniciar_conciliacion.
  set (s0 := mkAgentState _ _ _ _ _ _ _ _).
  pose proof (run_conciliacion_outcome env uuid4 s0 db) as Hr.
  assert (Hs : ensure_session uuid4 s0 = s0) by reflexivity.
  rewrite Hs in Hr.
  assert (Hlook : sessions !! uuid4 = None ->
            forall user : TokenPayload,
              get_session uuid4 user sessions = inl (mkHTTPError 404 "Sesión no encontrada")
              /\ forall (fresh : string) (validacion : ConciliacionValidate) (db2 : list DbCall),
                   validar_propuestas env fresh uuid4 validacion user sessions db2
                   = (inl (mkHTTPError 404 "Sesión no encontrada"), sessions, db2)).
  { intros Hn user. unfold get_session, validar_propuestas. rewrite Hn.
    split; [reflexivity|]. intros. reflexivity. }
  destruct (load_data env s0) as [e|s1].
  - rewrite Hr. simpl.
    split; [reflexivity|]. split; [reflexivity|]. split; [reflexivity|].
    split; [reflexivity|]. split; [|exact Hlook].
    right. repeat split; reflexivity.
  - destruct Hr as (txs & _ & ->). simpl.
    split; [reflexivity|]. split; [reflexivity|]. split; [reflexivity|].
    split; [reflexivity|]. split; [|exact Hlook].
    left. split; [reflexivity|]. split; [reflexivity|].
    exists (Z.of_nat (length txs)). rewrite length_map. split; reflexivity.
Qed.

End ConciliacionFacts.

(** ** [agents/tesoreria.py]: the alerts of the treasury report *)

Module Tesoreria.
Import PyStr PyNum.

(** The keys of [metricas] that [generate_alerts] reads.  [None] is an
    absent key, and for the last two also the value [None], which
    [calculate_metrics] stores when there is no runway or no ratio. *)
Record Metricas : Type := mkMetricas {
  saldo_total : option PyFloat;
  burn_rate_mensual : option PyFloat;
  runway_meses : option PyFloat;
  ratio_ingresos_gastos : option PyFloat
}.

(** [proyeccion.get("60d", {}).get("base", 0)]: [None] when either key is
    absent. *)
Record Proyeccion : Type := mkProyeccion {
  base_60d : option PyFloat
}.

(** The int [0], which compares as the float [0.0]. *)
Definition zero : PyFloat := Fin 0 0.

(** [a < b] on floats: every comparison with a NaN is false. *)
Definition float_lt (a b : PyFloat) : bool :=
  match a with
  | NaN => false
  | Inf true => match b with NaN | Inf true => false | _ => true end
  | Inf false => false
  | Fin m x =>
      match b with
      | NaN | Inf true => false
      | Inf false => true
      | Fin n y =>
          let lo := Z.min x y in
          m * 10 ^ (x - lo) <? n * 10 ^ (y - lo)
      end
  end.

(** Truth value of [metricas.get(key)]: [None] and zero are false. *)
Definition truthy (v : option PyFloat) : bool :=
  match v with
  | None => false
  | Some (Fin m _) => negb (m =? 0)
  | Some _ => true
  end.

Definition alerta_saldo : string := "⚠️ CRÍTICO: Saldo actual menor a un mes de gastos".
Definition alerta_ratio : string := "📉 Gastos superiores a ingresos en el periodo".
Definition alerta_proyeccion : string := "🔴 Proyección de saldo negativo en 60 días".
Definition alerta_runway (runway : PyFloat) : string :=
  "⚠️ Runway de solo " +:+ float_repr runway +:+ " meses".

(** [metricas.get(key)] for [metricas = state.get("metricas", {})] *)
Definition metrica (metricas : option Metricas) (key : Metricas -> option PyFloat)
  : option PyFloat :=
  match metricas with Some m => key m | None => None end.

(** One [if] of [generate_alerts]: it appends to both lists. *)
Definition alert_if (cond : bool) (alerta recomendacion : string)
    (acc : list string * list string) : list string * list string :=
  if cond then (fst acc ++ [alerta], snd acc ++ [recomendacion]) else acc.

(** [generate_alerts]: the lists [alertas] and [recomendaciones] it puts in
    the state, from the keys [metricas] and [proyeccion] of the state
    ([None]: the key is absent). *)
Definition generate_alerts (metricas : option Metricas) (proyeccion : option Proyeccion)
  : list string * list string :=
  let base := match proyeccion with Some p => base_60d p | None => None end in
  let runway := metrica metricas runway_meses in
  let ratio := metrica metricas ratio_ingresos_gastos in
  let acc := ([], []) in
  let acc :=
    alert_if (float_lt (default zero (metrica metricas saldo_total))
                       (default zero (metrica metricas burn_rate_mensual)))
             alerta_saldo "Revisar opciones de financiación urgente" acc in
  let acc :=
    alert_if (truthy runway && float_lt (default zero runway) (Fin 3 0))
             (alerta_runway (default zero runway)) "Acelerar cobros pendientes" acc in
  let acc :=
    alert_if (truthy ratio && float_lt (default zero ratio) (Fin 1 0))
             alerta_ratio "Revisar estructura de costes" acc in
  alert_if (float_lt (default zero base) zero)
           alerta_proyeccion "Negociar plazos de pago con proveedores" acc.

End Tesoreria.

Module TesoreriaFacts.
Import PyStr PyNum Tesoreria.

(** The pairs of an alert and its recommendation. *)
Definition is_pair (a r : string) : Prop :=
  (a = alerta_saldo /\ r = "Revisar opciones de financiación urgente")
  \/ ((exists runway, a = alerta_runway runway) /\ r = "Acelerar cobros pendientes")
  \/ (a = alerta_ratio /\ r = "Revisar estructura de costes")
  \/ (a = alerta_proyeccion /\ r = "Negociar plazos de pago con proveedores").

Lemma alert_if_pairs cond a r acc :
  is_pair a r ->
  Forall2 is_pair (fst acc) (snd acc) ->
  Forall2 is_pair (fst (alert_if cond a r acc)) (snd (alert_if cond a r acc)).
Proof.
  intros Hp Hacc. unfold alert_if. destruct cond; [|exact Hacc].
  simpl. apply Forall2_app; [exact Hacc|]. constructor; [exact Hp|constructor].
Qed.

Lemma alert_if_In cond a r acc x :
  In x (fst (alert_if cond a r acc)) -> In x (fst acc) \/ (cond = true /\ x = a).
Proof.
  unfold alert_if. destruct cond; simpl; [|tauto].
  rewrite in_app_iff. simpl. intros [H|[H|[]]]; [tauto|]. right. auto.
Qed.

(** X26. [generate_alerts] gives one recommendation per alert, in the same
    order, at most four of each.  The tests of the runway and of the ratio
    take a zero for a missing value: with a ratio of income to expenses of
    [0.0] (expenses and no income at all) the alert on expenses above
    income is not raised, and with a runway of [0.0] months there is no
    runway alert. *)
Theorem alerts_pair_up_and_skip_zero :
  forall (metricas : option Metricas) (proyeccion : option Proyeccion),
    let '(alertas, recomendaciones) := generate_alerts metricas proyeccion in
    Forall2 is_pair alertas recomendaciones
    /\ (length alertas <= 4)%nat
    /\ (metrica metricas ratio_ingresos_gastos = Some (py_float 0 0) \/
         metrica metricas ratio_ingresos_gastos = None ->
         ~ In alerta_ratio alertas)
    /\ (metrica metricas runway_meses = Some (py_float 0 0) \/
         metrica metricas runway_meses = None ->
         forall runway, ~ In (alerta_runway runway) alertas)
    /\ (forall ratio, metrica metricas ratio_ingresos_gastos = Some ratio ->
         truthy (Some ratio) = true -> float_lt ratio (Fin 1 0) = true ->
         In alerta_ratio alertas).
Proof.
  intros metricas proyeccion.
  destruct (generate_alerts metricas proyeccion) as [alertas recomendaciones] eqn:Hg.
  assert (Ha : alertas = fst (generate_alerts metricas proyeccion)) by (rewrite Hg; reflexivity).
  assert (Hr : recomendaciones = snd (generate_alerts metricas proyeccion))
    by (rewrite Hg; reflexivity).
  clear Hg. subst alertas recomendaciones. unfold generate_alerts.
  set (c1 := float_lt (default zero (metrica metricas saldo_total)) _).
  set (c2 := truthy (metrica metricas runway_meses) && _).
  set (c3 := truthy (metrica metricas ratio_ingresos_gastos) && _).
  set (c4 := float_lt _ zero).
  split; [|split; [|split; [|split]]].
  - repeat apply alert_if_pairs; try (constructor; fail); unfold is_pair.
    + right; right; right. split; reflexivity.
    + right; right; left. split; reflexivity.
    + right; left. split; [eexists; reflexivity|reflexivity].
    + left. split; reflexivity.
  - unfold alert_if. destruct c1, c2, c3, c4; simpl; lia.
  - intros Hz Hin.
    assert (Hc3 : c3 = false).
    { subst c3. destruct Hz as [-> | ->]; reflexivity. }
    repeat (apply alert_if_In in Hin; destruct Hin as [Hin|[Hc Hx]]);
      try (destruct Hin; fail); try congruence; discriminate Hx.
  - intros Hz runway Hin.
    assert (Hc2 : c2 = false).
    { subst c2. destruct Hz as [-> | ->]; reflexivity. }
    repeat (apply alert_if_In in Hin; destruct Hin as [Hin|[Hc Hx]]);
      try (destruct Hin; fail); try congruence; discriminate Hx.
  - intros ratio Hratio Ht Hlt.
    assert (Hc3 : c3 = true).
    { subst c3. rewrite Hratio. simpl default. rewrite Ht, Hlt. reflexivity. }
    rewrite Hc3. unfold alert_if at 1 2.
    destruct c4; simpl; rewrite ?in_app_iff; simpl; tauto.
Qed.

End TesoreriaFacts.
